(** * The SE05x T=1-over-I2C block engine of libifdse (halse_se05x.c)

    A shallow embedding of the block protocol engine: CRC-16 framing,
    the I-, R- and S-block senders, the receiver with its WTX and
    retransmit tail calls, the APDU exchange [halse_se05x_xfer] and the
    ATR rewrite [halse_se05x_get_atr].
    Around it: the resets and the power control of the SE05x, the
    retry on NACK of hali2c.c, the GPIO interface of halgpio.h with the
    provider of the kernel, the table of devices of halse.c and the
    entry points of the IFD handler.

    Conventions.
    - [unsigned char] is [Byte.byte]; a computed value stored into a
      byte is reduced modulo 256 by [u8].
    - [uint16_t] and [int] values are [Z]; the 16-bit wrap-around is
      written out with [u16].
    - [size_t] lengths and offsets are [nat]: every one of them is
      bounded by the size of a buffer, so none can wrap.
    - The fixed arrays [txbuf] and [rxbuf] are lists, read with the
      total lookup [!!!] and written with [<[i:=x]>] and [list_inserts]
      (memcpy); the session invariant [wf_dev] says they have the
      declared 259 bytes.
    - The I2C slave is the environment: a script of the outcomes of the
      successive raw read and write transactions, plus the log of what
      the slave accepted.  [usleep] only passes time, which is not
      modelled; it is taken to succeed. *)

From Stdlib Require Import ZArith Lia.
From Stdlib.Strings Require Import Byte.
From Stdlib.Strings Require Ascii String.
From stdpp Require Import base tactics option list.
Import Ascii.AsciiSyntax String.StringSyntax.
Delimit Scope string_scope with string.
Delimit Scope char_scope with char.

Local Open Scope Z_scope.

(** ** Bytes and fixed-width integers *)

Definition u8_Z (z : Z) : Z := z mod 256.
Definition u16 (z : Z) : Z := z mod 65536.

Definition Z_of_byte (b : byte) : Z := Z.of_N (Byte.to_N b).

Definition nat_of_byte (b : byte) : nat := Z.to_nat (Z_of_byte b).

(** Store of an integer value into an [unsigned char]. *)
Definition u8 (z : Z) : byte :=
  match Byte.of_N (Z.to_N (u8_Z z)) with
  | Some b => b
  | None => x00
  end.

#[global] Instance byte_inhabited : Inhabited byte := populate x00.
#[global] Instance byte_eq_decision : EqDecision byte := Byte.byte_eq_dec.

(** ** Constants of halse_se05x.c *)

Definition SE05X_NAD : Z := 0x5A.
Definition HOST_NAD : Z := 0xA5.

Definition SIZE_PROLOGUE : nat := 3.
Definition SIZE_INF_MAX : nat := 254.
Definition SIZE_EPILOGUE : nat := 2.
Definition SIZE_BUF : nat := SIZE_PROLOGUE + SIZE_INF_MAX + SIZE_EPILOGUE.

Definition I_BLOCK : Z := 0x00.
Definition I_BLOCK_MASK : Z := 0x80.
Definition R_BLOCK : Z := 0x80.
Definition R_BLOCK_MASK : Z := 0xC0.
Definition S_BLOCK : Z := 0xC0.
Definition S_BLOCK_MASK : Z := 0xC0.

Inductive cmd_dir := CMD_REQ | CMD_RES.

Definition cmd_dir_val (d : cmd_dir) : Z :=
  match d with
  | CMD_REQ => 0
  | CMD_RES => Z.shiftl 1 5
  end.

Definition CMD_REQRES_MASK : Z := Z.shiftl 1 5.

Inductive cmd_type :=
  | CMD_RESYNC | CMD_SET_IFC | CMD_ABORT | CMD_WTX
  | CMD_SOFT_RESET | CMD_EOA | CMD_RESET | CMD_ATR.

Definition cmd_type_val (t : cmd_type) : Z :=
  match t with
  | CMD_RESYNC => 0x00
  | CMD_SET_IFC => 0x01
  | CMD_ABORT => 0x02
  | CMD_WTX => 0x03
  | CMD_SOFT_RESET => 0x0F
  | CMD_EOA => 0x05
  | CMD_RESET => 0x06
  | CMD_ATR => 0x07
  end.

Definition CMD_TYPE_MASK : Z := 0x1F.

Definition EE_NO_ERROR : Z := 0x00.
Definition EE_CRC_ERROR : Z := 0x01.
Definition EE_OTHER_ERROR : Z := 0x02.
Definition CMD_ERROR_MASK : Z := 0x03.

(** errno values of Linux, as <errno.h> gives them. *)
Definition ENXIO : Z := 6.
Definition ETIMEDOUT : Z := 110.
Definition EREMOTEIO : Z := 121.

(** ** PCB classification *)

Definition is_i_block (pcb : byte) : bool :=
  Z.land (Z_of_byte pcb) I_BLOCK_MASK =? I_BLOCK.

Definition is_r_block (pcb : byte) : bool :=
  Z.land (Z_of_byte pcb) R_BLOCK_MASK =? R_BLOCK.

Definition is_r_block_with_error (pcb : byte) : bool :=
  is_r_block pcb && negb (Z.land (Z_of_byte pcb) CMD_ERROR_MASK =? 0).

Definition is_s_block (pcb : byte) : bool :=
  Z.land (Z_of_byte pcb) S_BLOCK_MASK =? S_BLOCK.

Definition is_s_block_request (pcb : byte) : bool :=
  is_s_block pcb && (Z.land (Z_of_byte pcb) CMD_REQRES_MASK =? cmd_dir_val CMD_REQ).

Definition is_s_block_response (pcb : byte) : bool :=
  is_s_block pcb && (Z.land (Z_of_byte pcb) CMD_REQRES_MASK =? cmd_dir_val CMD_RES).

(** ** CRC16 and TCK checksums *)

(** helpers.h: [(v << 8) | (v >> 8)], truncated to 16 bits on return. *)
Definition swap_uint16 (v : Z) : Z :=
  u16 (Z.lor (Z.shiftl v 8) (Z.shiftr v 8)).

(** One round of the inner loop of [halse_se05x_calculate_crc]. *)
Definition crc_shift (crc : Z) : Z :=
  if Z.land crc 0x0001 =? 0x0001
  then u16 (Z.lxor (Z.shiftr crc 1) 0x8408)
  else Z.shiftr crc 1.

(** One round of the outer loop: [crc ^= buf[i]], then eight shifts. *)
Definition crc_update (crc : Z) (b : byte) : Z :=
  Nat.iter 8 crc_shift (u16 (Z.lxor crc (Z_of_byte b))).

Definition halse_se05x_calculate_crc (buf : list byte) (len : nat) : Z :=
  let crc := fold_left crc_update (take len buf) 0xFFFF in
  swap_uint16 (u16 (Z.lxor crc 0xFFFF)).

Definition halse_se05x_calculate_xor (buf : list byte) (len : nat) : byte :=
  fold_left (fun v b => u8 (Z.lxor (Z_of_byte v) (Z_of_byte b))) (take len buf) x00.

(** ** The session: struct halse_se05x_dev *)

Record halse_se05x_dev := mk_dev {
  atr : list byte;            (* cached ATR; atr_len is its length *)
  timeout_us : nat;
  guard_time_us : nat;
  max_retries : nat;
  n_s : Z;
  n_r : Z;
  txbuf : list byte;
  txlen : nat;
  txretransmit : bool;
  rxbuf : list byte;
}.

Definition set_n_s (v : Z) (dev : halse_se05x_dev) : halse_se05x_dev :=
  mk_dev (atr dev) (timeout_us dev) (guard_time_us dev) (max_retries dev)
         v (n_r dev) (txbuf dev) (txlen dev) (txretransmit dev) (rxbuf dev).

Definition set_n_r (v : Z) (dev : halse_se05x_dev) : halse_se05x_dev :=
  mk_dev (atr dev) (timeout_us dev) (guard_time_us dev) (max_retries dev)
         (n_s dev) v (txbuf dev) (txlen dev) (txretransmit dev) (rxbuf dev).

Definition set_txbuf (v : list byte) (dev : halse_se05x_dev) : halse_se05x_dev :=
  mk_dev (atr dev) (timeout_us dev) (guard_time_us dev) (max_retries dev)
         (n_s dev) (n_r dev) v (txlen dev) (txretransmit dev) (rxbuf dev).

Definition set_txlen (v : nat) (dev : halse_se05x_dev) : halse_se05x_dev :=
  mk_dev (atr dev) (timeout_us dev) (guard_time_us dev) (max_retries dev)
         (n_s dev) (n_r dev) (txbuf dev) v (txretransmit dev) (rxbuf dev).

Definition set_txretransmit (v : bool) (dev : halse_se05x_dev) : halse_se05x_dev :=
  mk_dev (atr dev) (timeout_us dev) (guard_time_us dev) (max_retries dev)
         (n_s dev) (n_r dev) (txbuf dev) (txlen dev) v (rxbuf dev).

Definition set_rxbuf (v : list byte) (dev : halse_se05x_dev) : halse_se05x_dev :=
  mk_dev (atr dev) (timeout_us dev) (guard_time_us dev) (max_retries dev)
         (n_s dev) (n_r dev) (txbuf dev) (txlen dev) (txretransmit dev) v.

(** Both block buffers have their declared size. *)
Definition wf_dev (dev : halse_se05x_dev) : Prop :=
  length (txbuf dev) = SIZE_BUF ∧ length (rxbuf dev) = SIZE_BUF.

Definition halse_se05x_clear_state (dev : halse_se05x_dev) : halse_se05x_dev :=
  set_n_r 0 (set_n_s 0 dev).

Definition halse_se05x_clear_buf (dev : halse_se05x_dev) : halse_se05x_dev :=
  set_rxbuf (replicate SIZE_BUF x00)
    (set_txretransmit false
      (set_txlen 0%nat
        (set_txbuf (replicate SIZE_BUF x00) dev))).

(** ** The I2C slave as environment *)

(** Outcome of one raw [read] on the I2C character device
    (hali2c_kernel_read): the bytes the slave delivers, or [-errno]. *)
Inductive rd_event :=
  | RdData (bs : list byte)
  | RdErr (errno : positive).

(** Outcome of one raw [write] (hali2c_kernel_write): everything is
    accepted, only the first [n] bytes are, or [-errno]. *)
Inductive wr_event :=
  | WrAck
  | WrShort (n : nat)
  | WrErr (errno : positive).

Record i2c_bus := mk_bus {
  rd_script : list rd_event;
  wr_script : list wr_event;
  wire : list (list byte);    (* what the slave accepted, oldest first *)
}.

(** [dev->read(dev, buf + off, len)]: the return value, the buffer and
    the bus afterwards.  A slave with nothing scripted does not answer
    (NACK, -ENXIO). *)
Definition hali2c_kernel_read (bus : i2c_bus) (buf : list byte) (off len : nat)
  : Z * list byte * i2c_bus :=
  match rd_script bus with
  | [] => (- ENXIO, buf, bus)
  | RdData bs :: rest =>
      (Z.of_nat (length (take len bs)),
       list_inserts off (take len bs) buf,
       mk_bus rest (wr_script bus) (wire bus))
  | RdErr e :: rest =>
      (- Z.pos e, buf, mk_bus rest (wr_script bus) (wire bus))
  end.

(** [dev->write(dev, buf, len)]. *)
Definition hali2c_kernel_write (bus : i2c_bus) (buf : list byte) (len : nat)
  : Z * i2c_bus :=
  match wr_script bus with
  | [] => (- ENXIO, bus)
  | WrAck :: rest =>
      (Z.of_nat len, mk_bus (rd_script bus) rest (wire bus ++ [take len buf]))
  | WrShort n :: rest =>
      (Z.of_nat (n `min` len),
       mk_bus (rd_script bus) rest (wire bus ++ [take (n `min` len) buf]))
  | WrErr e :: rest =>
      (- Z.pos e, mk_bus (rd_script bus) rest (wire bus))
  end.

(** hali2c.c *)
Definition is_nack (v : Z) : bool :=
  (v =? - ENXIO) || (v =? - ETIMEDOUT) || (v =? - EREMOTEIO).

(** The do-while loop of [hali2c_read_with_retry]; [more] is the number
    of further rounds the loop condition [counter < max_attempts]
    still grants after this one. *)
Fixpoint hali2c_read_loop (more : nat) (bus : i2c_bus) (buf : list byte) (off len : nat)
  : Z * list byte * i2c_bus :=
  let '(ret, buf', bus') := hali2c_kernel_read bus buf off len in
  if ret =? Z.of_nat len then (0, buf', bus')
  else if is_nack ret then
    match more with
    | O => (- ETIMEDOUT, buf', bus')
    | S more' => hali2c_read_loop more' bus' buf' off len
    end
  else (ret, buf', bus').

Definition hali2c_read_with_retry (bus : i2c_bus) (buf : list byte) (off len : nat)
    (max_attempts : nat) : Z * list byte * i2c_bus :=
  hali2c_read_loop (max_attempts - 1) bus buf off len.

Fixpoint hali2c_write_loop (more : nat) (bus : i2c_bus) (buf : list byte) (len : nat)
  : Z * i2c_bus :=
  let '(ret, bus') := hali2c_kernel_write bus buf len in
  if ret =? Z.of_nat len then (0, bus')
  else if is_nack ret then
    match more with
    | O => (- ETIMEDOUT, bus')
    | S more' => hali2c_write_loop more' bus' buf len
    end
  else (ret, bus').

Definition hali2c_write_with_retry (bus : i2c_bus) (buf : list byte) (len : nat)
    (max_attempts : nat) : Z * i2c_bus :=
  hali2c_write_loop (max_attempts - 1) bus buf len.

(** Read [len] bytes into [rxbuf + off]. *)
Definition halse_se05x_read_i2c (dev : halse_se05x_dev) (bus : i2c_bus) (off len : nat)
  : Z * halse_se05x_dev * i2c_bus :=
  let '(ret, buf', bus') :=
    hali2c_read_with_retry bus (rxbuf dev) off len (max_retries dev) in
  (ret, set_rxbuf buf' dev, bus').

(** Write the first [len] bytes of [txbuf]. *)
Definition halse_se05x_write_i2c (dev : halse_se05x_dev) (bus : i2c_bus) (len : nat)
  : Z * halse_se05x_dev * i2c_bus :=
  let '(ret, bus') :=
    hali2c_write_with_retry bus (txbuf dev) len (max_retries dev) in
  (ret, dev, bus').

(** ** Sending blocks *)

(** Calculate and append the CRC and send the block. *)
Definition halse_se05x_crc_and_send (dev : halse_se05x_dev) (bus : i2c_bus) (len : nat)
  : Z * halse_se05x_dev * i2c_bus :=
  let crc := halse_se05x_calculate_crc (txbuf dev) len in
  let tx := <[len := u8 (Z.shiftr crc 8)]> (txbuf dev) in
  let tx := <[S len := u8 (Z.land crc 0xff)]> tx in
  let dev := set_txlen (len + SIZE_EPILOGUE) (set_txbuf tx dev) in
  halse_se05x_write_i2c dev bus (txlen dev).

(** Retransmit the block, if the retransmit limit is not exhausted. *)
Definition halse_se05x_resend (dev : halse_se05x_dev) (bus : i2c_bus)
  : Z * halse_se05x_dev * i2c_bus :=
  if txretransmit dev then (- ETIMEDOUT, dev, bus)
  else
    let dev := set_txretransmit true dev in
    halse_se05x_write_i2c dev bus (txlen dev).

(** [buf] is the memory the payload pointer points to. *)
Definition halse_se05x_send_s_block (dev : halse_se05x_dev) (bus : i2c_bus)
    (d : cmd_dir) (t : cmd_type) (buf : list byte) (len : nat)
  : Z * halse_se05x_dev * i2c_bus :=
  if (SIZE_INF_MAX <? len)%nat then (-1, dev, bus)
  else
    let tx := <[0%nat := u8 SE05X_NAD]> (txbuf dev) in
    let tx := <[1%nat := u8 (Z.lor (Z.lor S_BLOCK (cmd_dir_val d)) (cmd_type_val t))]> tx in
    let tx := <[2%nat := u8 (Z.of_nat len)]> tx in
    let tx := list_inserts 3 (take len buf) tx in
    halse_se05x_crc_and_send (set_txbuf tx dev) bus (SIZE_PROLOGUE + len).

Definition halse_se05x_send_s_block_noinf (dev : halse_se05x_dev) (bus : i2c_bus)
    (d : cmd_dir) (t : cmd_type) : Z * halse_se05x_dev * i2c_bus :=
  halse_se05x_send_s_block dev bus d t [] 0.

Definition halse_se05x_send_r_block (dev : halse_se05x_dev) (bus : i2c_bus)
    (n_r ee : Z) : Z * halse_se05x_dev * i2c_bus :=
  let nr_field := Z.shiftl n_r 4 in
  let tx := <[0%nat := u8 SE05X_NAD]> (txbuf dev) in
  let tx := <[1%nat := u8 (Z.lor (Z.lor R_BLOCK nr_field) ee)]> tx in
  let tx := <[2%nat := u8 0]> tx in
  halse_se05x_crc_and_send (set_txbuf tx dev) bus SIZE_PROLOGUE.

(** ** Receiving a block *)

(** Result of [halse_se05x_recv_block]: return value, content of [*len],
    session and bus. *)
Definition recv_result : Type := Z * nat * halse_se05x_dev * i2c_bus.

(** First half of [halse_se05x_recv_block] (up to the CRC check): the
    two reads, the LEN check and the CRC comparison.  [len] is the
    content of [*len] on entry.  The comparison of [rxbuf[0]] with
    HOST_NAD only logs a mismatch and is left out. *)
Definition recv_block_read (dev : halse_se05x_dev) (bus : i2c_bus) (len : nat)
  : recv_result :=
  let '(ret, dev, bus) :=
    halse_se05x_read_i2c dev bus 0 (SIZE_PROLOGUE + SIZE_EPILOGUE) in
  if negb (ret =? 0) then (-1, len, dev, bus)
  else if Z.of_nat SIZE_INF_MAX <? Z_of_byte (rxbuf dev !!! 2%nat) then (-1, len, dev, bus)
  else
    let len := nat_of_byte (rxbuf dev !!! 2%nat) in
    let '(ret, dev, bus) :=
      if negb (len =? 0)%nat
      then halse_se05x_read_i2c dev bus (SIZE_PROLOGUE + SIZE_EPILOGUE) len
      else (ret, dev, bus) in
    if negb (ret =? 0) then (-1, len, dev, bus)
    else
      let exp_crc := halse_se05x_calculate_crc (rxbuf dev) (SIZE_PROLOGUE + len) in
      let act_crc := Z_of_byte (rxbuf dev !!! (SIZE_PROLOGUE + len)%nat) in
      let act_crc := u16 (Z.shiftl act_crc 8) in
      let act_crc :=
        u16 (Z.lor act_crc (Z_of_byte (rxbuf dev !!! (SIZE_PROLOGUE + len + 1)%nat))) in
      if negb (exp_crc =? act_crc) then (-1, len, dev, bus)
      else (0, len, dev, bus).

(** The body of [halse_se05x_recv_block]: the first half, then the
    dispatch on the PCB; [self] stands for the two tail calls. *)
Definition recv_block_body (self : halse_se05x_dev → i2c_bus → nat → recv_result)
    (dev : halse_se05x_dev) (bus : i2c_bus) (len : nat) : recv_result :=
  let '(ret, len, dev, bus) := recv_block_read dev bus len in
  if negb (ret =? 0) then (ret, len, dev, bus)
  else
    let pcb := rxbuf dev !!! 1%nat in
    if is_s_block_request pcb then
      if Z.land (Z_of_byte pcb) CMD_TYPE_MASK =? cmd_type_val CMD_WTX then
        let '(ret, dev, bus) :=
          halse_se05x_send_s_block dev bus CMD_RES CMD_WTX (drop 3 (rxbuf dev)) 1 in
        if negb (ret =? 0) then (-1, len, dev, bus)
        else self dev bus len
      else (-1, len, dev, bus)
    else if is_r_block_with_error pcb then
      let '(ret, dev, bus) := halse_se05x_resend dev bus in
      if negb (ret =? 0) then (ret, len, dev, bus)
      else self dev bus len
    else (0, len, dev, bus).

(** The tail calls of the source are not bounded.  Each round takes at
    least one outcome off the read script, so the rounds are counted
    down from the script's length; the last argument of [self] is never
    reached ([halse_se05x_recv_block_unfold] below). *)
Fixpoint recv_block_rounds (rounds : nat)
    (dev : halse_se05x_dev) (bus : i2c_bus) (len : nat) : recv_result :=
  match rounds with
  | O => (-1, len, dev, bus)
  | S rounds' => recv_block_body (recv_block_rounds rounds') dev bus len
  end.

Definition halse_se05x_recv_block (dev : halse_se05x_dev) (bus : i2c_bus) (len : nat)
  : recv_result :=
  recv_block_rounds (S (length (rd_script bus))) dev bus len.

(** ** Sending an I-block *)

(** Send the given data to the SE.  If [chain] is set, then consume the
    R-block.  [buf] is the memory the payload pointer points to. *)
Definition halse_se05x_send_i_block (dev : halse_se05x_dev) (bus : i2c_bus)
    (buf : list byte) (len : nat) (chain : bool) : Z * halse_se05x_dev * i2c_bus :=
  if (SIZE_INF_MAX <? len)%nat then (-1, dev, bus)
  else
    let ns_field := if negb (n_s dev =? 0) then Z.shiftl 1 6 else 0 in
    let chain_field := if chain then Z.shiftl 1 5 else 0 in
    let tx := <[0%nat := u8 SE05X_NAD]> (txbuf dev) in
    let tx := <[1%nat := u8 (Z.lor (Z.lor I_BLOCK ns_field) chain_field)]> tx in
    let tx := <[2%nat := u8 (Z.of_nat len)]> tx in
    let dev := set_n_s (Z.lxor (n_s dev) 1) (set_txbuf tx dev) in
    let dev := set_txbuf (list_inserts 3 (take len buf) (txbuf dev)) dev in
    let '(ret, dev, bus) := halse_se05x_crc_and_send dev bus (SIZE_PROLOGUE + len) in
    if negb (ret =? 0) then (-1, dev, bus)
    else if chain then
      let '(ret, len, dev, bus) := halse_se05x_recv_block dev bus len in
      if negb (ret =? 0) then (ret, dev, bus)
      else
        let pcb := rxbuf dev !!! 1%nat in
        if negb (is_r_block pcb) then (-1, dev, bus)
        else
          let ee := Z.land (Z_of_byte pcb) CMD_ERROR_MASK in
          if negb (ee =? 0) then (-1, dev, bus)
          else
            let n_r := Z.land (Z.shiftr (Z_of_byte pcb) 4) 0x01 in
            if negb (n_r =? n_s dev) then (-1, dev, bus)
            else (0, dev, bus)
    else (0, dev, bus).

(** ** The ATR rewrite *)

Definition atr_prologue : list byte :=
  [x3b; xf0; x96; x00; x00; x80; x11; xfe].

(** [buf] is the caller's buffer and [len] the content of [*len] on
    entry; the result is the return value, the buffer and [*len]. *)
Definition halse_se05x_get_atr (dev : halse_se05x_dev) (buf : list byte) (len : nat)
  : Z * list byte * nat :=
  let offset_hb := 0%nat in
  let offset_hb := (offset_hb + (1 + 5))%nat in
  let offset_hb := (offset_hb + (1 + nat_of_byte (atr dev !!! offset_hb)))%nat in
  let offset_hb := (offset_hb + 1)%nat in
  let offset_hb := (offset_hb + (1 + nat_of_byte (atr dev !!! offset_hb)))%nat in
  let len_hb := nat_of_byte (atr dev !!! offset_hb) in
  let offset_hb := (offset_hb + 1)%nat in
  if (15 <? len_hb)%nat then (-1, buf, len)
  else
    let i := 0%nat in
    let buf := list_inserts i atr_prologue buf in
    let i := (i + length atr_prologue)%nat in
    let buf := <[1%nat := u8 (Z.lor (Z_of_byte (buf !!! 1%nat)) (Z.of_nat len_hb))]> buf in
    let buf := list_inserts i (take len_hb (drop offset_hb (atr dev))) buf in
    let i := (i + len_hb)%nat in
    let buf := <[i := halse_se05x_calculate_xor (drop 1 buf) (i - 1)]> buf in
    let i := (i + 1)%nat in
    (0, buf, i).

(** ** The APDU exchange *)

(** Body of the write loop of [halse_se05x_xfer]; [self] is the next
    round of the do-while. *)
Definition xfer_write_body (self : halse_se05x_dev → i2c_bus → nat → Z * halse_se05x_dev * i2c_bus)
    (tx_buf : list byte) (tx_len : nat)
    (dev : halse_se05x_dev) (bus : i2c_bus) (tx_off : nat)
  : Z * halse_se05x_dev * i2c_bus :=
  let len := SIZE_INF_MAX in
  let left := (tx_len - tx_off)%nat in
  let len := if (left <? len)%nat then left else len in
  let chain := (0 <? left - len)%nat in
  let '(ret, dev, bus) :=
    halse_se05x_send_i_block dev bus (drop tx_off tx_buf) len chain in
  if negb (ret =? 0) then (ret, dev, bus)
  else
    let tx_off := (tx_off + len)%nat in
    if chain then self dev bus tx_off else (ret, dev, bus).

Fixpoint xfer_write_rounds (rounds : nat) (tx_buf : list byte) (tx_len : nat)
    (dev : halse_se05x_dev) (bus : i2c_bus) (tx_off : nat)
  : Z * halse_se05x_dev * i2c_bus :=
  match rounds with
  | O => (-1, dev, bus)
  | S rounds' =>
      xfer_write_body (xfer_write_rounds rounds' tx_buf tx_len) tx_buf tx_len dev bus tx_off
  end.

(** A chained round sends 254 bytes, so [tx_len - tx_off] rounds and
    one more are never used up ([xfer_write_loop_unfold]). *)
Definition xfer_write_loop (tx_buf : list byte) (tx_len : nat)
    (dev : halse_se05x_dev) (bus : i2c_bus) (tx_off : nat)
  : Z * halse_se05x_dev * i2c_bus :=
  xfer_write_rounds (S (tx_len - tx_off)) tx_buf tx_len dev bus tx_off.

(** How the read loop is left: by falling out of the do-while, or by
    [goto end], which skips the store to [*rx_len]. *)
Inductive loop_exit := LoopDone | GotoEnd.

Definition read_result : Type :=
  loop_exit * Z * list byte * nat * halse_se05x_dev * i2c_bus.

(** Body of the read loop; [rx_cap] is [*rx_len] as the caller set it. *)
Definition xfer_read_body
    (self : halse_se05x_dev → i2c_bus → list byte → nat → read_result)
    (rx_cap : nat)
    (dev : halse_se05x_dev) (bus : i2c_bus) (rx_buf : list byte) (rx_off : nat)
  : read_result :=
  let '(ret, len, dev, bus) := halse_se05x_recv_block dev bus 0 in
  if negb (ret =? 0) then (GotoEnd, ret, rx_buf, rx_off, dev, bus)
  else
    let pcb := rxbuf dev !!! 1%nat in
    if negb (is_i_block pcb) then (GotoEnd, ret, rx_buf, rx_off, dev, bus)
    else
      let len := if (rx_cap <? rx_off + len)%nat then (rx_cap - rx_off)%nat else len in
      let rx_buf := list_inserts rx_off (take len (drop 3 (rxbuf dev))) rx_buf in
      let rx_off := (rx_off + len)%nat in
      let chain := negb (Z.land (Z.shiftr (Z_of_byte pcb) 5) 0x01 =? 0) in
      if chain then
        let ee := 0 in
        let n_s := Z.land (Z.shiftr (Z_of_byte pcb) 6) 1 in
        let n_r := u8_Z (Z.lxor n_s 1) in
        let '(ret, dev, bus) := halse_se05x_send_r_block dev bus n_r ee in
        if negb (ret =? 0) then (GotoEnd, ret, rx_buf, rx_off, dev, bus)
        else self dev bus rx_buf rx_off
      else (LoopDone, ret, rx_buf, rx_off, dev, bus).

Fixpoint xfer_read_rounds (rounds : nat) (rx_cap : nat)
    (dev : halse_se05x_dev) (bus : i2c_bus) (rx_buf : list byte) (rx_off : nat)
  : read_result :=
  match rounds with
  | O => (GotoEnd, -1, rx_buf, rx_off, dev, bus)
  | S rounds' =>
      xfer_read_body (xfer_read_rounds rounds' rx_cap) rx_cap dev bus rx_buf rx_off
  end.

(** Every round takes at least one outcome off the read script
    ([xfer_read_loop_unfold]). *)
Definition xfer_read_loop (rx_cap : nat)
    (dev : halse_se05x_dev) (bus : i2c_bus) (rx_buf : list byte) (rx_off : nat)
  : read_result :=
  xfer_read_rounds (S (length (rd_script bus))) rx_cap dev bus rx_buf rx_off.

Definition is_null {A} (p : option A) : bool :=
  match p with None => true | Some _ => false end.

(** Result of [halse_se05x_xfer]: return value, the caller's receive
    buffer and [*rx_len], session and bus.  A pointer argument is
    [None] when it is NULL. *)
Definition xfer_result : Type :=
  Z * option (list byte) * option nat * halse_se05x_dev * i2c_bus.

Definition halse_se05x_xfer (dev : halse_se05x_dev) (bus : i2c_bus)
    (tx_buf : option (list byte)) (tx_len : nat)
    (rx_buf : option (list byte)) (rx_len : option nat) : xfer_result :=
  if is_null tx_buf || (tx_len =? 0)%nat || is_null rx_buf || is_null rx_len
  then (-1, rx_buf, rx_len, halse_se05x_clear_buf dev, bus)
  else
    let tx := default [] tx_buf in
    let rx := default [] rx_buf in
    let cap := default 0%nat rx_len in
    let '(ret, dev, bus) := xfer_write_loop tx tx_len dev bus 0 in
    if negb (ret =? 0) then (ret, Some rx, Some cap, halse_se05x_clear_buf dev, bus)
    else
      let '(exit, ret, rx, rx_off, dev, bus) := xfer_read_loop cap dev bus rx 0 in
      match exit with
      | GotoEnd => (ret, Some rx, Some cap, halse_se05x_clear_buf dev, bus)
      | LoopDone => (ret, Some rx, Some rx_off, halse_se05x_clear_buf dev, bus)
      end.

(** * Vocabulary of the statements *)

(** Fields no operation of the block engine but the N(S) toggle of
    [halse_se05x_send_i_block] changes, the sizes of the two buffers,
    and the retransmit latch, which is never cleared. *)
Record session_frame (dev dev' : halse_se05x_dev) : Prop := {
  frame_atr : atr dev' = atr dev;
  frame_timeout_us : timeout_us dev' = timeout_us dev;
  frame_guard_time_us : guard_time_us dev' = guard_time_us dev;
  frame_max_retries : max_retries dev' = max_retries dev;
  frame_n_s : n_s dev' = n_s dev;
  frame_n_r : n_r dev' = n_r dev;
  frame_txbuf : length (txbuf dev') = length (txbuf dev);
  frame_rxbuf : length (rxbuf dev') = length (rxbuf dev);
  frame_latch : txretransmit dev = true → txretransmit dev' = true;
}.


(** A block as it travels on the bus (the layout [halse_se05x_crc_and_send]
    produces and [halse_se05x_recv_block] checks): prologue, INF, and the
    CRC of both, high byte first. *)
Definition wire_block (nad pcb : byte) (inf : list byte) : list byte :=
  let body := nad :: pcb :: u8 (Z.of_nat (length inf)) :: inf in
  let crc := halse_se05x_calculate_crc body (length body) in
  body ++ [u8 (Z.shiftr crc 8); u8 (Z.land crc 0xff)].

(** The outcomes of the raw reads by which the driver fetches a block
    the slave holds ready: five bytes first, then the remaining LEN. *)
Definition block_reads (blk : list byte) : list rd_event :=
  if (length blk <=? 5)%nat then [RdData blk]
  else [RdData (take 5 blk); RdData (drop 5 blk)].

(** The session after the block [blk] was put into [txbuf] and sent, and
    after it was read into [rxbuf]. *)
Definition with_tx_block (blk : list byte) (dev : halse_se05x_dev) : halse_se05x_dev :=
  set_txlen (length blk) (set_txbuf (list_inserts 0 blk (txbuf dev)) dev).

Definition with_rx_block (blk : list byte) (dev : halse_se05x_dev) : halse_se05x_dev :=
  set_rxbuf (list_inserts 0 blk (rxbuf dev)) dev.

(** The PCB bytes the three senders compose. *)
Definition s_block_pcb (d : cmd_dir) (t : cmd_type) : byte :=
  u8 (Z.lor (Z.lor S_BLOCK (cmd_dir_val d)) (cmd_type_val t)).

Definition i_block_pcb (ns : Z) (chain : bool) : byte :=
  u8 (Z.lor (Z.lor I_BLOCK (if negb (ns =? 0) then Z.shiftl 1 6 else 0))
            (if chain then Z.shiftl 1 5 else 0)).

Definition r_block_pcb (nr ee : Z) : byte :=
  u8 (Z.lor (Z.lor R_BLOCK (Z.shiftl nr 4)) ee).

(** The reads that deliver one WTX request per byte of [infs], and the
    answers the driver gives. *)
Definition wtx_requests (infs : list byte) : list rd_event :=
  flat_map (λ b, block_reads (wire_block xa5 xc3 [b])) infs.

Definition wtx_responses (infs : list byte) : list (list byte) :=
  map (λ b, wire_block x5a xe3 [b]) infs.

(** XOR of the bytes of a list. *)
Definition xor_all (l : list byte) : Z :=
  foldr (λ b acc, Z.lxor (Z_of_byte b) acc) 0 l.

(** The chain bit (bit 5) of a PCB. *)
Definition chain_bit (pcb : byte) : Z := Z.land (Z.shiftr (Z_of_byte pcb) 5) 0x01.

(** A chain of I-blocks, each given by its PCB and INF: the chain bit is
    set on every block but the last. *)
Fixpoint i_block_chain (blocks : list (byte * list byte)) : Prop :=
  match blocks with
  | [] => False
  | (pcb, inf) :: rest =>
      is_i_block pcb = true ∧ (length inf ≤ SIZE_INF_MAX)%nat ∧
      match rest with
      | [] => chain_bit pcb = 0
      | _ :: _ => chain_bit pcb ≠ 0 ∧ i_block_chain rest
      end
  end.

(** The reads that deliver the chain, its payload, and the R-blocks that
    acknowledge all blocks but the last. *)
Definition chain_reads (blocks : list (byte * list byte)) : list rd_event :=
  flat_map (λ b, block_reads (wire_block xa5 b.1 b.2)) blocks.

Definition chain_data (blocks : list (byte * list byte)) : list byte :=
  flat_map snd blocks.

Definition chain_ack (pcb : byte) : list byte :=
  wire_block x5a
    (r_block_pcb (u8_Z (Z.lxor (Z.land (Z.shiftr (Z_of_byte pcb) 6) 1) 1)) 0) [].

Definition chain_acks (blocks : list (byte * list byte)) : list (list byte) :=
  map (λ b, chain_ack b.1) (removelast blocks).

(** [chain_received dev bus blocks dev' bus']: the receive side of an
    exchange that starts in [dev] on [bus] gets the chain [blocks] and
    ends in [dev'] on [bus'].  Each block is what
    [halse_se05x_recv_block] returns, whatever NACK retries, WTX requests
    or retransmission that call goes through; each block with the chain
    bit is acknowledged by [halse_se05x_send_r_block] with the N(S) of
    the block toggled, and the slave accepts the acknowledgement. *)
Inductive chain_received :
  halse_se05x_dev → i2c_bus → list (byte * list byte) →
  halse_se05x_dev → i2c_bus → Prop :=
| received_last dev bus pcb inf dev1 bus1 :
    halse_se05x_recv_block dev bus 0 = (0, length inf, dev1, bus1) →
    rxbuf dev1 !!! 1%nat = pcb →
    take (length inf) (drop 3 (rxbuf dev1)) = inf →
    is_i_block pcb = true →
    chain_bit pcb = 0 →
    chain_received dev bus [(pcb, inf)] dev1 bus1
| received_chained dev bus pcb inf dev1 bus1 dev2 bus2 blocks dev' bus' :
    halse_se05x_recv_block dev bus 0 = (0, length inf, dev1, bus1) →
    rxbuf dev1 !!! 1%nat = pcb →
    take (length inf) (drop 3 (rxbuf dev1)) = inf →
    is_i_block pcb = true →
    chain_bit pcb ≠ 0 →
    halse_se05x_send_r_block dev1 bus1
      (u8_Z (Z.lxor (Z.land (Z.shiftr (Z_of_byte pcb) 6) 1) 1)) 0 = (0, dev2, bus2) →
    chain_received dev2 bus2 blocks dev' bus' →
    chain_received dev bus ((pcb, inf) :: blocks) dev' bus'.

(** A session between two exchanges: the buffers, [txlen] and the latch
    as [halse_se05x_clear_buf] leaves them, the sequence numbers cleared,
    and the timing defaults of [halse_open_se05x] (MPOT 1 ms, SEGT 10 us,
    BWT/MPOT = 1000 retries).  The cached ATR plays no part in an
    exchange and is left empty. *)
Definition session0 : halse_se05x_dev :=
  mk_dev [] 1000 10 1000 0 0 (replicate SIZE_BUF x00) 0 false (replicate SIZE_BUF x00).

(** SELECT header [00 A4 04 00], the APDU of the examples. *)
Definition apdu_select : list byte := [x00; xa4; x04; x00].

(** A slave that does not answer at all. *)
Definition bus_dead : i2c_bus := mk_bus [] [] [].

(** A session whose warm reset cached the ATR [a]. *)
Definition session_with_atr (a : list byte) : halse_se05x_dev :=
  mk_dev a 1000 10 1000 0 0 (replicate SIZE_BUF x00) 0 false (replicate SIZE_BUF x00).

(** A real ATR with DLLP_LEN = 2, PLP_LEN = 1 and the ten historical
    bytes [4A 43 4F 50 34 20 41 54 50 4F] of scenario 7. *)
Definition atr_jcop : list byte :=
  [x00; xa0; x00; x00; x03; x96;         (* PVER, VID *)
   x02; x01; x02;                        (* DLLP_LEN, DLLP *)
   x01;                                  (* PLID *)
   x01; x09;                             (* PLP_LEN, PLP *)
   x0a;                                  (* HB_LEN *)
   x4a; x43; x4f; x50; x34; x20; x41; x54; x50; x4f].

(** A real ATR with empty DLLP and PLP and sixteen historical bytes. *)
Definition atr_16 : list byte :=
  [x00; xa0; x00; x00; x03; x96; x00; x01; x00; x10] ++ replicate 16 x41.

(** * The rest of the driver and what surrounds it *)

(** A block with an arbitrary epilogue [c1 c2], as a disturbed line may
    deliver it; [wire_block] is the one whose epilogue is the CRC. *)
Definition raw_block (nad pcb : byte) (inf : list byte) (c1 c2 : byte) : list byte :=
  nad :: pcb :: u8 (Z.of_nat (length inf)) :: inf ++ [c1; c2].

(** The chunks [halse_se05x_xfer] cuts an APDU into: SIZE_INF_MAX bytes
    each, but for the last, which has the 1 to SIZE_INF_MAX bytes that
    are left. *)
Fixpoint apdu_chunks (chunks : list (list byte)) : Prop :=
  match chunks with
  | [] => False
  | c :: rest =>
      match rest with
      | [] => (0 < length c ≤ SIZE_INF_MAX)%nat
      | _ :: _ => length c = SIZE_INF_MAX ∧ apdu_chunks rest
      end
  end.

(** The I-blocks that carry the chunks, the first with sequence number
    [ns]: the chain flag is set on all but the last, N(S) alternates. *)
Fixpoint apdu_blocks (ns : Z) (chunks : list (list byte)) : list (list byte) :=
  match chunks with
  | [] => []
  | c :: rest =>
      wire_block x5a (i_block_pcb ns (if rest is [] then false else true)) c
      :: apdu_blocks (Z.lxor ns 1) rest
  end.

(** The reads that deliver the R-blocks by which the slave passes the
    token back after every chained I-block: N(R) is the N(S) of the next
    block, EE is 0. *)
Fixpoint apdu_tokens (ns : Z) (chunks : list (list byte)) : list rd_event :=
  match chunks with
  | [] => []
  | c :: rest =>
      match rest with
      | [] => []
      | _ :: _ =>
          block_reads (wire_block xa5 (r_block_pcb (Z.lxor ns 1) 0) [])
          ++ apdu_tokens (Z.lxor ns 1) rest
      end
  end.

(** The errno values [is_nack] takes for a NACK of the slave. *)
Definition nack_errno (e : positive) : bool := is_nack (- Z.pos e).

(** ** Resets and power (halse_se05x.c, halgpio.h) *)

Definition set_atr (v : list byte) (dev : halse_se05x_dev) : halse_se05x_dev :=
  mk_dev v (timeout_us dev) (guard_time_us dev) (max_retries dev)
         (n_s dev) (n_r dev) (txbuf dev) (txlen dev) (txretransmit dev) (rxbuf dev).

(** Do a warm reset to the SE (via CMD_SOFT_RESET); after the reset the
    ATR is cached.  [len] is not initialised before the receive, which
    sets it whenever it succeeds; [malloc] is taken to succeed. *)
Definition halse_se05x_warm_reset_dev (dev : halse_se05x_dev) (bus : i2c_bus)
  : Z * halse_se05x_dev * i2c_bus :=
  let '(ret, dev, bus) := halse_se05x_send_s_block_noinf dev bus CMD_REQ CMD_SOFT_RESET in
  if negb (ret =? 0) then (-1, dev, bus)
  else
    let '(ret, len, dev, bus) := halse_se05x_recv_block dev bus 0 in
    if negb (ret =? 0) then (-1, dev, bus)
    else if negb (Z_of_byte (rxbuf dev !!! 1%nat) =?
                  Z.lor (Z.lor S_BLOCK (cmd_dir_val CMD_RES)) (cmd_type_val CMD_SOFT_RESET))
    then (-1, dev, bus)
    else (0, set_atr (take len (drop 3 (rxbuf dev))) dev, bus).

(** Do a reset to the SE (via CMD_RESET). *)
Definition halse_se05x_hard_reset_dev (dev : halse_se05x_dev) (bus : i2c_bus)
  : Z * halse_se05x_dev * i2c_bus :=
  let '(ret, dev, bus) := halse_se05x_send_s_block_noinf dev bus CMD_REQ CMD_RESET in
  if negb (ret =? 0) then (-1, dev, bus)
  else
    let '(ret, len, dev, bus) := halse_se05x_recv_block dev bus 0 in
    if negb (ret =? 0) then (-1, dev, bus)
    else if negb (Z_of_byte (rxbuf dev !!! 1%nat) =?
                  Z.lor (Z.lor S_BLOCK (cmd_dir_val CMD_RES)) (cmd_type_val CMD_RESET))
    then (-1, dev, bus)
    else (0, dev, bus).

Definition ENODEV : Z := 19.

(** halgpio.h: a GPIO provider is a table of three functions; [G] is
    the state they work on (the provider's struct and the line).  A
    function pointer that is NULL is [None]. *)
Record halgpio_dev (G : Type) := mk_halgpio_dev {
  gpio_enable : option (G → Z * G);
  gpio_disable : option (G → Z * G);
  gpio_close : option (G → G);
}.
Arguments mk_halgpio_dev {G} _ _ _.
Arguments gpio_enable {G} _.
Arguments gpio_disable {G} _.
Arguments gpio_close {G} _.

(** [dev] is the pointer to the provider, [None] when it is NULL. *)
Definition halgpio_enable {G} (dev : option (halgpio_dev G)) (g : G) : Z * G :=
  match dev with
  | None => (0, g)
  | Some d =>
      match gpio_enable d with
      | None => (- ENODEV, g)
      | Some enable => enable g
      end
  end.


Definition halgpio_close {G} (dev : option (halgpio_dev G)) (g : G) : G :=
  match dev with
  | Some d =>
      match gpio_close d with
      | Some close => close g
      | None => g
      end
  | None => g
  end.

(** [gpio_dev] is the field of that name of the session; the line is
    enabled if there is one, else the SE is reset over the bus. *)
Definition halse_se05x_power_up {G} (gpio_dev : option (halgpio_dev G))
    (dev : halse_se05x_dev) (bus : i2c_bus) (g : G)
  : Z * halse_se05x_dev * i2c_bus * G :=
  let '(ret, dev, bus, g) :=
    match gpio_dev with
    | Some _ =>
        let '(ret, g) := halgpio_enable gpio_dev g in (ret, dev, bus, g)
    | None =>
        let '(ret, dev, bus) := halse_se05x_hard_reset_dev dev bus in (ret, dev, bus, g)
    end in
  if negb (ret =? 0) then (ret, dev, bus, g)
  else (0, halse_se05x_clear_state dev, bus, g).


Definition halse_se05x_warm_reset (dev : halse_se05x_dev) (bus : i2c_bus)
  : Z * halse_se05x_dev * i2c_bus :=
  halse_se05x_warm_reset_dev (halse_se05x_clear_state dev) bus.

(** ** The GPIO provider of the kernel (halgpio_kernel.c) *)

(** The operating system as the provider sees it: the calls it makes,
    oldest first, and the outcomes of those that are to come.  The
    outcome of a call is its return value, with [req.fd] for
    GPIO_GET_LINEHANDLE_IOCTL; a call with nothing scripted fails with
    -1.  [close] has no outcome the code looks at. *)
Inductive sys_call :=
  | sys_open_gpiochip (gpiochip : Z)
  | sys_get_linehandle (fd : Z) (gpioline : Z) (active_low : bool)
  | sys_set_line_values (fd : Z) (value : Z)
  | sys_close (fd : Z).

Record os_state := mk_os {
  os_script : list (Z * Z);
  os_calls : list sys_call;
}.

Definition sys_do (c : sys_call) (os : os_state) : Z * Z * os_state :=
  match os_script os with
  | [] => (-1, -1, mk_os [] (os_calls os ++ [c]))
  | (ret, fd) :: rest => (ret, fd, mk_os rest (os_calls os ++ [c]))
  end.

Definition sys_do_close (fd : Z) (os : os_state) : os_state :=
  mk_os (os_script os) (os_calls os ++ [sys_close fd]).

(** struct halgpio_kernel_dev, without the embedded function table. *)
Record halgpio_kernel_dev := mk_halgpio_kernel_dev {
  gpiochip : Z;
  gpioline : Z;
  gpio_active_low : Z;
  gpio_fd : Z;
}.

Definition set_gpio_fd (v : Z) (dev : halgpio_kernel_dev) : halgpio_kernel_dev :=
  mk_halgpio_kernel_dev (gpiochip dev) (gpioline dev) (gpio_active_low dev) v.

(** [asprintf] is taken to succeed; the name it composes stands for the
    chip.  The labels [err] and [end] are the two tails of the
    function; the path without a [goto] runs into [err]. *)
Definition halgpio_kernel_open (dev : halgpio_kernel_dev) (os : os_state)
  : Z * halgpio_kernel_dev * os_state :=
  let at_end (ret fd : Z) (dev : halgpio_kernel_dev) (os : os_state) :=
    let os := sys_do_close fd os in
    (ret, dev, os) in
  let at_err (ret fd : Z) (dev : halgpio_kernel_dev) (os : os_state) :=
    let os := sys_do_close (gpio_fd dev) os in
    let dev := set_gpio_fd (-1) dev in
    at_end ret fd dev os in
  let '(fd, _, os) := sys_do (sys_open_gpiochip (gpiochip dev)) os in
  if fd =? -1 then at_err (-1) fd dev os
  else
    let '(ret, req_fd, os) :=
      sys_do (sys_get_linehandle fd (gpioline dev) (negb (gpio_active_low dev =? 0))) os in
    if negb (ret =? 0) then at_end ret fd dev os
    else
      let dev := set_gpio_fd req_fd dev in
      if gpio_fd dev =? -1 then at_err (-1) fd dev os
      else at_err ret fd dev os.

Definition halgpio_kernel_set (value : Z) (g : halgpio_kernel_dev * os_state)
  : Z * (halgpio_kernel_dev * os_state) :=
  let '(dev, os) := g in
  if gpio_fd dev =? -1 then (0, (dev, os))
  else
    let '(ret, _, os) := sys_do (sys_set_line_values (gpio_fd dev) value) os in
    if ret =? -1 then (-1, (dev, os)) else (0, (dev, os)).

Definition halgpio_kernel_enable := halgpio_kernel_set 1.
Definition halgpio_kernel_disable := halgpio_kernel_set 0.

Definition halgpio_kernel_close (g : halgpio_kernel_dev * os_state)
  : halgpio_kernel_dev * os_state :=
  let '(dev, os) := g in
  if 0 <=? gpio_fd dev then (set_gpio_fd (-1) dev, sys_do_close (gpio_fd dev) os)
  else (dev, os).

(** The function table [halgpio_open_kernel] fills in. *)
Definition halgpio_kernel : halgpio_dev (halgpio_kernel_dev * os_state) :=
  mk_halgpio_dev (Some halgpio_kernel_enable) (Some halgpio_kernel_disable)
                 (Some halgpio_kernel_close).

(** ** C strings (helpers.h, <string.h>) *)

(** A [char *] to a NUL-terminated string is the string; NULL is
    [None]. *)
Definition starts_with (pre str : String.string) : bool :=
  let lenpre := String.length pre in
  let lenstr := String.length str in
  if (lenstr <? lenpre)%nat then false
  else String.eqb (String.substring 0 lenpre pre) (String.substring 0 lenpre str).

(** [strchr]: the rest of the string from the first [c] on. *)
Fixpoint strchr (s : String.string) (c : Ascii.ascii) : option String.string :=
  match s with
  | String.EmptyString => None
  | String.String a rest => if Ascii.eqb a c then Some s else strchr rest c
  end.

(** [p++] on a pointer into a string. *)
Definition str_next (s : String.string) : String.string :=
  match s with
  | String.EmptyString => String.EmptyString
  | String.String _ rest => rest
  end.

(** ** The table of secure elements (halse.h, halse.c) *)

Definition MAX_SE_DEVICES : nat := 16.

(** struct halse_dev: the six entry points of a secure element.  They
    reach the state of their device through the pointer they are called
    with; [E] is the state of everything they work on.  Buffers and
    lengths passed by pointer are returned. *)
Record halse_dev (E : Type) := mk_halse_dev {
  se_close : E → E;
  se_get_atr : list byte → nat → E → Z * list byte * nat * E;
  se_power_up : E → Z * E;
  se_power_down : E → Z * E;
  se_warm_reset : E → Z * E;
  se_xfer : option (list byte) → nat → option (list byte) → option nat → E →
            Z * option (list byte) * option nat * E;
}.
Arguments mk_halse_dev {E} _ _ _ _ _ _.
Arguments se_close {E} _. Arguments se_get_atr {E} _.
Arguments se_power_up {E} _. Arguments se_power_down {E} _.
Arguments se_warm_reset {E} _. Arguments se_xfer {E} _.

(** struct lun_se; [ls_dev] is NULL when [None]. *)
Record lun_se (E : Type) := mk_lun_se {
  ls_in_use : bool;
  ls_lun : Z;
  ls_dev : option (halse_dev E);
}.
Arguments mk_lun_se {E} _ _ _.
Arguments ls_in_use {E} _. Arguments ls_lun {E} _. Arguments ls_dev {E} _.

(** [lun_se_array] as the loader zeroes it. *)
Definition lun_se_array0 {E} : list (lun_se E) :=
  replicate MAX_SE_DEVICES (mk_lun_se false 0 None).

(** [halse_open_kerkey] is the constructor of the one provider this
    file knows; it gets the text after the first ['@'], or NULL. *)
Definition halse_parse {E}
    (halse_open_kerkey : option String.string → E → option (halse_dev E) * E)
    (config : String.string) (e : E) : option (halse_dev E) * E :=
  let p := config in
  if negb (starts_with "se:"%string p) then (None, e)
  else
    match strchr p ":"%char with
    | None => (None, e)   (* not reached: [p] starts with [se:] *)
    | Some p =>
        let p := str_next p in
        let args := strchr config "@"%char in
        let args := option_map str_next args in
        if starts_with "kerkey"%string p then halse_open_kerkey args e
        else (None, e)
    end.

(** The four loops over [lun_se_array], slot by slot. *)
Fixpoint halse_exists {E} (tbl : list (lun_se E)) (lun : Z) : bool :=
  match tbl with
  | [] => false
  | ls :: rest =>
      if ls_in_use ls && (ls_lun ls =? lun) then true else halse_exists rest lun
  end.

Fixpoint halse_open_slot {E}
    (halse_open_kerkey : option String.string → E → option (halse_dev E) * E)
    (tbl : list (lun_se E)) (lun : Z) (config : String.string) (e : E)
  : option (halse_dev E) * list (lun_se E) * E :=
  match tbl with
  | [] => (None, [], e)
  | ls :: rest =>
      if negb (ls_in_use ls) then
        let '(d, e) := halse_parse halse_open_kerkey config e in
        (d, mk_lun_se true lun d :: rest, e)
      else
        let '(d, rest, e) := halse_open_slot halse_open_kerkey rest lun config e in
        (d, ls :: rest, e)
  end.

Definition halse_open {E}
    (halse_open_kerkey : option String.string → E → option (halse_dev E) * E)
    (tbl : list (lun_se E)) (lun : Z) (config : option String.string) (e : E)
  : option (halse_dev E) * list (lun_se E) * E :=
  match config with
  | None => (None, tbl, e)
  | Some config => halse_open_slot halse_open_kerkey tbl lun config e
  end.

Fixpoint halse_get {E} (tbl : list (lun_se E)) (lun : Z) : option (halse_dev E) :=
  match tbl with
  | [] => None
  | ls :: rest =>
      if ls_in_use ls && (ls_lun ls =? lun) then ls_dev ls else halse_get rest lun
  end.

Fixpoint halse_free {E} (tbl : list (lun_se E)) (lun : Z) : list (lun_se E) :=
  match tbl with
  | [] => []
  | ls :: rest =>
      if ls_lun ls =? lun then mk_lun_se false (ls_lun ls) (ls_dev ls) :: rest
      else ls :: halse_free rest lun
  end.

(** ** The IFD handler entry points (ifdhandler.c) *)

(** The response codes and the tags and actions the handler tells
    apart; their numbers are those of <ifdhandler.h>. *)
Inductive RESPONSECODE :=
  | IFD_SUCCESS | IFD_ERROR_TAG | IFD_ERROR_POWER_ACTION
  | IFD_COMMUNICATION_ERROR | IFD_NOT_SUPPORTED | IFD_NO_SUCH_DEVICE
  | SCARD_E_UNSUPPORTED_FEATURE.

Inductive ifd_tag :=
  | TAG_IFD_ATR | TAG_IFD_SIMULTANEOUS_ACCESS | TAG_IFD_THREAD_SAFE
  | TAG_IFD_SLOTS_NUMBER | TAG_IFD_SLOT_THREAD_SAFE
  | TAG_other (tag : Z).

Inductive ifd_action :=
  | IFD_POWER_UP | IFD_POWER_DOWN | IFD_RESET
  | ACTION_other (action : Z).

Definition IFDHCreateChannelByName {E}
    (halse_open_kerkey : option String.string → E → option (halse_dev E) * E)
    (tbl : list (lun_se E)) (Lun : Z) (DeviceName : option String.string) (e : E)
  : RESPONSECODE * list (lun_se E) * E :=
  if halse_exists tbl Lun then (IFD_NO_SUCH_DEVICE, tbl, e)
  else
    let '(r, tbl, e) := halse_open halse_open_kerkey tbl Lun DeviceName e in
    match r with
    | None => (IFD_NO_SUCH_DEVICE, tbl, e)
    | Some _ => (IFD_SUCCESS, tbl, e)
    end.

Definition IFDHCreateChannel (Lun Channel : Z) : RESPONSECODE := IFD_NO_SUCH_DEVICE.

Definition IFDHCloseChannel {E} (tbl : list (lun_se E)) (Lun : Z) (e : E)
  : RESPONSECODE * list (lun_se E) * E :=
  match halse_get tbl Lun with
  | None => (IFD_NO_SUCH_DEVICE, tbl, e)
  | Some dev =>
      let e := se_close dev e in
      let tbl := halse_free tbl Lun in
      (IFD_SUCCESS, tbl, e)
  end.

(** [Value] and [Length] are the memory [Value] and [Length] point to. *)
Definition IFDHGetCapabilities {E} (tbl : list (lun_se E)) (Lun : Z) (Tag : ifd_tag)
    (Length : nat) (Value : list byte) (e : E)
  : RESPONSECODE * nat * list byte * E :=
  match halse_get tbl Lun with
  | None => (IFD_NO_SUCH_DEVICE, Length, Value, e)
  | Some dev =>
      match Tag with
      | TAG_IFD_ATR =>
          let '(ret, Value, Length, e) := se_get_atr dev Value Length e in
          if negb (ret =? 0) then (IFD_COMMUNICATION_ERROR, Length, Value, e)
          else (IFD_SUCCESS, Length, Value, e)
      | TAG_IFD_SIMULTANEOUS_ACCESS =>
          (IFD_SUCCESS, 1%nat, <[0%nat := u8 (Z.of_nat MAX_SE_DEVICES)]> Value, e)
      | TAG_IFD_THREAD_SAFE =>
          (IFD_SUCCESS, 1%nat, <[0%nat := u8 0]> Value, e)
      | TAG_IFD_SLOTS_NUMBER =>
          (IFD_SUCCESS, 1%nat, <[0%nat := u8 1]> Value, e)
      | TAG_IFD_SLOT_THREAD_SAFE =>
          (IFD_SUCCESS, 1%nat, <[0%nat := u8 0]> Value, e)
      | TAG_other _ => (IFD_ERROR_TAG, Length, Value, e)
      end
  end.

Definition IFDHSetCapabilities (Lun : Z) (Tag : ifd_tag) (Length : nat) (Value : list byte)
  : RESPONSECODE := IFD_ERROR_TAG.

Definition IFDHSetProtocolParameters (Lun Protocol : Z) (Flags PTS1 PTS2 PTS3 : byte)
  : RESPONSECODE := IFD_NOT_SUPPORTED.

Definition IFDHPowerICC {E} (tbl : list (lun_se E)) (Lun : Z) (Action : ifd_action)
    (Atr : list byte) (AtrLength : nat) (e : E)
  : RESPONSECODE * list byte * nat * E :=
  match halse_get tbl Lun with
  | None => (IFD_NO_SUCH_DEVICE, Atr, AtrLength, e)
  | Some dev =>
      match Action with
      | IFD_POWER_UP =>
          let '(ret, e) := se_power_up dev e in
          if negb (ret =? 0) then (IFD_ERROR_POWER_ACTION, Atr, AtrLength, e)
          else
            let '(ret, Atr, AtrLength, e) := se_get_atr dev Atr AtrLength e in
            if negb (ret =? 0) then (IFD_COMMUNICATION_ERROR, Atr, AtrLength, e)
            else (IFD_SUCCESS, Atr, AtrLength, e)
      | IFD_POWER_DOWN =>
          let '(ret, e) := se_power_down dev e in
          if negb (ret =? 0) then (IFD_ERROR_POWER_ACTION, Atr, AtrLength, e)
          else
            let Atr := list_inserts 0 (replicate AtrLength x00) Atr in
            (IFD_SUCCESS, Atr, 0%nat, e)
      | IFD_RESET =>
          let '(ret, e) := se_warm_reset dev e in
          if negb (ret =? 0) then (IFD_ERROR_POWER_ACTION, Atr, AtrLength, e)
          else
            let '(ret, Atr, AtrLength, e) := se_get_atr dev Atr AtrLength e in
            if negb (ret =? 0) then (IFD_COMMUNICATION_ERROR, Atr, AtrLength, e)
            else (IFD_SUCCESS, Atr, AtrLength, e)
      | ACTION_other _ => (IFD_NOT_SUPPORTED, Atr, AtrLength, e)
      end
  end.

(** [SendPci] is passed by value and copied to [*RecvPci]; the header
    is its two numbers, Protocol and Length. *)
Definition IFDHTransmitToICC {E} (tbl : list (lun_se E)) (Lun : Z) (SendPci : Z * Z)
    (TxBuffer : option (list byte)) (TxLength : nat)
    (RxBuffer : option (list byte)) (RxLength : option nat) (RecvPci : Z * Z) (e : E)
  : RESPONSECODE * option (list byte) * option nat * (Z * Z) * E :=
  match halse_get tbl Lun with
  | None => (IFD_NO_SUCH_DEVICE, RxBuffer, RxLength, RecvPci, e)
  | Some dev =>
      let RecvPci := SendPci in
      let '(ret, RxBuffer, RxLength, e) := se_xfer dev TxBuffer TxLength RxBuffer RxLength e in
      if negb (ret =? 0) then (IFD_COMMUNICATION_ERROR, RxBuffer, RxLength, RecvPci, e)
      else (IFD_SUCCESS, RxBuffer, RxLength, RecvPci, e)
  end.

Definition IFDHICCPresence {E} (tbl : list (lun_se E)) (Lun : Z) : RESPONSECODE :=
  match halse_get tbl Lun with
  | None => IFD_NO_SUCH_DEVICE
  | Some _ => IFD_SUCCESS
  end.

(** The table as the entry points of the handler keep it: an in-use
    slot never has the number of a slot before it. *)
Fixpoint tbl_wf {E} (tbl : list (lun_se E)) : Prop :=
  match tbl with
  | [] => True
  | ls :: rest =>
      Forall (λ ls', ls_in_use ls' = true → ls_lun ls' ≠ ls_lun ls) rest ∧ tbl_wf rest
  end.

(** The number of slots that are not in use. *)
Definition free_slots {E} (tbl : list (lun_se E)) : nat :=
  length (filter (λ ls, ls_in_use ls = false) tbl).

(** A secure element whose entry points do nothing and succeed, and a
    provider that hands it out for any arguments but NULL. *)
Definition se_idle : halse_dev unit :=
  mk_halse_dev (λ e, e) (λ buf len e, (0, buf, len, e))
    (λ e, (0, e)) (λ e, (0, e)) (λ e, (0, e))
    (λ tx tx_len rx rx_len e, (0, rx, rx_len, e)).

Definition open_idle (args : option String.string) (e : unit)
  : option (halse_dev unit) * unit :=
  match args with
  | None => (None, e)
  | Some _ => (Some se_idle, e)
  end.

(** * Properties *)

(** ** Bytes *)

Lemma Z_of_byte_range (b : byte) : 0 ≤ Z_of_byte b < 256.
Proof.
  unfold Z_of_byte. pose proof (Byte.to_N_bounded b). lia.
Qed.

Lemma Z_of_byte_u8 (z : Z) : Z_of_byte (u8 z) = z mod 256.
Proof.
  unfold u8, u8_Z. pose proof (Z.mod_pos_bound z 256 eq_refl) as Hb.
  destruct (Byte.of_N (Z.to_N (z mod 256))) as [b|] eqn:E.
  - apply Byte.to_of_N in E. unfold Z_of_byte. rewrite E. lia.
  - apply Byte.of_N_None_iff in E. lia.
Qed.

Lemma u8_Z_of_byte (b : byte) : u8 (Z_of_byte b) = b.
Proof.
  pose proof (Z_of_byte_range b) as Hb.
  unfold u8, u8_Z. rewrite Z.mod_small by lia.
  unfold Z_of_byte. rewrite N2Z.id, Byte.of_to_N. reflexivity.
Qed.

Lemma Z_of_byte_inj (a b : byte) : Z_of_byte a = Z_of_byte b → a = b.
Proof.
  intros H. rewrite <- (u8_Z_of_byte a), <- (u8_Z_of_byte b). by rewrite H.
Qed.

Lemma nat_of_byte_u8 (n : nat) : (n < 256)%nat → nat_of_byte (u8 (Z.of_nat n)) = n.
Proof.
  intros H. unfold nat_of_byte. rewrite Z_of_byte_u8, Z.mod_small by lia. lia.
Qed.

(** ** The CRC is a 16-bit value, and its two epilogue bytes give it back *)

Lemma u16_range (z : Z) : 0 ≤ u16 z < 65536.
Proof. unfold u16. apply Z.mod_pos_bound. lia. Qed.

Lemma halse_se05x_calculate_crc_range (buf : list byte) (len : nat) :
  0 ≤ halse_se05x_calculate_crc buf len < 65536.
Proof. unfold halse_se05x_calculate_crc, swap_uint16. apply u16_range. Qed.

Lemma halse_se05x_calculate_crc_take (buf buf' : list byte) (len : nat) :
  take len buf = take len buf' →
  halse_se05x_calculate_crc buf len = halse_se05x_calculate_crc buf' len.
Proof. unfold halse_se05x_calculate_crc. by intros ->. Qed.

Lemma lor_shiftl_8 (q r : Z) :
  0 ≤ r < 256 → Z.lor (Z.shiftl q 8) r = q * 256 + r.
Proof.
  intros Hr.
  assert (Z.land (Z.shiftl q 8) r = 0) as Hland.
  { apply Z.bits_inj'. intros i Hi. rewrite Z.land_spec, Z.bits_0.
    destruct (Z.lt_ge_cases i 8).
    - rewrite Z.shiftl_spec_low by lia. reflexivity.
    - rewrite <- (Z.mod_small r (2 ^ 8)) by (change (2 ^ 8) with 256; lia).
      rewrite Z.mod_pow2_bits_high by lia. apply andb_false_r. }
  pose proof (Z.add_lor_land (Z.shiftl q 8) r) as Hadd.
  rewrite Hland, Z.shiftl_mul_pow2 in Hadd by lia.
  rewrite Z.shiftl_mul_pow2 by lia. change (2 ^ 8) with 256 in *. lia.
Qed.

(** What the receiver rebuilds from the bytes [crc >> 8] and
    [crc & 0xff] the sender stored. *)
Lemma crc_epilogue_roundtrip (crc : Z) :
  0 ≤ crc < 65536 →
  u16 (Z.lor (u16 (Z.shiftl (Z_of_byte (u8 (Z.shiftr crc 8))) 8))
             (Z_of_byte (u8 (Z.land crc 0xff)))) = crc.
Proof.
  intros Hc. rewrite !Z_of_byte_u8.
  change 0xff with (Z.ones 8). rewrite Z.land_ones by lia.
  rewrite Z.shiftr_div_pow2 by lia. change (2 ^ 8) with 256.
  assert (0 ≤ crc / 256 < 256) as Hq.
  { split; [apply Z.div_pos; lia | apply Z.div_lt_upper_bound; lia]. }
  pose proof (Z.mod_pos_bound crc 256 eq_refl) as Hr.
  rewrite (Z.mod_small (crc / 256)) by lia.
  rewrite (Z.mod_small (crc mod 256)) by lia.
  unfold u16 at 2. rewrite (Z.mod_small (Z.shiftl _ _))
    by (rewrite Z.shiftl_mul_pow2 by lia; change (2 ^ 8) with 256; lia).
  rewrite lor_shiftl_8 by lia.
  pose proof (Z.div_mod crc 256).
  unfold u16. rewrite Z.mod_small; lia.
Qed.

(** ** The I2C wrappers *)

Lemma is_nack_ENXIO : is_nack (- ENXIO) = true.
Proof. reflexivity. Qed.

Lemma hali2c_kernel_read_script bus buf off len ret buf' bus' :
  hali2c_kernel_read bus buf off len = (ret, buf', bus') →
  wr_script bus' = wr_script bus ∧ wire bus' = wire bus ∧
  length buf' = length buf ∧
  ((rd_script bus = [] ∧ ret = - ENXIO ∧ bus' = bus) ∨
   (length (rd_script bus') < length (rd_script bus))%nat).
Proof.
  unfold hali2c_kernel_read.
  destruct (rd_script bus) as [|[bs|e] rest] eqn:Hs; intros [= <- <- <-]; simpl;
    rewrite ?length_inserts; repeat split; auto with lia.
Qed.

Lemma hali2c_read_loop_script more bus buf off len ret buf' bus' :
  hali2c_read_loop more bus buf off len = (ret, buf', bus') →
  wr_script bus' = wr_script bus ∧ wire bus' = wire bus ∧
  length buf' = length buf ∧
  (length (rd_script bus') ≤ length (rd_script bus))%nat ∧
  (ret = 0 → (length (rd_script bus') < length (rd_script bus))%nat).
Proof.
  revert bus buf. induction more as [|more IH]; intros bus buf; simpl;
    destruct (hali2c_kernel_read bus buf off len) as [[r b1] bus1] eqn:Hk;
    apply hali2c_kernel_read_script in Hk as (Hw & Hl & Hb & Hk);
    (destruct (r =? Z.of_nat len) eqn:Hr;
     [apply Z.eqb_eq in Hr | apply Z.eqb_neq in Hr; destruct (is_nack r) eqn:Hn]).
  1-4, 6: intros [= <- <- <-]; unfold ENXIO, ETIMEDOUT in *;
    (destruct Hk as [(Hs & -> & ->)|Hk]; repeat split; (congruence || lia)).
  intros Hrec. apply IH in Hrec as (? & ? & ? & ? & ?).
  repeat split; try congruence; destruct Hk as [(_ & _ & ->)|Hk]; lia.
Qed.

Lemma hali2c_kernel_write_script bus buf len ret bus' :
  hali2c_kernel_write bus buf len = (ret, bus') →
  rd_script bus' = rd_script bus.
Proof.
  unfold hali2c_kernel_write.
  destruct (wr_script bus) as [|[|n|e] rest]; by intros [= <- <-].
Qed.

Lemma hali2c_write_loop_script more bus buf len ret bus' :
  hali2c_write_loop more bus buf len = (ret, bus') →
  rd_script bus' = rd_script bus.
Proof.
  revert bus. induction more as [|more IH]; intros bus; simpl;
    destruct (hali2c_kernel_write bus buf len) as [r bus1] eqn:Hk;
    apply hali2c_kernel_write_script in Hk;
    destruct (r =? Z.of_nat len); try destruct (is_nack r);
    try (intros [= <- <-]; congruence).
  intros Hrec. apply IH in Hrec. congruence.
Qed.

(** A read whose first outcome carries exactly the requested bytes. *)
Lemma halse_se05x_read_i2c_data dev rs ws lg bs off len :
  length bs = len →
  halse_se05x_read_i2c dev (mk_bus (RdData bs :: rs) ws lg) off len =
  (0, set_rxbuf (list_inserts off bs (rxbuf dev)) dev, mk_bus rs ws lg).
Proof.
  intros Hlen. unfold halse_se05x_read_i2c, hali2c_read_with_retry.
  assert (take len bs = bs) as Ht by (apply take_ge; lia).
  destruct (max_retries dev - 1)%nat; simpl; rewrite Ht, Hlen, Z.eqb_refl; reflexivity.
Qed.

(** A write the slave acknowledges at once. *)
Lemma halse_se05x_write_i2c_ack dev rs ws lg len :
  halse_se05x_write_i2c dev (mk_bus rs (WrAck :: ws) lg) len =
  (0, dev, mk_bus rs ws (lg ++ [take len (txbuf dev)])).
Proof.
  unfold halse_se05x_write_i2c, hali2c_write_with_retry.
  destruct (max_retries dev - 1)%nat; simpl; rewrite Z.eqb_refl; reflexivity.
Qed.

(** ** What the block engine leaves alone *)

Lemma session_frame_refl dev : session_frame dev dev.
Proof. by split. Qed.

Lemma session_frame_trans dev1 dev2 dev3 :
  session_frame dev1 dev2 → session_frame dev2 dev3 → session_frame dev1 dev3.
Proof. intros [] []. split; try congruence; auto. Qed.

Lemma session_frame_wf dev dev' : session_frame dev dev' → wf_dev dev → wf_dev dev'.
Proof. intros [] []. split; congruence. Qed.

Create HintDb se05x discriminated.
#[local] Hint Resolve session_frame_refl : se05x.

Lemma halse_se05x_read_i2c_frame dev bus off len ret dev' bus' :
  halse_se05x_read_i2c dev bus off len = (ret, dev', bus') →
  session_frame dev dev' ∧
  txbuf dev' = txbuf dev ∧ txlen dev' = txlen dev ∧
  txretransmit dev' = txretransmit dev ∧
  wr_script bus' = wr_script bus ∧ wire bus' = wire bus ∧
  (length (rd_script bus') ≤ length (rd_script bus))%nat ∧
  (ret = 0 → (length (rd_script bus') < length (rd_script bus))%nat).
Proof.
  unfold halse_se05x_read_i2c, hali2c_read_with_retry.
  destruct (hali2c_read_loop _ _ _ _ _) as [[r b] bus1] eqn:Hl.
  apply hali2c_read_loop_script in Hl as (? & ? & ? & ? & ?).
  intros [= <- <- <-]. repeat split; simpl; auto.
Qed.

Lemma halse_se05x_write_i2c_frame dev bus len ret dev' bus' :
  halse_se05x_write_i2c dev bus len = (ret, dev', bus') →
  dev' = dev ∧ rd_script bus' = rd_script bus.
Proof.
  unfold halse_se05x_write_i2c, hali2c_write_with_retry.
  destruct (hali2c_write_loop _ _ _ _) as [r bus1] eqn:Hl.
  apply hali2c_write_loop_script in Hl. by intros [= <- <- <-].
Qed.

Lemma halse_se05x_crc_and_send_frame dev bus len ret dev' bus' :
  halse_se05x_crc_and_send dev bus len = (ret, dev', bus') →
  session_frame dev dev' ∧ rxbuf dev' = rxbuf dev ∧
  txretransmit dev' = txretransmit dev ∧
  txlen dev' = (len + SIZE_EPILOGUE)%nat ∧
  rd_script bus' = rd_script bus.
Proof.
  unfold halse_se05x_crc_and_send. intros H.
  apply halse_se05x_write_i2c_frame in H as [-> ?].
  repeat split; simpl; auto. by rewrite !length_insert.
Qed.

Lemma halse_se05x_resend_frame dev bus ret dev' bus' :
  halse_se05x_resend dev bus = (ret, dev', bus') →
  session_frame dev dev' ∧ rxbuf dev' = rxbuf dev ∧
  txbuf dev' = txbuf dev ∧ txlen dev' = txlen dev ∧
  rd_script bus' = rd_script bus.
Proof.
  unfold halse_se05x_resend. destruct (txretransmit dev) eqn:Hl.
  - intros [= <- <- <-]. auto with se05x.
  - intros H. apply halse_se05x_write_i2c_frame in H as [-> ?].
    repeat split; simpl; auto.
Qed.

Lemma halse_se05x_send_s_block_frame dev bus d t buf len ret dev' bus' :
  halse_se05x_send_s_block dev bus d t buf len = (ret, dev', bus') →
  session_frame dev dev' ∧ rxbuf dev' = rxbuf dev ∧
  txretransmit dev' = txretransmit dev ∧
  rd_script bus' = rd_script bus.
Proof.
  unfold halse_se05x_send_s_block. destruct (SIZE_INF_MAX <? len)%nat.
  - intros [= <- <- <-]. auto with se05x.
  - intros H. apply halse_se05x_crc_and_send_frame in H as ([] & ? & ? & ? & ?).
    simpl in *. rewrite length_inserts, !length_insert in *.
    repeat split; auto.
Qed.

Lemma halse_se05x_send_r_block_frame dev bus nr ee ret dev' bus' :
  halse_se05x_send_r_block dev bus nr ee = (ret, dev', bus') →
  session_frame dev dev' ∧ rxbuf dev' = rxbuf dev ∧
  txretransmit dev' = txretransmit dev ∧
  rd_script bus' = rd_script bus.
Proof.
  unfold halse_se05x_send_r_block.
  intros H. apply halse_se05x_crc_and_send_frame in H as ([] & ? & ? & ? & ?).
  simpl in *. rewrite !length_insert in *.
  repeat split; auto.
Qed.

Ltac frame_leaf :=
  intros [= <- <- <- <-];
  split_and!; eauto using session_frame_trans with se05x;
  try congruence; try lia.

Lemma recv_block_read_frame dev bus len ret len' dev' bus' :
  recv_block_read dev bus len = (ret, len', dev', bus') →
  session_frame dev dev' ∧
  txbuf dev' = txbuf dev ∧ txlen dev' = txlen dev ∧
  txretransmit dev' = txretransmit dev ∧
  wr_script bus' = wr_script bus ∧ wire bus' = wire bus ∧
  (length (rd_script bus') ≤ length (rd_script bus))%nat ∧
  (ret = 0 → (length (rd_script bus') < length (rd_script bus))%nat).
Proof.
  unfold recv_block_read.
  destruct (halse_se05x_read_i2c dev bus 0 _) as [[r1 d1] b1] eqn:Hrd1.
  apply halse_se05x_read_i2c_frame in Hrd1 as (F1 & ? & ? & ? & ? & ? & ? & Hlt1).
  destruct (r1 =? 0) eqn:Hr1; simpl; [|frame_leaf].
  apply Z.eqb_eq in Hr1. specialize (Hlt1 Hr1).
  destruct (Z.of_nat SIZE_INF_MAX <? _); [frame_leaf|].
  destruct (negb (nat_of_byte _ =? 0)%nat).
  - destruct (halse_se05x_read_i2c d1 b1 _ _) as [[r2 d2] b2] eqn:Hrd2.
    apply halse_se05x_read_i2c_frame in Hrd2 as (F2 & ? & ? & ? & ? & ? & ? & Hlt2).
    destruct (r2 =? 0); simpl; [|frame_leaf].
    destruct (negb (_ =? _)); frame_leaf.
  - subst r1. simpl. destruct (negb (_ =? _)); frame_leaf.
Qed.

(** ** The tail calls of the receiver are well founded *)

Lemma recv_block_body_ext self1 self2 dev bus len :
  (∀ dev' bus' len',
      (length (rd_script bus') < length (rd_script bus))%nat →
      self1 dev' bus' len' = self2 dev' bus' len') →
  recv_block_body self1 dev bus len = recv_block_body self2 dev bus len.
Proof.
  intros Hself. unfold recv_block_body.
  destruct (recv_block_read dev bus len) as [[[r l] d] b] eqn:Hrd.
  apply recv_block_read_frame in Hrd as (_ & _ & _ & _ & _ & _ & Hle & Hlt).
  destruct (r =? 0) eqn:Hr; cbn [negb]; [|done].
  apply Z.eqb_eq in Hr. specialize (Hlt Hr).
  destruct (is_s_block_request _).
  - destruct (_ =? cmd_type_val CMD_WTX); [|done].
    destruct (halse_se05x_send_s_block _ _ _ _ _ _) as [[r' d'] b'] eqn:Hs.
    apply halse_se05x_send_s_block_frame in Hs as (_ & _ & _ & Hrd').
    destruct (negb (r' =? 0)); [done|]. apply Hself. rewrite Hrd'. lia.
  - destruct (is_r_block_with_error _); [|done].
    destruct (halse_se05x_resend _ _) as [[r' d'] b'] eqn:Hs.
    apply halse_se05x_resend_frame in Hs as (_ & _ & _ & _ & Hrd').
    destruct (negb (r' =? 0)); [done|]. apply Hself. rewrite Hrd'. lia.
Qed.

Lemma recv_block_rounds_enough n m dev bus len :
  (length (rd_script bus) < n)%nat → (length (rd_script bus) < m)%nat →
  recv_block_rounds n dev bus len = recv_block_rounds m dev bus len.
Proof.
  revert m dev bus len.
  induction n as [|n IH]; intros [|m] dev bus len Hn Hm; try lia.
  simpl. apply recv_block_body_ext. intros. apply IH; lia.
Qed.

(** The receiver satisfies the recursion of the source. *)
Lemma halse_se05x_recv_block_unfold dev bus len :
  halse_se05x_recv_block dev bus len =
  recv_block_body halse_se05x_recv_block dev bus len.
Proof.
  unfold halse_se05x_recv_block at 1. simpl. apply recv_block_body_ext.
  intros. unfold halse_se05x_recv_block. apply recv_block_rounds_enough; lia.
Qed.

Lemma recv_block_rounds_frame n dev bus len ret len' dev' bus' :
  recv_block_rounds n dev bus len = (ret, len', dev', bus') →
  session_frame dev dev' ∧
  (length (rd_script bus') ≤ length (rd_script bus))%nat ∧
  (ret = 0 → (length (rd_script bus') < length (rd_script bus))%nat).
Proof.
  revert dev bus len. induction n as [|n IH]; intros dev bus len; simpl.
  { frame_leaf. }
  unfold recv_block_body.
  destruct (recv_block_read dev bus len) as [[[r l] d] b] eqn:Hrd.
  apply recv_block_read_frame in Hrd as (F & _ & _ & _ & _ & _ & Hle & Hlt).
  destruct (Z.eqb_spec r 0) as [Hr|Hr]; cbn [negb]; [|frame_leaf].
  specialize (Hlt Hr).
  destruct (is_s_block_request _).
  - destruct (_ =? cmd_type_val CMD_WTX); [|frame_leaf].
    destruct (halse_se05x_send_s_block _ _ _ _ _ _) as [[r' d'] b'] eqn:Hs.
    apply halse_se05x_send_s_block_frame in Hs as (F' & _ & _ & Hrd').
    destruct (negb (r' =? 0)); [rewrite <- Hrd' in *; frame_leaf|].
    intros Hrec. apply IH in Hrec as (F'' & Hle' & _). rewrite Hrd' in Hle'.
    split_and!; [eauto using session_frame_trans | lia..].
  - destruct (is_r_block_with_error _); [|frame_leaf].
    destruct (halse_se05x_resend _ _) as [[r' d'] b'] eqn:Hs.
    apply halse_se05x_resend_frame in Hs as (F' & _ & _ & _ & Hrd').
    destruct (Z.eqb_spec r' 0); cbn [negb]; [|rewrite <- Hrd' in *; frame_leaf].
    intros Hrec. apply IH in Hrec as (F'' & Hle' & _). rewrite Hrd' in Hle'.
    split_and!; [eauto using session_frame_trans | lia..].
Qed.

Lemma halse_se05x_recv_block_frame dev bus len ret len' dev' bus' :
  halse_se05x_recv_block dev bus len = (ret, len', dev', bus') →
  session_frame dev dev' ∧
  (length (rd_script bus') ≤ length (rd_script bus))%nat ∧
  (ret = 0 → (length (rd_script bus') < length (rd_script bus))%nat).
Proof. apply recv_block_rounds_frame. Qed.

(** ** Sending an I-block: the sequence number *)

Lemma halse_se05x_send_i_block_frame dev bus buf len chain ret dev' bus' :
  halse_se05x_send_i_block dev bus buf len chain = (ret, dev', bus') →
  session_frame
    (if (SIZE_INF_MAX <? len)%nat then dev else set_n_s (Z.lxor (n_s dev) 1) dev) dev' ∧
  (length (rd_script bus') ≤ length (rd_script bus))%nat.
Proof.
  unfold halse_se05x_send_i_block.
  destruct (SIZE_INF_MAX <? len)%nat; [intros [= <- <- <-]; auto with se05x|].
  destruct (halse_se05x_crc_and_send _ _ _) as [[r1 d1] b1] eqn:Hs.
  apply halse_se05x_crc_and_send_frame in Hs as (F1 & _ & _ & _ & Hrd1).
  assert (session_frame (set_n_s (Z.lxor (n_s dev) 1) dev) d1) as F.
  { destruct F1. simpl in *. rewrite length_inserts, !length_insert in *.
    by split. }
  clear F1.
  destruct (negb (r1 =? 0)); [intros [= <- <- <-]; split; [done | by rewrite Hrd1]|].
  destruct chain; [|intros [= <- <- <-]; split; [done | by rewrite Hrd1]].
  destruct (halse_se05x_recv_block d1 b1 len) as [[[r2 l2] d2] b2] eqn:Hr.
  apply halse_se05x_recv_block_frame in Hr as (F2 & Hle & _). rewrite Hrd1 in Hle.
  repeat case_match; intros [= <- <- <-]; eauto using session_frame_trans.
Qed.



(** ** The two loops of the exchange are well founded *)

Lemma xfer_write_body_ext self1 self2 tx tx_len dev bus tx_off :
  (∀ dev' bus' off',
      (tx_len - off' < tx_len - tx_off)%nat →
      self1 dev' bus' off' = self2 dev' bus' off') →
  xfer_write_body self1 tx tx_len dev bus tx_off =
  xfer_write_body self2 tx tx_len dev bus tx_off.
Proof.
  intros Hself. unfold xfer_write_body.
  destruct (halse_se05x_send_i_block _ _ _ _ _) as [[r d] b].
  destruct (negb (r =? 0)); [done|].
  destruct (Nat.ltb_spec 0 (tx_len - tx_off -
      (if (tx_len - tx_off <? SIZE_INF_MAX)%nat then tx_len - tx_off else SIZE_INF_MAX)))
    as [Hc|Hc]; [|done].
  apply Hself.
  destruct (Nat.ltb_spec (tx_len - tx_off) SIZE_INF_MAX); unfold SIZE_INF_MAX in *; lia.
Qed.

Lemma xfer_write_rounds_enough n m tx tx_len dev bus tx_off :
  (tx_len - tx_off < n)%nat → (tx_len - tx_off < m)%nat →
  xfer_write_rounds n tx tx_len dev bus tx_off =
  xfer_write_rounds m tx tx_len dev bus tx_off.
Proof.
  revert m dev bus tx_off.
  induction n as [|n IH]; intros [|m] dev bus tx_off Hn Hm; try lia.
  simpl. apply xfer_write_body_ext. intros. apply IH; lia.
Qed.

(** The write loop satisfies the recursion of the do-while. *)
Lemma xfer_write_loop_unfold tx tx_len dev bus tx_off :
  xfer_write_loop tx tx_len dev bus tx_off =
  xfer_write_body (xfer_write_loop tx tx_len) tx tx_len dev bus tx_off.
Proof.
  unfold xfer_write_loop at 1. simpl. apply xfer_write_body_ext.
  intros. unfold xfer_write_loop. apply xfer_write_rounds_enough; lia.
Qed.

Lemma xfer_read_body_ext self1 self2 cap dev bus rx rx_off :
  (∀ dev' bus' rx' off',
      (length (rd_script bus') < length (rd_script bus))%nat →
      self1 dev' bus' rx' off' = self2 dev' bus' rx' off') →
  xfer_read_body self1 cap dev bus rx rx_off =
  xfer_read_body self2 cap dev bus rx rx_off.
Proof.
  intros Hself. unfold xfer_read_body.
  destruct (halse_se05x_recv_block dev bus 0) as [[[r l] d] b] eqn:Hr.
  apply halse_se05x_recv_block_frame in Hr as (_ & _ & Hlt).
  destruct (Z.eqb_spec r 0) as [Hr|Hr]; cbn [negb]; [|done].
  specialize (Hlt Hr).
  destruct (negb (is_i_block _)); [done|].
  destruct (negb (_ =? 0)); [|done].
  destruct (halse_se05x_send_r_block _ _ _ _) as [[r' d'] b'] eqn:Hs.
  apply halse_se05x_send_r_block_frame in Hs as (_ & _ & _ & Hrd').
  destruct (negb (r' =? 0)); [done|]. apply Hself. rewrite Hrd'. lia.
Qed.

Lemma xfer_read_rounds_enough n m cap dev bus rx rx_off :
  (length (rd_script bus) < n)%nat → (length (rd_script bus) < m)%nat →
  xfer_read_rounds n cap dev bus rx rx_off =
  xfer_read_rounds m cap dev bus rx rx_off.
Proof.
  revert m dev bus rx rx_off.
  induction n as [|n IH]; intros [|m] dev bus rx rx_off Hn Hm; try lia.
  simpl. apply xfer_read_body_ext. intros. apply IH; lia.
Qed.

(** The read loop satisfies the recursion of the do-while. *)
Lemma xfer_read_loop_unfold cap dev bus rx rx_off :
  xfer_read_loop cap dev bus rx rx_off =
  xfer_read_body (xfer_read_loop cap) cap dev bus rx rx_off.
Proof.
  unfold xfer_read_loop at 1. simpl. apply xfer_read_body_ext.
  intros. unfold xfer_read_loop. apply xfer_read_rounds_enough; lia.
Qed.

(** The loops leave alone what their steps leave alone; the write loop
    moves N(S). *)
Lemma session_frame_set_n_s v w dev dev' :
  session_frame (set_n_s w dev) dev' → session_frame (set_n_s v dev) (set_n_s v dev').
Proof. intros []. by split. Qed.

Lemma xfer_write_rounds_frame n tx tx_len dev bus tx_off ret dev' bus' :
  xfer_write_rounds n tx tx_len dev bus tx_off = (ret, dev', bus') →
  ∃ v, session_frame (set_n_s v dev) dev'.
Proof.
  revert dev bus tx_off. induction n as [|n IH]; intros dev bus tx_off; simpl.
  { intros [= <- <- <-]. exists (n_s dev). by split. }
  unfold xfer_write_body.
  destruct (halse_se05x_send_i_block _ _ _ _ _) as [[r d] b] eqn:Hs.
  apply halse_se05x_send_i_block_frame in Hs as [F _].
  assert (∃ v, session_frame (set_n_s v dev) d) as [v Fv].
  { destruct (_ <? _)%nat; [|by eauto].
    exists (n_s dev). destruct F. by split. }
  destruct (negb (r =? 0)); [intros [= <- <- <-]; by eauto|].
  destruct (0 <? _)%nat; [|intros [= <- <- <-]; by eauto].
  intros Hrec. apply IH in Hrec as [w Fw]. exists w.
  eapply session_frame_trans; [|exact Fw].
  by eapply session_frame_set_n_s.
Qed.


Lemma xfer_read_rounds_frame n cap dev bus rx off exit ret rx' off' dev' bus' :
  xfer_read_rounds n cap dev bus rx off = (exit, ret, rx', off', dev', bus') →
  session_frame dev dev'.
Proof.
  revert dev bus rx off. induction n as [|n IH]; intros dev bus rx off; simpl.
  { intros [= <- <- <- <- <- <-]. auto with se05x. }
  unfold xfer_read_body.
  destruct (halse_se05x_recv_block dev bus 0) as [[[r l] d] b] eqn:Hr.
  apply halse_se05x_recv_block_frame in Hr as (F & _).
  destruct (negb (r =? 0)); [by intros [= <- <- <- <- <- <-]|].
  destruct (negb (is_i_block _)); [by intros [= <- <- <- <- <- <-]|].
  destruct (negb (_ =? 0)); [|by intros [= <- <- <- <- <- <-]].
  destruct (halse_se05x_send_r_block _ _ _ _) as [[r' d'] b'] eqn:Hs.
  apply halse_se05x_send_r_block_frame in Hs as (F' & _).
  destruct (negb (r' =? 0));
    [intros [= <- <- <- <- <- <-]; eauto using session_frame_trans|].
  intros Hrec. apply IH in Hrec. eauto using session_frame_trans.
Qed.

Lemma xfer_read_loop_frame cap dev bus rx off exit ret rx' off' dev' bus' :
  xfer_read_loop cap dev bus rx off = (exit, ret, rx', off', dev', bus') →
  session_frame dev dev'.
Proof. apply xfer_read_rounds_frame. Qed.

(** ** Blocks on the bus *)

Ltac sizes :=
  unfold wf_dev, SIZE_BUF, SIZE_PROLOGUE, SIZE_INF_MAX, SIZE_EPILOGUE in *;
  simpl length in *; lia.

Lemma length_wire_block nad pcb inf :
  length (wire_block nad pcb inf) = (5 + length inf)%nat.
Proof. unfold wire_block. simpl. rewrite length_app. simpl. lia. Qed.

Lemma list_inserts_0_prefix {A} (k l : list A) :
  (length k ≤ length l)%nat → list_inserts 0 k l = k ++ drop (length k) l.
Proof.
  intros H. rewrite <- (take_drop (length k) l) at 1.
  apply list_inserts_0_r. rewrite length_take. lia.
Qed.

(** Reading a block in two steps leaves it contiguous in the buffer. *)
Lemma list_inserts_split {A} (k l : list A) :
  list_inserts 5 (drop 5 k) (list_inserts 0 (take 5 k) l) = list_inserts 0 k l.
Proof.
  rewrite <- (take_drop 5 k) at 3. rewrite list_inserts_app_l.
  destruct (Nat.le_gt_cases 5 (length k)).
  - rewrite length_take, Nat.min_l by lia. reflexivity.
  - rewrite drop_ge by lia. reflexivity.
Qed.

(** The receiver's view of a block that lies at the start of [rxbuf]. *)
Lemma wire_block_lookup nad pcb inf tail :
  let buf := wire_block nad pcb inf ++ tail in
  buf !!! 1%nat = pcb ∧
  buf !!! 2%nat = u8 (Z.of_nat (length inf)) ∧
  take (length inf) (drop 3 buf) = inf ∧
  halse_se05x_calculate_crc buf (3 + length inf) =
    u16 (Z.lor (u16 (Z.shiftl (Z_of_byte (buf !!! (3 + length inf)%nat)) 8))
               (Z_of_byte (buf !!! (3 + length inf + 1)%nat))).
Proof.
  unfold wire_block. cbn zeta.
  set (body := nad :: pcb :: u8 (Z.of_nat (length inf)) :: inf).
  set (crc := halse_se05x_calculate_crc body (length body)).
  assert (length body = (3 + length inf)%nat) as Hbody by reflexivity.
  split_and!.
  - reflexivity.
  - reflexivity.
  - subst body. cbn [app drop]. rewrite <- app_assoc. apply take_app_length.
  - rewrite <- app_assoc.
    set (ep := [u8 (Z.shiftr crc 8); u8 (Z.land crc 0xff)] ++ tail).
    assert ((body ++ ep) !!! (3 + length inf)%nat = u8 (Z.shiftr crc 8)) as ->.
    { rewrite <- Hbody, lookup_total_app_r, Nat.sub_diag by lia. reflexivity. }
    assert ((body ++ ep) !!! (3 + length inf + 1)%nat = u8 (Z.land crc 0xff)) as ->.
    { rewrite <- Hbody, lookup_total_app_r by lia.
      replace (length body + 1 - length body)%nat with 1%nat by lia. reflexivity. }
    rewrite crc_epilogue_roundtrip by apply halse_se05x_calculate_crc_range.
    rewrite <- Hbody. apply halse_se05x_calculate_crc_take.
    by rewrite take_app_length, firstn_all.
Qed.

Lemma Z_of_byte_u8_len (n : nat) :
  (n ≤ SIZE_INF_MAX)%nat → Z_of_byte (u8 (Z.of_nat n)) = Z.of_nat n.
Proof.
  unfold SIZE_INF_MAX. intros H. rewrite Z_of_byte_u8. apply Z.mod_small. lia.
Qed.

Lemma nat_of_byte_u8_len (n : nat) :
  (n ≤ SIZE_INF_MAX)%nat → nat_of_byte (u8 (Z.of_nat n)) = n.
Proof.
  intros H. unfold nat_of_byte. rewrite Z_of_byte_u8_len by done. lia.
Qed.

(** The first half of the receiver accepts a block the slave delivers,
    and leaves it at the start of [rxbuf]. *)
Lemma recv_block_read_block dev nad pcb inf rest ws lg len0 :
  wf_dev dev → (length inf ≤ SIZE_INF_MAX)%nat →
  recv_block_read dev
    (mk_bus (block_reads (wire_block nad pcb inf) ++ rest) ws lg) len0 =
  (0, length inf,
   set_rxbuf (list_inserts 0 (wire_block nad pcb inf) (rxbuf dev)) dev,
   mk_bus rest ws lg).
Proof.
  intros [Htx Hrx] Hlen.
  pose proof (length_wire_block nad pcb inf) as Hblk.
  assert (length (wire_block nad pcb inf) ≤ length (rxbuf dev))%nat as Hfit.
  { rewrite Hblk, Hrx. unfold SIZE_BUF, SIZE_PROLOGUE, SIZE_EPILOGUE, SIZE_INF_MAX in *. lia. }
  pose proof (wire_block_lookup nad pcb inf
                (drop (length (wire_block nad pcb inf)) (rxbuf dev))) as Hlk.
  rewrite <- list_inserts_0_prefix in Hlk by done. cbn zeta in Hlk.
  destruct Hlk as (Hpcb & Hl & Hinf & Hcrc).
  unfold recv_block_read, block_reads.
  destruct (Nat.leb_spec (length (wire_block nad pcb inf)) 5) as [Hs|Hs]; cbn [app].
  - assert (length inf = 0)%nat as H0 by lia.
    rewrite halse_se05x_read_i2c_data by (rewrite Hblk, H0; reflexivity).
    cbn [negb Z.eqb rxbuf set_rxbuf].
    rewrite Hl, Z_of_byte_u8_len by done.
    destruct (Z.ltb_spec (Z.of_nat SIZE_INF_MAX) (Z.of_nat (length inf))); [lia|].
    rewrite !nat_of_byte_u8_len by done.
    rewrite H0 at 1. cbn [Nat.eqb negb Z.eqb rxbuf set_rxbuf].
    change SIZE_PROLOGUE with 3%nat. rewrite Hcrc, Z.eqb_refl. reflexivity.
  - assert (list_inserts 0 (take 5 (wire_block nad pcb inf)) (rxbuf dev) !!! 2%nat
            = u8 (Z.of_nat (length inf))) as Hl1.
    { rewrite list_lookup_total_inserts
        by (rewrite ?length_take; unfold SIZE_BUF in *; simpl in *; lia).
      reflexivity. }
    rewrite halse_se05x_read_i2c_data
      by (rewrite length_take; change (SIZE_PROLOGUE + SIZE_EPILOGUE)%nat with 5%nat; lia).
    cbn [negb Z.eqb rxbuf set_rxbuf].
    rewrite Hl1, Z_of_byte_u8_len by done.
    destruct (Z.ltb_spec (Z.of_nat SIZE_INF_MAX) (Z.of_nat (length inf))); [lia|].
    rewrite !nat_of_byte_u8_len by done.
    destruct (Nat.eqb_spec (length inf) 0); [lia|]. cbn [negb].
    rewrite halse_se05x_read_i2c_data by (rewrite length_drop; lia).
    cbn [negb Z.eqb rxbuf set_rxbuf].
    change (SIZE_PROLOGUE + SIZE_EPILOGUE)%nat with 5%nat.
    rewrite list_inserts_split.
    change SIZE_PROLOGUE with 3%nat. rewrite Hcrc, Z.eqb_refl. reflexivity.
Qed.

Lemma with_tx_block_frame blk dev : session_frame dev (with_tx_block blk dev).
Proof. split; simpl; auto. by rewrite length_inserts. Qed.

Lemma with_rx_block_frame blk dev : session_frame dev (with_rx_block blk dev).
Proof. split; simpl; auto. by rewrite length_inserts. Qed.


#[local] Hint Resolve with_tx_block_frame with_rx_block_frame : se05x.

Lemma with_tx_block_cached blk dev :
  (length blk ≤ length (txbuf dev))%nat →
  take (txlen (with_tx_block blk dev)) (txbuf (with_tx_block blk dev)) = blk.
Proof.
  intros H. simpl. rewrite list_inserts_0_prefix by done. apply take_app_length.
Qed.

(** Writing the prologue and the payload. *)
Lemma prologue_prefix (tx : list byte) (nad pcb l : byte) (inf : list byte) :
  (3 + length inf ≤ length tx)%nat →
  let tx' := list_inserts 3 inf (<[2%nat:=l]> (<[1%nat:=pcb]> (<[0%nat:=nad]> tx))) in
  take (3 + length inf) tx' = nad :: pcb :: l :: inf ∧
  drop (3 + length inf) tx' = drop (3 + length inf) tx.
Proof.
  intros H. destruct tx as [|a [|b [|c t]]]; simpl in H; try lia.
  cbn zeta. cbn [list_insert insert]. rewrite !list_inserts_cons.
  rewrite list_inserts_0_prefix by lia. cbn [take drop Nat.add].
  split; [by rewrite take_app_length | by rewrite drop_app_length].
Qed.

(** [halse_se05x_crc_and_send] completes the block that lies in [txbuf]
    and puts it on the bus. *)
Lemma halse_se05x_crc_and_send_block dev rs ws lg nad pcb inf :
  (5 + length inf ≤ length (txbuf dev))%nat →
  take (3 + length inf) (txbuf dev) = nad :: pcb :: u8 (Z.of_nat (length inf)) :: inf →
  halse_se05x_crc_and_send dev (mk_bus rs (WrAck :: ws) lg) (SIZE_PROLOGUE + length inf) =
  (0, with_tx_block (wire_block nad pcb inf) dev,
   mk_bus rs ws (lg ++ [wire_block nad pcb inf])).
Proof.
  intros Hfit Hbody. unfold halse_se05x_crc_and_send.
  change (SIZE_PROLOGUE + length inf)%nat with (3 + length inf)%nat.
  set (body := nad :: pcb :: u8 (Z.of_nat (length inf)) :: inf) in *.
  assert (length body = (3 + length inf)%nat) as Hlen by reflexivity.
  rewrite (halse_se05x_calculate_crc_take _ body)
    by (rewrite Hbody, <- Hlen; symmetry; apply firstn_all).
  set (crc := halse_se05x_calculate_crc body (3 + length inf)).
  assert (<[S (3 + length inf):=u8 (Z.land crc 0xff)]>
            (<[(3 + length inf)%nat:=u8 (Z.shiftr crc 8)]> (txbuf dev))
          = list_inserts 0 (wire_block nad pcb inf) (txbuf dev)) as Htx.
  { rewrite list_inserts_0_prefix by (rewrite length_wire_block; lia).
    rewrite length_wire_block.
    rewrite <- (take_drop (3 + length inf) (txbuf dev)) at 1. rewrite Hbody.
    pose proof (length_drop (txbuf dev) (3 + length inf)) as Hd.
    destruct (drop (3 + length inf) (txbuf dev)) as [|a [|b t]] eqn:Ht;
      simpl in Hd; try lia.
    rewrite <- Hlen.
    rewrite (insert_app_r_alt body) by lia. rewrite Nat.sub_diag.
    rewrite (insert_app_r_alt body) by lia.
    replace (S (length body) - length body)%nat with 1%nat by lia.
    cbn [list_insert insert].
    unfold wire_block. cbn zeta.
    change (halse_se05x_calculate_crc _ _) with crc. fold body.
    rewrite <- app_assoc. cbn [app].
    do 3 f_equal.
    replace (5 + length inf)%nat with ((3 + length inf) + 2)%nat by lia.
    rewrite <- drop_drop, Ht. reflexivity. }
  rewrite Htx.
  replace (set_txlen (3 + length inf + SIZE_EPILOGUE)
            (set_txbuf (list_inserts 0 (wire_block nad pcb inf) (txbuf dev)) dev))
    with (with_tx_block (wire_block nad pcb inf) dev)
    by (unfold with_tx_block; rewrite length_wire_block; f_equal; unfold SIZE_EPILOGUE; lia).
  rewrite halse_se05x_write_i2c_ack. rewrite with_tx_block_cached; [done|].
  rewrite length_wire_block. lia.
Qed.

Lemma with_tx_block_set_txbuf blk tx dev :
  (length blk ≤ length tx)%nat → length tx = length (txbuf dev) →
  drop (length blk) tx = drop (length blk) (txbuf dev) →
  with_tx_block blk (set_txbuf tx dev) = with_tx_block blk dev.
Proof.
  intros Hfit Hlen Hdrop. unfold with_tx_block, set_txlen, set_txbuf. simpl.
  rewrite !list_inserts_0_prefix by lia. by rewrite Hdrop.
Qed.

(** Prologue and payload written, then [halse_se05x_crc_and_send]. *)
Lemma send_prepared_block dev dev1 rs ws lg pcb inf :
  wf_dev dev → (length inf ≤ SIZE_INF_MAX)%nat →
  txbuf dev1 = list_inserts 3 inf
    (<[2%nat:=u8 (Z.of_nat (length inf))]>
      (<[1%nat:=pcb]> (<[0%nat:=u8 SE05X_NAD]> (txbuf dev)))) →
  halse_se05x_crc_and_send dev1 (mk_bus rs (WrAck :: ws) lg) (SIZE_PROLOGUE + length inf) =
  (0, with_tx_block (wire_block (u8 SE05X_NAD) pcb inf) dev1,
   mk_bus rs ws (lg ++ [wire_block (u8 SE05X_NAD) pcb inf])) ∧
  list_inserts 0 (wire_block (u8 SE05X_NAD) pcb inf) (txbuf dev1) =
  list_inserts 0 (wire_block (u8 SE05X_NAD) pcb inf) (txbuf dev).
Proof.
  intros [Htx Hrx] Hlen Hprep.
  assert (3 + length inf ≤ length (txbuf dev))%nat as Hfit by sizes.
  destruct (prologue_prefix (txbuf dev) (u8 SE05X_NAD) pcb
              (u8 (Z.of_nat (length inf))) inf Hfit) as [Htake Hdrop].
  cbn zeta in Htake, Hdrop. rewrite <- Hprep in Htake, Hdrop.
  assert (length (txbuf dev1) = length (txbuf dev)) as Hl1
    by (rewrite Hprep, length_inserts, !length_insert; done).
  split.
  - apply halse_se05x_crc_and_send_block; [sizes|done].
  - rewrite !list_inserts_0_prefix by (rewrite length_wire_block; sizes).
    f_equal. rewrite length_wire_block.
    replace (5 + length inf)%nat with ((3 + length inf) + 2)%nat by lia.
    rewrite <- (drop_drop (txbuf dev1) 2 (3 + length inf)).
    rewrite <- (drop_drop (txbuf dev) 2 (3 + length inf)).
    by rewrite Hdrop.
Qed.

Lemma halse_se05x_send_s_block_ack dev rs ws lg d t buf len :
  wf_dev dev → (len ≤ SIZE_INF_MAX)%nat → (len ≤ length buf)%nat →
  halse_se05x_send_s_block dev (mk_bus rs (WrAck :: ws) lg) d t buf len =
  (0, with_tx_block (wire_block (u8 SE05X_NAD) (s_block_pcb d t) (take len buf)) dev,
   mk_bus rs ws (lg ++ [wire_block (u8 SE05X_NAD) (s_block_pcb d t) (take len buf)])).
Proof.
  intros Hwf Hlen Hbuf. unfold halse_se05x_send_s_block.
  destruct (Nat.ltb_spec SIZE_INF_MAX len); [lia|].
  assert (length (take len buf) = len) as Hinf by (rewrite length_take; lia).
  set (dev1 := set_txbuf _ dev).
  destruct (send_prepared_block dev dev1 rs ws lg (s_block_pcb d t) (take len buf))
    as [Hsend Htx]; [done | lia | by rewrite Hinf |].
  rewrite Hinf in Hsend. rewrite Hsend. do 2 f_equal.
  unfold with_tx_block. rewrite Htx. reflexivity.
Qed.

Lemma halse_se05x_send_r_block_ack dev rs ws lg nr ee :
  wf_dev dev →
  halse_se05x_send_r_block dev (mk_bus rs (WrAck :: ws) lg) nr ee =
  (0, with_tx_block (wire_block (u8 SE05X_NAD) (r_block_pcb nr ee) []) dev,
   mk_bus rs ws (lg ++ [wire_block (u8 SE05X_NAD) (r_block_pcb nr ee) []])).
Proof.
  intros Hwf. unfold halse_se05x_send_r_block.
  set (dev1 := set_txbuf _ dev).
  destruct (send_prepared_block dev dev1 rs ws lg (r_block_pcb nr ee) [])
    as [Hsend Htx]; [done | simpl; lia | reflexivity |].
  change (SIZE_PROLOGUE + length (@nil byte))%nat with SIZE_PROLOGUE in Hsend.
  rewrite Hsend. do 2 f_equal.
  unfold with_tx_block. rewrite Htx. reflexivity.
Qed.

(** An I-block whose write is acknowledged: the block is on the bus, N(S)
    is toggled, and a chained send goes on to the token R-block. *)
Lemma halse_se05x_send_i_block_ack dev rs ws lg buf len chain :
  wf_dev dev → (len ≤ SIZE_INF_MAX)%nat → (len ≤ length buf)%nat →
  let blk := wire_block (u8 SE05X_NAD) (i_block_pcb (n_s dev) chain) (take len buf) in
  let dev1 := with_tx_block blk (set_n_s (Z.lxor (n_s dev) 1) dev) in
  let bus1 := mk_bus rs ws (lg ++ [blk]) in
  halse_se05x_send_i_block dev (mk_bus rs (WrAck :: ws) lg) buf len chain =
  if chain then
    let '(ret, len, dev, bus) := halse_se05x_recv_block dev1 bus1 len in
    if negb (ret =? 0) then (ret, dev, bus)
    else
      let pcb := rxbuf dev !!! 1%nat in
      if negb (is_r_block pcb) then (-1, dev, bus)
      else if negb (Z.land (Z_of_byte pcb) CMD_ERROR_MASK =? 0) then (-1, dev, bus)
      else if negb (Z.land (Z.shiftr (Z_of_byte pcb) 4) 0x01 =? n_s dev) then (-1, dev, bus)
      else (0, dev, bus)
  else (0, dev1, bus1).
Proof.
  intros Hwf Hlen Hbuf. cbn zeta. unfold halse_se05x_send_i_block.
  destruct (Nat.ltb_spec SIZE_INF_MAX len); [lia|].
  assert (length (take len buf) = len) as Hinf by (rewrite length_take; lia).
  set (dev1 := set_txbuf (list_inserts 3 _ _) _).
  destruct (send_prepared_block dev dev1 rs ws lg
              (i_block_pcb (n_s dev) chain) (take len buf))
    as [Hsend Htx]; [done | lia | by rewrite Hinf |].
  rewrite Hinf in Hsend. rewrite Hsend. cbn [negb Z.eqb].
  assert (with_tx_block (wire_block (u8 SE05X_NAD) (i_block_pcb (n_s dev) chain)
                           (take len buf)) dev1
          = with_tx_block (wire_block (u8 SE05X_NAD) (i_block_pcb (n_s dev) chain)
                           (take len buf)) (set_n_s (Z.lxor (n_s dev) 1) dev)) as ->.
  { unfold with_tx_block. rewrite Htx. reflexivity. }
  reflexivity.
Qed.

(** * The model on the scenarios of the specification *)

(** CRC-16/X.25 of "123456789" is 0x906E; the function returns it
    byte-swapped. *)
Example calculate_crc_check_value :
  halse_se05x_calculate_crc [x31; x32; x33; x34; x35; x36; x37; x38; x39] 9 = 0x6E90.
Proof. vm_compute. reflexivity. Qed.

(** Single-block APDU: [00 A4 04 00] goes out as one I-block, the answer
    [A5 00 02 90 00 crc] gives [90 00] and [*rx_len = 2]. *)
Example scenario_single_block :
  halse_se05x_xfer session0
    (mk_bus (block_reads (wire_block xa5 x00 [x90; x00])) [WrAck] [])
    (Some apdu_select) 4 (Some (replicate 16 xff)) (Some 16%nat) =
  (0, Some ([x90; x00] ++ replicate 14 xff), Some 2%nat, set_n_s 1 session0,
   mk_bus [] [] [[x5a; x00; x04; x00; xa4; x04; x00; x2e; x31]]).
Proof. vm_compute. reflexivity. Qed.

(** Chained TX: 300 bytes go out as an I-block with PCB 0x20 and 254
    bytes, then, after the token [A5 90 00 crc], as an I-block with PCB
    0x40 and 46 bytes. *)
Example scenario_chained_tx :
  halse_se05x_xfer session0
    (mk_bus (block_reads (wire_block xa5 x90 []) ++
             block_reads (wire_block xa5 x00 [x90; x00])) [WrAck; WrAck] [])
    (Some (replicate 300 x11)) 300 (Some (replicate 16 xff)) (Some 16%nat) =
  (0, Some ([x90; x00] ++ replicate 14 xff), Some 2%nat, session0,
   mk_bus [] []
     [wire_block x5a x20 (replicate 254 x11); wire_block x5a x40 (replicate 46 x11)]).
Proof. vm_compute. reflexivity. Qed.

(** Chained RX: the answer comes as an I-block with PCB 0x20 and 254
    bytes and one with PCB 0x40 and 46 bytes; in between the driver
    sends the R-block with PCB 0x90. *)
Example scenario_chained_rx :
  halse_se05x_xfer session0
    (mk_bus (chain_reads [(x20, replicate 254 x22); (x40, replicate 46 x33)])
            [WrAck; WrAck] [])
    (Some apdu_select) 4 (Some (replicate 300 xff)) (Some 300%nat) =
  (0, Some (replicate 254 x22 ++ replicate 46 x33), Some 300%nat, set_n_s 1 session0,
   mk_bus [] [] [wire_block x5a x00 apdu_select; wire_block x5a x90 []]).
Proof. vm_compute. reflexivity. Qed.

(** One R-block with error: the I-block is sent a second time, and the
    answer that follows is delivered. *)
Example scenario_one_retransmit :
  halse_se05x_xfer session0
    (mk_bus (block_reads (wire_block xa5 x81 []) ++
             block_reads (wire_block xa5 x00 [x90; x00])) [WrAck; WrAck] [])
    (Some apdu_select) 4 (Some (replicate 16 xff)) (Some 16%nat) =
  (0, Some ([x90; x00] ++ replicate 14 xff), Some 2%nat, set_n_s 1 session0,
   mk_bus [] [] [wire_block x5a x00 apdu_select; wire_block x5a x00 apdu_select]).
Proof. vm_compute. reflexivity. Qed.

(** A slave that is not ready at first: two NACKs, then the answer. *)
Example scenario_nack_then_answer :
  halse_se05x_xfer session0
    (mk_bus (RdErr 6 :: RdErr 121 :: block_reads (wire_block xa5 x00 [x90; x00]))
            [WrErr 6; WrAck] [])
    (Some apdu_select) 4 (Some (replicate 16 xff)) (Some 16%nat) =
  (0, Some ([x90; x00] ++ replicate 14 xff), Some 2%nat, set_n_s 1 session0,
   mk_bus [] [] [wire_block x5a x00 apdu_select]).
Proof. vm_compute. reflexivity. Qed.

(** * The claims *)

(** ** C10: N(S) advances even when the send fails *)

(** C10. For every [halse_se05x_send_i_block] call with [len <= 254],
    N(S) after the call is N(S) before the call XOR 1, whatever the call
    returns: the toggle precedes the I2C write and nothing undoes it. *)
Theorem send_i_block_toggles_n_s_always dev bus buf len chain :
  (len ≤ SIZE_INF_MAX)%nat →
  n_s (halse_se05x_send_i_block dev bus buf len chain).1.2 = Z.lxor (n_s dev) 1.
Proof.
  intros Hlen.
  destruct (halse_se05x_send_i_block dev bus buf len chain) as [[r d] b] eqn:Hs.
  apply halse_se05x_send_i_block_frame in Hs as [F _].
  destruct (Nat.ltb_spec SIZE_INF_MAX len); [lia|].
  destruct F as [_ _ _ _ Hns _ _ _ _]. simpl in *. exact Hns.
Qed.

(** The send to a dead slave fails with -1, and N(S) has moved to 1. *)
Lemma send_i_block_toggles_n_s_always_witness :
  (4 ≤ SIZE_INF_MAX)%nat ∧
  (halse_se05x_send_i_block session0 bus_dead apdu_select 4 false).1.1 = -1 ∧
  n_s (halse_se05x_send_i_block session0 bus_dead apdu_select 4 false).1.2
  = Z.lxor (n_s session0) 1.
Proof.
  split_and!.
  - unfold SIZE_INF_MAX. lia.
  - vm_compute. reflexivity.
  - apply (send_i_block_toggles_n_s_always session0 bus_dead apdu_select 4 false).
    unfold SIZE_INF_MAX. lia.
Defined.

(** ** C3: the sequence number of the I-block sender *)



(** ** C9: the sanity checks of the exchange *)

(** C9, as the code has it.  [halse_se05x_xfer] returns -1 without
    touching the bus when the tx buffer is NULL, the tx length is zero,
    the rx buffer is NULL or the pointer [rx_len] is NULL.  The fourth
    test is on the pointer, not on the capacity it points to. *)
Theorem xfer_rejects_null_arguments dev bus tx_buf tx_len rx_buf rx_len :
  tx_buf = None ∨ tx_len = 0%nat ∨ rx_buf = None ∨ rx_len = None →
  halse_se05x_xfer dev bus tx_buf tx_len rx_buf rx_len =
  (-1, rx_buf, rx_len, halse_se05x_clear_buf dev, bus).
Proof.
  intros Hbad. unfold halse_se05x_xfer.
  assert (is_null tx_buf || (tx_len =? 0)%nat || is_null rx_buf || is_null rx_len = true)
    as ->; [|reflexivity].
  destruct Hbad as [-> | [-> | [-> | ->]]]; simpl;
    rewrite ?orb_true_r; reflexivity.
Qed.

Lemma xfer_rejects_null_arguments_witness :
  (Some apdu_select = None ∨ 4%nat = 0%nat ∨
   Some (replicate 16 xff) = None ∨ @None nat = None) ∧
  halse_se05x_xfer session0
    (mk_bus (block_reads (wire_block xa5 x00 [x90; x00])) [WrAck] [])
    (Some apdu_select) 4 (Some (replicate 16 xff)) None =
  (-1, Some (replicate 16 xff), None, halse_se05x_clear_buf session0,
   mk_bus (block_reads (wire_block xa5 x00 [x90; x00])) [WrAck] []).
Proof.
  split.
  - right. right. right. reflexivity.
  - apply xfer_rejects_null_arguments. right. right. right. reflexivity.
Defined.

(** A receive buffer of capacity zero is not rejected: the exchange is
    performed (the I-block is on the bus, the answer [90 00] is read),
    the call returns 0 and [*rx_len] stays 0. *)
Lemma xfer_zero_capacity_not_rejected :
  halse_se05x_xfer session0
    (mk_bus (block_reads (wire_block xa5 x00 [x90; x00])) [WrAck] [])
    (Some apdu_select) 4 (Some []) (Some 0%nat) =
  (0, Some [], Some 0%nat, set_n_s 1 session0,
   mk_bus [] [] [wire_block x5a x00 apdu_select]).
Proof. vm_compute. reflexivity. Qed.

(** ** C1: a block that is not an I-block in the read loop *)

Lemma xfer_read_loop_non_i_block cap dev bus rx off len dev' bus' :
  halse_se05x_recv_block dev bus 0 = (0, len, dev', bus') →
  is_i_block (rxbuf dev' !!! 1%nat) = false →
  xfer_read_loop cap dev bus rx off = (GotoEnd, 0, rx, off, dev', bus').
Proof.
  intros Hrecv Hpcb. rewrite xfer_read_loop_unfold. unfold xfer_read_body.
  rewrite Hrecv. cbn [negb Z.eqb]. rewrite Hpcb. reflexivity.
Qed.

(** C1, as the code behaves.  When the write loop has succeeded and the
    block [halse_se05x_recv_block] returns is not an I-block, the read
    loop is left by [goto end] with [ret] still 0: [halse_se05x_xfer]
    returns 0, and [*rx_len] and the receive buffer are as the caller
    passed them. *)
Theorem xfer_non_i_block_returns_zero
    dev bus tx tx_len rx cap dev1 bus1 len dev2 bus2 :
  tx_len ≠ 0%nat →
  xfer_write_loop tx tx_len dev bus 0 = (0, dev1, bus1) →
  halse_se05x_recv_block dev1 bus1 0 = (0, len, dev2, bus2) →
  is_i_block (rxbuf dev2 !!! 1%nat) = false →
  halse_se05x_xfer dev bus (Some tx) tx_len (Some rx) (Some cap) =
  (0, Some rx, Some cap, halse_se05x_clear_buf dev2, bus2).
Proof.
  intros Hlen Hwrite Hrecv Hpcb. unfold halse_se05x_xfer.
  destruct (Nat.eqb_spec tx_len 0); [done|].
  cbv [is_null orb default from_option id]. rewrite Hwrite. cbn [negb Z.eqb].
  rewrite (xfer_read_loop_non_i_block cap dev1 bus1 rx 0 len dev2 bus2) by done.
  reflexivity.
Qed.

(** The slave answers the SELECT with [A5 80 00 crc], an R-block without
    error: the exchange reports success and 16 received bytes. *)
Lemma xfer_non_i_block_returns_zero_witness :
  4%nat ≠ 0%nat ∧
  xfer_write_loop apdu_select 4 session0
    (mk_bus (block_reads (wire_block xa5 x80 [])) [WrAck] []) 0 =
  (0, with_tx_block (wire_block x5a x00 apdu_select) (set_n_s 1 session0),
   mk_bus (block_reads (wire_block xa5 x80 [])) [] [wire_block x5a x00 apdu_select]) ∧
  halse_se05x_recv_block
    (with_tx_block (wire_block x5a x00 apdu_select) (set_n_s 1 session0))
    (mk_bus (block_reads (wire_block xa5 x80 [])) [] [wire_block x5a x00 apdu_select]) 0 =
  (0, 0%nat,
   with_rx_block (wire_block xa5 x80 [])
     (with_tx_block (wire_block x5a x00 apdu_select) (set_n_s 1 session0)),
   mk_bus [] [] [wire_block x5a x00 apdu_select]) ∧
  is_i_block
    (rxbuf (with_rx_block (wire_block xa5 x80 [])
       (with_tx_block (wire_block x5a x00 apdu_select) (set_n_s 1 session0))) !!! 1%nat)
  = false ∧
  halse_se05x_xfer session0
    (mk_bus (block_reads (wire_block xa5 x80 [])) [WrAck] [])
    (Some apdu_select) 4 (Some (replicate 16 xff)) (Some 16%nat) =
  (0, Some (replicate 16 xff), Some 16%nat,
   halse_se05x_clear_buf
     (with_rx_block (wire_block xa5 x80 [])
        (with_tx_block (wire_block x5a x00 apdu_select) (set_n_s 1 session0))),
   mk_bus [] [] [wire_block x5a x00 apdu_select]).
Proof.
  assert (4%nat ≠ 0%nat) as H0 by lia.
  assert (xfer_write_loop apdu_select 4 session0
    (mk_bus (block_reads (wire_block xa5 x80 [])) [WrAck] []) 0 =
    (0, with_tx_block (wire_block x5a x00 apdu_select) (set_n_s 1 session0),
     mk_bus (block_reads (wire_block xa5 x80 [])) [] [wire_block x5a x00 apdu_select]))
    as H1 by (vm_compute; reflexivity).
  assert (halse_se05x_recv_block
    (with_tx_block (wire_block x5a x00 apdu_select) (set_n_s 1 session0))
    (mk_bus (block_reads (wire_block xa5 x80 [])) [] [wire_block x5a x00 apdu_select]) 0 =
    (0, 0%nat,
     with_rx_block (wire_block xa5 x80 [])
       (with_tx_block (wire_block x5a x00 apdu_select) (set_n_s 1 session0)),
     mk_bus [] [] [wire_block x5a x00 apdu_select]))
    as H2 by (vm_compute; reflexivity).
  assert (is_i_block
    (rxbuf (with_rx_block (wire_block xa5 x80 [])
       (with_tx_block (wire_block x5a x00 apdu_select) (set_n_s 1 session0))) !!! 1%nat)
    = false) as H3 by (vm_compute; reflexivity).
  split_and!; [exact H0 | exact H1 | exact H2 | exact H3 |].
  exact (xfer_non_i_block_returns_zero _ _ _ _ (replicate 16 xff) 16%nat _ _ _ _ _
           H0 H1 H2 H3).
Defined.

(** ** C4: the CRC round trip *)

(** C4. For every PCB and every INF of 0 to 254 bytes: the sender, with
    prologue and INF in [txbuf], appends the CRC of the first 3+LEN
    bytes high byte first and puts the block on the bus; a receiver to
    which the slave delivers these bytes passes the CRC comparison (the
    CRC over the first 3+LEN received bytes is the big-endian value of
    the two epilogue bytes) and holds the same PCB, LEN and INF. *)
Theorem crc_round_trip
    nad pcb inf sdev srs sws slg rdev rrest rws rlg len0 :
  wf_dev sdev → wf_dev rdev →
  (length inf ≤ SIZE_INF_MAX)%nat →
  take (3 + length inf) (txbuf sdev) = nad :: pcb :: u8 (Z.of_nat (length inf)) :: inf →
  ∃ blk rdev',
    halse_se05x_crc_and_send sdev (mk_bus srs (WrAck :: sws) slg)
      (SIZE_PROLOGUE + length inf)
    = (0, with_tx_block blk sdev, mk_bus srs sws (slg ++ [blk])) ∧
    blk = nad :: pcb :: u8 (Z.of_nat (length inf)) :: inf ++
          [u8 (Z.shiftr (halse_se05x_calculate_crc (txbuf sdev) (3 + length inf)) 8);
           u8 (Z.land (halse_se05x_calculate_crc (txbuf sdev) (3 + length inf)) 0xff)] ∧
    recv_block_read rdev (mk_bus (block_reads blk ++ rrest) rws rlg) len0
    = (0, length inf, rdev', mk_bus rrest rws rlg) ∧
    halse_se05x_calculate_crc (rxbuf rdev') (SIZE_PROLOGUE + length inf)
    = Z_of_byte (rxbuf rdev' !!! (SIZE_PROLOGUE + length inf)%nat) * 256
      + Z_of_byte (rxbuf rdev' !!! (SIZE_PROLOGUE + length inf + 1)%nat) ∧
    rxbuf rdev' !!! 1%nat = pcb ∧
    nat_of_byte (rxbuf rdev' !!! 2%nat) = length inf ∧
    take (length inf) (drop 3 (rxbuf rdev')) = inf.
Proof.
  intros Hs Hr Hlen Hbody.
  exists (wire_block nad pcb inf), (with_rx_block (wire_block nad pcb inf) rdev).
  pose proof (length_wire_block nad pcb inf) as Hblk.
  assert (length (wire_block nad pcb inf) ≤ length (rxbuf rdev))%nat as Hfit by sizes.
  pose proof (wire_block_lookup nad pcb inf
                (drop (length (wire_block nad pcb inf)) (rxbuf rdev))) as Hlk.
  rewrite <- list_inserts_0_prefix in Hlk by done. cbn zeta in Hlk.
  destruct Hlk as (Hpcb & Hl & Hinf & Hcrc).
  split_and!.
  - apply halse_se05x_crc_and_send_block; [sizes | done].
  - unfold wire_block. cbn zeta. cbn [app]. do 3 f_equal.
    assert (halse_se05x_calculate_crc (nad :: pcb :: u8 (Z.of_nat (length inf)) :: inf)
              (length (nad :: pcb :: u8 (Z.of_nat (length inf)) :: inf))
            = halse_se05x_calculate_crc (txbuf sdev) (3 + length inf)) as ->; [|done].
    apply halse_se05x_calculate_crc_take. rewrite Hbody.
    exact (firstn_all (nad :: pcb :: u8 (Z.of_nat (length inf)) :: inf)).
  - by apply recv_block_read_block.
  - unfold with_rx_block. cbn [rxbuf set_rxbuf]. change SIZE_PROLOGUE with 3%nat.
    rewrite Hcrc.
    set (hi := Z_of_byte _). set (lo := Z_of_byte _).
    pose proof (Z_of_byte_range (list_inserts 0 (wire_block nad pcb inf) (rxbuf rdev)
                                   !!! (3 + length inf)%nat)) as Hhi.
    pose proof (Z_of_byte_range (list_inserts 0 (wire_block nad pcb inf) (rxbuf rdev)
                                   !!! (3 + length inf + 1)%nat)) as Hlo.
    fold hi in Hhi. fold lo in Hlo.
    unfold u16 at 2. rewrite (Z.mod_small (Z.shiftl hi 8))
      by (rewrite Z.shiftl_mul_pow2 by lia; change (2 ^ 8) with 256; lia).
    rewrite lor_shiftl_8 by lia. unfold u16. apply Z.mod_small. lia.
  - done.
  - unfold with_rx_block. cbn [rxbuf set_rxbuf]. rewrite Hl.
    by apply nat_of_byte_u8_len.
  - done.
Qed.

(** The empty I-block with N(S) = 0 and the SELECT I-block both come back. *)
Lemma crc_round_trip_witness :
  wf_dev (set_txbuf (list_inserts 0 [x5a; x00; x04; x00; xa4; x04; x00] (txbuf session0))
            session0) ∧
  wf_dev session0 ∧
  (length apdu_select ≤ SIZE_INF_MAX)%nat ∧
  take (3 + length apdu_select)
    (txbuf (set_txbuf (list_inserts 0 [x5a; x00; x04; x00; xa4; x04; x00] (txbuf session0))
              session0))
  = x5a :: x00 :: u8 (Z.of_nat (length apdu_select)) :: apdu_select ∧
  ∃ blk rdev',
    halse_se05x_crc_and_send
      (set_txbuf (list_inserts 0 [x5a; x00; x04; x00; xa4; x04; x00] (txbuf session0))
         session0)
      (mk_bus [] [WrAck] []) (SIZE_PROLOGUE + length apdu_select)
    = (0,
       with_tx_block blk
         (set_txbuf (list_inserts 0 [x5a; x00; x04; x00; xa4; x04; x00] (txbuf session0))
            session0),
       mk_bus [] [] ([] ++ [blk])) ∧
    blk = x5a :: x00 :: u8 (Z.of_nat (length apdu_select)) :: apdu_select ++
          [u8 (Z.shiftr (halse_se05x_calculate_crc
                 (txbuf (set_txbuf (list_inserts 0 [x5a; x00; x04; x00; xa4; x04; x00]
                                      (txbuf session0)) session0))
                 (3 + length apdu_select)) 8);
           u8 (Z.land (halse_se05x_calculate_crc
                 (txbuf (set_txbuf (list_inserts 0 [x5a; x00; x04; x00; xa4; x04; x00]
                                      (txbuf session0)) session0))
                 (3 + length apdu_select)) 0xff)] ∧
    recv_block_read session0 (mk_bus (block_reads blk ++ []) [] []) 0
    = (0, length apdu_select, rdev', mk_bus [] [] []) ∧
    halse_se05x_calculate_crc (rxbuf rdev') (SIZE_PROLOGUE + length apdu_select)
    = Z_of_byte (rxbuf rdev' !!! (SIZE_PROLOGUE + length apdu_select)%nat) * 256
      + Z_of_byte (rxbuf rdev' !!! (SIZE_PROLOGUE + length apdu_select + 1)%nat) ∧
    rxbuf rdev' !!! 1%nat = x00 ∧
    nat_of_byte (rxbuf rdev' !!! 2%nat) = length apdu_select ∧
    take (length apdu_select) (drop 3 (rxbuf rdev')) = apdu_select.
Proof.
  assert (wf_dev (set_txbuf (list_inserts 0 [x5a; x00; x04; x00; xa4; x04; x00]
                               (txbuf session0)) session0)) as H1
    by (split; reflexivity).
  assert (wf_dev session0) as H2 by (split; reflexivity).
  assert (length apdu_select ≤ SIZE_INF_MAX)%nat as H3 by (vm_compute; lia).
  assert (take (3 + length apdu_select)
    (txbuf (set_txbuf (list_inserts 0 [x5a; x00; x04; x00; xa4; x04; x00] (txbuf session0))
              session0))
    = x5a :: x00 :: u8 (Z.of_nat (length apdu_select)) :: apdu_select) as H4
    by reflexivity.
  split_and!; [exact H1 | exact H2 | exact H3 | exact H4 |].
  exact (crc_round_trip x5a x00 apdu_select _ [] [] [] session0 [] [] [] 0%nat
           H1 H2 H3 H4).
Defined.

(** ** C5: the WTX echo *)





(** ** C6: waiting time extensions before the real block *)

(** One acknowledged WTX request. *)
Lemma recv_block_wtx_step dev b rest ws lg len :
  wf_dev dev →
  halse_se05x_recv_block dev
    (mk_bus (block_reads (wire_block xa5 xc3 [b]) ++ rest) (WrAck :: ws) lg) len =
  halse_se05x_recv_block
    (with_tx_block (wire_block x5a xe3 [b]) (with_rx_block (wire_block xa5 xc3 [b]) dev))
    (mk_bus rest ws (lg ++ [wire_block x5a xe3 [b]])) 1.
Proof.
  intros Hwf.
  pose proof (session_frame_wf _ _ (with_rx_block_frame (wire_block xa5 xc3 [b]) dev) Hwf)
    as Hwf1.
  assert (length (wire_block xa5 xc3 [b]) ≤ length (rxbuf dev))%nat as Hfit
    by (rewrite length_wire_block; sizes).
  pose proof (wire_block_lookup xa5 xc3 [b]
                (drop (length (wire_block xa5 xc3 [b])) (rxbuf dev))) as Hlk.
  rewrite <- list_inserts_0_prefix in Hlk by done. cbn zeta in Hlk.
  destruct Hlk as (Hpcb & _ & Hinf & _).
  assert (take 1 (drop 3 (rxbuf (with_rx_block (wire_block xa5 xc3 [b]) dev))) = [b])
    as Hecho by exact Hinf.
  assert (rxbuf (with_rx_block (wire_block xa5 xc3 [b]) dev) !!! 1%nat = xc3)
    as Hpcb' by exact Hpcb.
  rewrite halse_se05x_recv_block_unfold. unfold recv_block_body.
  rewrite recv_block_read_block by (done || sizes).
  fold (with_rx_block (wire_block xa5 xc3 [b]) dev).
  cbn [negb Z.eqb]. rewrite Hpcb'.
  change (is_s_block_request xc3) with true.
  change (Z.land (Z_of_byte xc3) CMD_TYPE_MASK =? cmd_type_val CMD_WTX) with true.
  cbn match.
  rewrite halse_se05x_send_s_block_ack;
    [| done | sizes | rewrite length_drop; sizes].
  rewrite Hecho. reflexivity.
Qed.

(** A block that is neither a request nor an R-block with error ends
    the receive. *)
Lemma recv_block_final dev nad pcb inf rest ws lg len :
  wf_dev dev → (length inf ≤ SIZE_INF_MAX)%nat →
  is_s_block_request pcb = false → is_r_block_with_error pcb = false →
  halse_se05x_recv_block dev
    (mk_bus (block_reads (wire_block nad pcb inf) ++ rest) ws lg) len =
  (0, length inf, with_rx_block (wire_block nad pcb inf) dev, mk_bus rest ws lg).
Proof.
  intros Hwf Hlen Hreq Herr.
  assert (length (wire_block nad pcb inf) ≤ length (rxbuf dev))%nat as Hfit
    by (rewrite length_wire_block; sizes).
  pose proof (wire_block_lookup nad pcb inf
                (drop (length (wire_block nad pcb inf)) (rxbuf dev))) as Hlk.
  rewrite <- list_inserts_0_prefix in Hlk by done. cbn zeta in Hlk.
  destruct Hlk as (Hpcb & _).
  rewrite halse_se05x_recv_block_unfold. unfold recv_block_body.
  rewrite recv_block_read_block by done.
  cbn [negb Z.eqb rxbuf set_rxbuf]. rewrite Hpcb, Hreq, Herr. reflexivity.
Qed.

(** C6, as the code has it.  Any number of acknowledged WTX requests
    before a block that ends the receive leaves N(S), N(R) and the
    retransmit latch as they were, and the receive ends as it does
    without them: same return value, same length, same block in
    [rxbuf].  The cached transmit block is not kept: after the last
    request, [txbuf]/[txlen] hold the WTX response to it. *)
Theorem wtx_requests_keep_counters infs dev nad pcb inf rest ws lg len :
  wf_dev dev → (length inf ≤ SIZE_INF_MAX)%nat →
  is_s_block_request pcb = false → is_r_block_with_error pcb = false →
  halse_se05x_recv_block dev
    (mk_bus (block_reads (wire_block nad pcb inf) ++ rest) ws lg) len
  = (0, length inf, with_rx_block (wire_block nad pcb inf) dev, mk_bus rest ws lg) ∧
  ∃ dev',
    halse_se05x_recv_block dev
      (mk_bus (wtx_requests infs ++ block_reads (wire_block nad pcb inf) ++ rest)
              (replicate (length infs) WrAck ++ ws) lg) len
    = (0, length inf, with_rx_block (wire_block nad pcb inf) dev',
       mk_bus rest ws (lg ++ wtx_responses infs)) ∧
    n_s dev' = n_s dev ∧ n_r dev' = n_r dev ∧
    txretransmit dev' = txretransmit dev ∧
    (infs = [] → dev' = dev) ∧
    (∀ b, last infs = Some b →
       take (txlen dev') (txbuf dev') = wire_block x5a xe3 [b]).
Proof.
  intros Hwf Hlen Hreq Herr. split; [by apply recv_block_final|].
  revert dev lg len Hwf. induction infs as [|b infs IH]; intros dev lg len Hwf.
  - exists dev. cbn [wtx_requests flat_map wtx_responses map length replicate app].
    rewrite app_nil_r. split_and!; try done. by apply recv_block_final.
  - set (dev1 := with_tx_block (wire_block x5a xe3 [b])
                   (with_rx_block (wire_block xa5 xc3 [b]) dev)).
    assert (session_frame dev dev1) as F
      by (eapply session_frame_trans; [apply with_rx_block_frame | apply with_tx_block_frame]).
    pose proof (session_frame_wf _ _ F Hwf) as Hwf1.
    destruct (IH dev1 (lg ++ [wire_block x5a xe3 [b]]) 1%nat Hwf1)
      as (dev' & Hrecv & Hns & Hnr & Hlatch & Hnil & Hlast).
    exists dev'.
    cbn [wtx_requests flat_map wtx_responses map length replicate].
    rewrite <- !app_assoc. cbn [app].
    rewrite recv_block_wtx_step by done. fold dev1.
    fold (wtx_requests infs). rewrite Hrecv.
    split_and!; try done.
    + by rewrite <- app_assoc.
    + intros b' Hb'. destruct infs as [|b2 infs'].
      * injection Hb' as <-. rewrite (Hnil eq_refl).
        apply with_tx_block_cached. rewrite length_wire_block.
        unfold with_rx_block. cbn [txbuf set_rxbuf]. sizes.
      * apply Hlast. exact Hb'.
Qed.

(** Two requests, then the answer [90 00] to the SELECT. *)
Lemma wtx_requests_keep_counters_witness :
  wf_dev (with_tx_block (wire_block x5a x00 apdu_select) (set_n_s 1 session0)) ∧
  (length [x90; x00] ≤ SIZE_INF_MAX)%nat ∧
  is_s_block_request x00 = false ∧ is_r_block_with_error x00 = false ∧
  halse_se05x_recv_block
    (with_tx_block (wire_block x5a x00 apdu_select) (set_n_s 1 session0))
    (mk_bus (block_reads (wire_block xa5 x00 [x90; x00]) ++ []) [] []) 0
  = (0, length [x90; x00],
     with_rx_block (wire_block xa5 x00 [x90; x00])
       (with_tx_block (wire_block x5a x00 apdu_select) (set_n_s 1 session0)),
     mk_bus [] [] []) ∧
  ∃ dev',
    halse_se05x_recv_block
      (with_tx_block (wire_block x5a x00 apdu_select) (set_n_s 1 session0))
      (mk_bus (wtx_requests [xaa; xbb] ++
               block_reads (wire_block xa5 x00 [x90; x00]) ++ [])
              (replicate (length [xaa; xbb]) WrAck ++ []) []) 0
    = (0, length [x90; x00], with_rx_block (wire_block xa5 x00 [x90; x00]) dev',
       mk_bus [] [] ([] ++ wtx_responses [xaa; xbb])) ∧
    n_s dev' = 1 ∧ n_r dev' = 0 ∧ txretransmit dev' = false ∧
    take (txlen dev') (txbuf dev') = wire_block x5a xe3 [xbb].
Proof.
  assert (wf_dev (with_tx_block (wire_block x5a x00 apdu_select) (set_n_s 1 session0)))
    as H1 by (split; reflexivity).
  assert (length [x90; x00] ≤ SIZE_INF_MAX)%nat as H2 by (vm_compute; lia).
  destruct (wtx_requests_keep_counters [xaa; xbb] _ xa5 x00 [x90; x00] [] [] [] 0%nat
              H1 H2 eq_refl eq_refl)
    as (Hquiet & dev' & Hnoisy & Hns & Hnr & Hlatch & _ & Hlast).
  split_and!; [exact H1 | exact H2 | reflexivity | reflexivity | exact Hquiet |].
  exists dev'. split_and!; [exact Hnoisy | exact Hns | exact Hnr | exact Hlatch |].
  exact (Hlast xbb eq_refl).
Defined.

(** The cached transmit block does not survive a WTX request: after the
    SELECT I-block (9 bytes in [txbuf]) and one request, a receive that
    succeeds leaves the 6-byte WTX response as the cached block.  An
    R-block with error that follows makes the driver resend that
    response, where without the request it resends the I-block. *)
Lemma wtx_request_replaces_cached_block :
  take (txlen (with_tx_block (wire_block x5a x00 apdu_select) (set_n_s 1 session0)))
       (txbuf (with_tx_block (wire_block x5a x00 apdu_select) (set_n_s 1 session0)))
  = [x5a; x00; x04; x00; xa4; x04; x00; x2e; x31] ∧
  (halse_se05x_recv_block
     (with_tx_block (wire_block x5a x00 apdu_select) (set_n_s 1 session0))
     (mk_bus (wtx_requests [xaa] ++ block_reads (wire_block xa5 x00 [x90; x00]))
             [WrAck] []) 0).1.1.1 = 0 ∧
  (let dev' :=
     (halse_se05x_recv_block
        (with_tx_block (wire_block x5a x00 apdu_select) (set_n_s 1 session0))
        (mk_bus (wtx_requests [xaa] ++ block_reads (wire_block xa5 x00 [x90; x00]))
                [WrAck] []) 0).1.2 in
   take (txlen dev') (txbuf dev') = [x5a; xe3; x01; xaa; x2b; x00]) ∧
  wire (halse_se05x_xfer session0
          (mk_bus (wtx_requests [xaa] ++ block_reads (wire_block xa5 x82 []) ++
                   block_reads (wire_block xa5 x00 [x90; x00]))
                  [WrAck; WrAck; WrAck] [])
          (Some apdu_select) 4 (Some (replicate 16 xff)) (Some 16%nat)).2
  = [[x5a; x00; x04; x00; xa4; x04; x00; x2e; x31];
     [x5a; xe3; x01; xaa; x2b; x00];
     [x5a; xe3; x01; xaa; x2b; x00]] ∧
  wire (halse_se05x_xfer session0
          (mk_bus (block_reads (wire_block xa5 x82 []) ++
                   block_reads (wire_block xa5 x00 [x90; x00]))
                  [WrAck; WrAck] [])
          (Some apdu_select) 4 (Some (replicate 16 xff)) (Some 16%nat)).2
  = [[x5a; x00; x04; x00; xa4; x04; x00; x2e; x31];
     [x5a; x00; x04; x00; xa4; x04; x00; x2e; x31]].
Proof. split_and!; vm_compute; reflexivity. Qed.

(** ** C2: one retransmission per exchange *)


Lemma i_block_not_request pcb :
  is_i_block pcb = true →
  is_s_block_request pcb = false ∧ is_r_block_with_error pcb = false.
Proof. destruct pcb; vm_compute; intuition congruence. Qed.

Lemma with_rx_block_lookup nad pcb inf dev :
  wf_dev dev → (length inf ≤ SIZE_INF_MAX)%nat →
  rxbuf (with_rx_block (wire_block nad pcb inf) dev) !!! 1%nat = pcb ∧
  take (length inf) (drop 3 (rxbuf (with_rx_block (wire_block nad pcb inf) dev))) = inf.
Proof.
  intros Hwf Hlen.
  assert (length (wire_block nad pcb inf) ≤ length (rxbuf dev))%nat as Hfit
    by (rewrite length_wire_block; sizes).
  pose proof (wire_block_lookup nad pcb inf
                (drop (length (wire_block nad pcb inf)) (rxbuf dev))) as Hlk.
  rewrite <- list_inserts_0_prefix in Hlk by done. cbn zeta in Hlk.
  destruct Hlk as (Hpcb & _ & Hinf & _). by split.
Qed.

(** [halse_se05x_clear_buf] forgets everything the block engine changes
    but N(S). *)
Lemma halse_se05x_clear_buf_frame dev dev' :
  session_frame dev dev' → halse_se05x_clear_buf dev' = halse_se05x_clear_buf dev.
Proof.
  intros []. unfold halse_se05x_clear_buf, set_rxbuf, set_txretransmit, set_txlen, set_txbuf.
  simpl. congruence.
Qed.






(** ** C7: the ATR rewrite *)

Lemma lxor_byte_range (a b : Z) :
  0 ≤ a < 256 → 0 ≤ b < 256 → 0 ≤ Z.lxor a b < 256.
Proof.
  intros Ha Hb.
  assert (0 ≤ Z.lxor a b) as Hnn by (apply Z.lxor_nonneg; lia).
  split; [done|].
  destruct (Z.eq_dec (Z.lxor a b) 0) as [->|Hne]; [lia|].
  change 256 with (2 ^ 8). apply Z.log2_lt_pow2; [lia|].
  pose proof (Z.log2_lxor a b ltac:(lia) ltac:(lia)) as Hlog.
  assert (Z.log2 a < 8).
  { destruct (Z.eq_dec a 0) as [->|]; [done|]. apply Z.log2_lt_pow2; lia. }
  assert (Z.log2 b < 8).
  { destruct (Z.eq_dec b 0) as [->|]; [done|]. apply Z.log2_lt_pow2; lia. }
  lia.
Qed.

Lemma xor_all_range (l : list byte) : 0 ≤ xor_all l < 256.
Proof.
  induction l as [|b l IH]; simpl; [lia|].
  apply lxor_byte_range; [apply Z_of_byte_range | done].
Qed.

(** The running XOR of [halse_se05x_calculate_xor], started at [v]. *)
Lemma calculate_xor_fold (l : list byte) (v : byte) :
  Z_of_byte (fold_left (λ v b, u8 (Z.lxor (Z_of_byte v) (Z_of_byte b))) l v)
  = Z.lxor (Z_of_byte v) (xor_all l).
Proof.
  revert v. induction l as [|b l IH]; intros v; simpl.
  - by rewrite Z.lxor_0_r.
  - rewrite IH, Z_of_byte_u8.
    rewrite Z.mod_small
      by (apply lxor_byte_range; apply Z_of_byte_range).
    by rewrite Z.lxor_assoc.
Qed.

Lemma halse_se05x_calculate_xor_spec (buf : list byte) (len : nat) :
  Z_of_byte (halse_se05x_calculate_xor buf len) = xor_all (take len buf).
Proof.
  unfold halse_se05x_calculate_xor. rewrite calculate_xor_fold.
  change (Z_of_byte x00) with 0. apply Z.lxor_0_l.
Qed.

(** C7, as the code has it.  HB_LEN is the byte of the cached ATR at
    offset 9 + real[6] + real[8 + real[6]] (after PVER, VID, DLLP_LEN,
    DLLP, PLID, PLP_LEN and PLP).  If it is at most 15, and the ATR and
    the caller's buffer are long enough for the bytes accessed,
    [halse_se05x_get_atr] returns 0 and writes 9 + HB_LEN bytes:
    [3B], [F0 | HB_LEN], [96 00 00 80 11 FE], the historical bytes, and
    TCK, the XOR of the output bytes 1 to 7 + HB_LEN.  If it is above 15,
    the call returns -1 and writes nothing. *)
Theorem get_atr_rewrite dev buf len :
  let n := nat_of_byte (atr dev !!! 6%nat) in
  let m := nat_of_byte (atr dev !!! (8 + n)%nat) in
  let hb_len := nat_of_byte (atr dev !!! (9 + n + m)%nat) in
  let hb := take hb_len (drop (10 + n + m) (atr dev)) in
  let t0 := u8 (Z.lor 0xF0 (Z.of_nat hb_len)) in
  ((hb_len ≤ 15)%nat →
   (10 + n + m + hb_len ≤ length (atr dev))%nat →
   (9 + hb_len ≤ length buf)%nat →
   ∃ tck,
     halse_se05x_get_atr dev buf len =
     (0, [x3b; t0; x96; x00; x00; x80; x11; xfe] ++ hb ++ [tck] ++ drop (9 + hb_len) buf,
      (9 + hb_len)%nat) ∧
     length hb = hb_len ∧
     Z_of_byte tck = xor_all ([t0; x96; x00; x00; x80; x11; xfe] ++ hb)) ∧
  ((15 < hb_len)%nat → halse_se05x_get_atr dev buf len = (-1, buf, len)).
Proof.
  intros n m hb_len hb t0. unfold halse_se05x_get_atr. cbv zeta.
  change (0 + (1 + 5))%nat with 6%nat. fold n.
  replace (6 + (1 + n) + 1)%nat with (8 + n)%nat by lia. fold m.
  replace (8 + n + (1 + m))%nat with (9 + n + m)%nat by lia. fold hb_len.
  replace (9 + n + m + 1)%nat with (10 + n + m)%nat by lia. fold hb.
  split.
  - intros Hhb Hatr Hbuf.
    destruct (Nat.ltb_spec 15 hb_len); [lia|].
    assert (length hb = hb_len) as Hlen.
    { unfold hb. rewrite length_take, length_drop. lia. }
    change (0 + length atr_prologue)%nat with 8%nat.
    rewrite (list_inserts_0_prefix atr_prologue buf) by (simpl; lia).
    change (length atr_prologue) with 8%nat.
    cbn [atr_prologue app lookup_total list_lookup_total list_insert insert].
    change (Z_of_byte xf0) with 0xF0. fold t0.
    set (rest := drop 8 buf).
    assert (length rest = (length buf - 8)%nat) as Hrest by apply length_drop.
    change (x3b :: t0 :: x96 :: x00 :: x00 :: x80 :: x11 :: xfe :: rest)
      with ([x3b; t0; x96; x00; x00; x80; x11; xfe] ++ rest).
    assert (list_inserts 8 hb ([x3b; t0; x96; x00; x00; x80; x11; xfe] ++ rest)
            = [x3b; t0; x96; x00; x00; x80; x11; xfe] ++ hb ++ drop hb_len rest) as Hins.
    { change 8%nat with (length [x3b; t0; x96; x00; x00; x80; x11; xfe] + 0)%nat.
      rewrite list_inserts_app_r, list_inserts_0_prefix by lia. by rewrite Hlen. }
    rewrite !Hins.
    set (tck := halse_se05x_calculate_xor _ _).
    exists tck.
    assert (drop hb_len rest = (rest !!! hb_len) :: drop (9 + hb_len) buf) as Htail.
    { unfold rest. rewrite (drop_S (drop 8 buf) (drop 8 buf !!! hb_len) hb_len)
        by (apply list_lookup_lookup_total_lt; fold rest; lia).
      f_equal. rewrite drop_drop. reflexivity. }
    split_and!; [|done|].
    + f_equal; [|lia]. f_equal.
      rewrite Htail.
      rewrite (app_assoc [x3b; t0; x96; x00; x00; x80; x11; xfe] hb).
      rewrite (insert_app_r_alt ([x3b; t0; x96; x00; x00; x80; x11; xfe] ++ hb))
        by (rewrite length_app, Hlen; simpl; lia).
      rewrite length_app, Hlen. cbn [length].
      replace (8 + hb_len - (8 + hb_len))%nat with 0%nat by lia.
      cbn [list_insert insert]. by rewrite <- app_assoc.
    + unfold tck. rewrite halse_se05x_calculate_xor_spec.
      cbn [app drop]. replace (8 + hb_len - 1)%nat with (7 + hb_len)%nat by lia.
      change (t0 :: x96 :: x00 :: x00 :: x80 :: x11 :: xfe :: hb ++ drop hb_len rest)
        with (([t0; x96; x00; x00; x80; x11; xfe] ++ hb) ++ drop hb_len rest).
      replace (7 + hb_len)%nat with (length ([t0; x96; x00; x00; x80; x11; xfe] ++ hb))
        by (rewrite length_app, Hlen; reflexivity).
      by rewrite take_app_length.
  - intros Hhb. by destruct (Nat.ltb_spec 15 hb_len); [|lia].
Qed.

Lemma get_atr_rewrite_witness :
  (nat_of_byte (atr (session_with_atr atr_jcop) !!! 12%nat) ≤ 15)%nat ∧
  (10 + 2 + 1 + 10 ≤ length (atr (session_with_atr atr_jcop)))%nat ∧
  (9 + 10 ≤ length (replicate 32 x00))%nat ∧
  ∃ tck,
    halse_se05x_get_atr (session_with_atr atr_jcop) (replicate 32 x00) 32 =
    (0,
     [x3b; xfa; x96; x00; x00; x80; x11; xfe] ++
     [x4a; x43; x4f; x50; x34; x20; x41; x54; x50; x4f] ++ [tck] ++ replicate 13 x00,
     19%nat) ∧
    Z_of_byte tck =
    xor_all ([xfa; x96; x00; x00; x80; x11; xfe] ++
             [x4a; x43; x4f; x50; x34; x20; x41; x54; x50; x4f]) ∧
    tck = x0b.
Proof.
  assert (nat_of_byte (atr (session_with_atr atr_jcop) !!! 12%nat) ≤ 15)%nat as H1
    by (vm_compute; lia).
  assert (10 + 2 + 1 + 10 ≤ length (atr (session_with_atr atr_jcop)))%nat as H2
    by (vm_compute; lia).
  assert (9 + 10 ≤ length (replicate 32 x00))%nat as H3 by (vm_compute; lia).
  refine (conj H1 (conj H2 (conj H3 _))).
  destruct (proj1 (get_atr_rewrite (session_with_atr atr_jcop) (replicate 32 x00) 32)
              H1 H2 H3) as (tck & Hret & _ & Htck).
  exists tck. split_and!; [exact Hret | exact Htck |].
  apply Z_of_byte_inj. rewrite Htck. vm_compute. reflexivity.
Defined.

(** The offset 8 + real[6] + real[8 + real[6]] is that of the last PLP
    byte, not of HB_LEN.  For the ATR of scenario 7 that byte is 9, yet
    9 + 10 bytes are written and [out[1]] is [FA].  For [atr_16] that byte
    is 0, within [0,15], yet the call fails. *)
Lemma get_atr_hb_len_is_one_byte_further :
  nat_of_byte (atr_jcop !!! (8 + nat_of_byte (atr_jcop !!! 6%nat) +
                 nat_of_byte (atr_jcop !!! (8 + nat_of_byte (atr_jcop !!! 6%nat))%nat))%nat)
  = 9%nat ∧
  halse_se05x_get_atr (session_with_atr atr_jcop) (replicate 32 x00) 32 =
  (0,
   [x3b; xfa; x96; x00; x00; x80; x11; xfe;
    x4a; x43; x4f; x50; x34; x20; x41; x54; x50; x4f; x0b] ++ replicate 13 x00,
   19%nat) ∧
  nat_of_byte (atr_16 !!! (8 + nat_of_byte (atr_16 !!! 6%nat) +
                 nat_of_byte (atr_16 !!! (8 + nat_of_byte (atr_16 !!! 6%nat))%nat))%nat)
  = 0%nat ∧
  halse_se05x_get_atr (session_with_atr atr_16) (replicate 32 x00) 32 =
  (-1, replicate 32 x00, 32%nat).
Proof. split_and!; vm_compute; reflexivity. Qed.

(** ** C8: truncation of the received chain *)

(** The read loop over a received chain: the data is copied up to the
    capacity, the rest is dropped, and the loop goes on to the last
    block. *)
Lemma xfer_read_loop_received cap dev bus blocks dev' bus' rx off :
  chain_received dev bus blocks dev' bus' → (off ≤ cap)%nat →
  xfer_read_loop cap dev bus rx off
  = (LoopDone, 0,
     list_inserts off (take (cap - off) (chain_data blocks)) rx,
     (cap `min` (off + length (chain_data blocks)))%nat,
     dev', bus').
Proof.
  intros Hrecv. revert rx off.
  induction Hrecv as [dev bus pcb inf dev1 bus1 Hblk Hpcb Hinf Hi Hbit
                     |dev bus pcb inf dev1 bus1 dev2 bus2 blocks dev' bus'
                        Hblk Hpcb Hinf Hi Hbit Hack Hrest IH];
    intros rx off Hoff.
  all: set (len' := if (cap <? off + length inf)%nat then (cap - off)%nat else length inf).
  all: assert (take len' (drop 3 (rxbuf dev1)) = take len' inf) as Hcopy
    by (transitivity (take len' (take (length inf) (drop 3 (rxbuf dev1))));
        [rewrite take_take; f_equal; unfold len';
         destruct (Nat.ltb_spec cap (off + length inf)); lia
        |by rewrite Hinf]).
  all: rewrite xfer_read_loop_unfold; unfold xfer_read_body; rewrite Hblk;
    cbn [negb Z.eqb]; rewrite Hpcb, Hi; cbn [negb]; fold len'; rewrite Hcopy;
    fold (chain_bit pcb).
  - (* the last block *)
    rewrite Hbit. cbn [Z.eqb negb].
    cbn [chain_data flat_map snd]. rewrite !app_nil_r.
    assert (take len' inf = take (cap - off) inf) as ->.
    { unfold len'. destruct (Nat.ltb_spec cap (off + length inf)); [done|].
      rewrite !take_ge; [done | lia..]. }
    assert (off + len' = cap `min` (off + length inf))%nat as ->; [|reflexivity].
    unfold len'. destruct (Nat.ltb_spec cap (off + length inf)); lia.
  - (* a chained block: acknowledge it and go round again *)
    destruct (Z.eqb_spec (chain_bit pcb) 0) as [|_]; [done|]. cbn [negb].
    rewrite Hack. cbn [negb Z.eqb].
    rewrite IH
      by (unfold len'; destruct (Nat.ltb_spec cap (off + length inf)); lia).
    change (chain_data ((pcb, inf) :: blocks)) with (inf ++ chain_data blocks).
    assert (list_inserts (off + len') (take (cap - (off + len')) (chain_data blocks))
              (list_inserts off (take len' inf) rx)
            = list_inserts off (take (cap - off) (inf ++ chain_data blocks)) rx)
      as ->.
    { unfold len'. destruct (Nat.ltb_spec cap (off + length inf)) as [Hover|Hfit].
      - replace (cap - (off + (cap - off)))%nat with 0%nat by lia.
        rewrite take_0. cbn [list_inserts].
        rewrite (take_app_le inf) by lia. reflexivity.
      - rewrite (take_ge inf) by lia.
        rewrite (take_app_ge inf) by lia.
        rewrite list_inserts_app_l.
        replace (length inf + off)%nat with (off + length inf)%nat by lia.
        replace (cap - off - length inf)%nat with (cap - (off + length inf))%nat by lia.
        reflexivity. }
    assert (cap `min` (off + len' + length (chain_data blocks))
            = cap `min` (off + length (inf ++ chain_data blocks)))%nat
      as ->; [|reflexivity].
    rewrite length_app. unfold len'.
    destruct (Nat.ltb_spec cap (off + length inf)); lia.
Qed.

(** A slave that delivers the blocks of a chain one after the other and
    accepts the R-blocks in between has the chain received, and each
    acknowledgement is on the bus. *)
Lemma chain_reads_received blocks dev rest ws lg :
  wf_dev dev → i_block_chain blocks →
  ∃ dev',
    session_frame dev dev' ∧
    chain_received dev
      (mk_bus (chain_reads blocks ++ rest)
              (replicate (length blocks - 1) WrAck ++ ws) lg)
      blocks dev' (mk_bus rest ws (lg ++ chain_acks blocks)).
Proof.
  revert dev lg.
  induction blocks as [|[pcb inf] blocks IH]; intros dev lg Hwf Hchain; [done|].
  destruct Hchain as (Hi & Hlen & Hrest).
  destruct (i_block_not_request pcb Hi) as [Hreq Herr].
  destruct (with_rx_block_lookup xa5 pcb inf dev Hwf Hlen) as [Hpcb Hinf].
  set (dev1 := with_rx_block (wire_block xa5 pcb inf) dev) in *.
  assert (wf_dev dev1) as Hwf1
    by (apply (session_frame_wf dev); [apply with_rx_block_frame | done]).
  cbn [chain_reads flat_map fst snd]. rewrite <- app_assoc.
  destruct blocks as [|b2 blocks].
  - exists dev1. split; [apply with_rx_block_frame|].
    cbn [length replicate app chain_acks removelast map flat_map].
    rewrite app_nil_r.
    apply received_last; [|done..].
    by rewrite recv_block_final.
  - destruct Hrest as [Hbit Hchain].
    replace (length ((pcb, inf) :: b2 :: blocks) - 1)%nat
      with (S (length (b2 :: blocks) - 1)) by (simpl; lia).
    cbn [replicate app].
    set (dev2 := with_tx_block (chain_ack pcb) dev1).
    assert (session_frame dev dev2) as F2
      by (eapply session_frame_trans; [apply with_rx_block_frame | apply with_tx_block_frame]).
    destruct (IH dev2 (lg ++ [chain_ack pcb]) (session_frame_wf _ _ F2 Hwf) Hchain)
      as (dev' & F' & Hrecv).
    exists dev'. split; [eauto using session_frame_trans|].
    change (chain_acks ((pcb, inf) :: b2 :: blocks))
      with (chain_ack pcb :: chain_acks (b2 :: blocks)).
    rewrite <- app_assoc in Hrecv. cbn [app] in Hrecv.
    eapply received_chained; [|done..| |exact Hrecv].
    + by rewrite recv_block_final.
    + by rewrite halse_se05x_send_r_block_ack.
Qed.

(** C8. When the write loop has succeeded and the receive side then gets
    a chain of I-blocks whose INF lengths add up to more than the
    capacity [cap] the caller passed in [*rx_len], [halse_se05x_xfer]
    copies the first [cap] bytes of the data and nothing beyond, goes
    through the whole chain, returns 0 and stores [cap] in [*rx_len]. *)
Theorem xfer_truncates_without_error
    dev bus tx tx_len rx cap dev1 bus1 blocks dev2 bus2 :
  tx_len ≠ 0%nat →
  xfer_write_loop tx tx_len dev bus 0 = (0, dev1, bus1) →
  chain_received dev1 bus1 blocks dev2 bus2 →
  (cap < length (chain_data blocks))%nat →
  halse_se05x_xfer dev bus (Some tx) tx_len (Some rx) (Some cap) =
  (0, Some (list_inserts 0 (take cap (chain_data blocks)) rx), Some cap,
   halse_se05x_clear_buf dev2, bus2).
Proof.
  intros Hlen Hwrite Hrecv Hcap.
  unfold halse_se05x_xfer.
  destruct (Nat.eqb_spec tx_len 0); [done|].
  cbv [is_null orb default from_option id]. rewrite Hwrite. cbn [negb Z.eqb].
  rewrite (xfer_read_loop_received cap dev1 bus1 blocks dev2 bus2 rx 0 Hrecv (Nat.le_0_l _)).
  by rewrite Nat.sub_0_r, Nat.add_0_l, Nat.min_l by lia.
Qed.

(** The answer to the SELECT comes as three I-blocks, [01 02 03] and
    [04 05] chained and [90 00] last, into a buffer of two bytes: the
    caller gets [01 02], both chained blocks are acknowledged (R-blocks
    with N(R) = 1, then N(R) = 0), and the call returns 0. *)
Lemma xfer_truncates_without_error_witness :
  4%nat ≠ 0%nat ∧
  xfer_write_loop apdu_select 4 session0
    (mk_bus (chain_reads [(x20, [x01; x02; x03]); (x60, [x04; x05]); (x00, [x90; x00])])
            [WrAck; WrAck; WrAck] []) 0 =
    (0, with_tx_block (wire_block x5a x00 apdu_select) (set_n_s 1 session0),
     mk_bus (chain_reads [(x20, [x01; x02; x03]); (x60, [x04; x05]); (x00, [x90; x00])])
            [WrAck; WrAck] [wire_block x5a x00 apdu_select]) ∧
  chain_received
    (with_tx_block (wire_block x5a x00 apdu_select) (set_n_s 1 session0))
    (mk_bus (chain_reads [(x20, [x01; x02; x03]); (x60, [x04; x05]); (x00, [x90; x00])])
            [WrAck; WrAck] [wire_block x5a x00 apdu_select])
    [(x20, [x01; x02; x03]); (x60, [x04; x05]); (x00, [x90; x00])]
    (with_rx_block (wire_block xa5 x00 [x90; x00])
       (with_tx_block (chain_ack x60)
          (with_rx_block (wire_block xa5 x60 [x04; x05])
             (with_tx_block (chain_ack x20)
                (with_rx_block (wire_block xa5 x20 [x01; x02; x03])
                   (with_tx_block (wire_block x5a x00 apdu_select)
                      (set_n_s 1 session0)))))))
    (mk_bus [] []
       [wire_block x5a x00 apdu_select; chain_ack x20; chain_ack x60]) ∧
  (2 < length (chain_data [(x20, [x01; x02; x03]); (x60, [x04; x05]); (x00, [x90; x00])]))%nat ∧
  halse_se05x_xfer session0
    (mk_bus (chain_reads [(x20, [x01; x02; x03]); (x60, [x04; x05]); (x00, [x90; x00])])
            [WrAck; WrAck; WrAck] [])
    (Some apdu_select) 4 (Some [xff; xff]) (Some 2%nat) =
  (0, Some [x01; x02], Some 2%nat, set_n_s 1 session0,
   mk_bus [] []
     [wire_block x5a x00 apdu_select;
      wire_block x5a x90 []; wire_block x5a x80 []]).
Proof.
  set (sent := with_tx_block (wire_block x5a x00 apdu_select) (set_n_s 1 session0)).
  set (got1 := with_rx_block (wire_block xa5 x20 [x01; x02; x03]) sent).
  set (ack1 := with_tx_block (chain_ack x20) got1).
  set (got2 := with_rx_block (wire_block xa5 x60 [x04; x05]) ack1).
  set (ack2 := with_tx_block (chain_ack x60) got2).
  set (got3 := with_rx_block (wire_block xa5 x00 [x90; x00]) ack2).
  assert (4%nat ≠ 0%nat) as H0 by lia.
  assert (xfer_write_loop apdu_select 4 session0
    (mk_bus (chain_reads [(x20, [x01; x02; x03]); (x60, [x04; x05]); (x00, [x90; x00])])
            [WrAck; WrAck; WrAck] []) 0 =
    (0, sent,
     mk_bus (chain_reads [(x20, [x01; x02; x03]); (x60, [x04; x05]); (x00, [x90; x00])])
            [WrAck; WrAck] [wire_block x5a x00 apdu_select])) as H1
    by (vm_compute; reflexivity).
  assert (chain_received sent
    (mk_bus (chain_reads [(x20, [x01; x02; x03]); (x60, [x04; x05]); (x00, [x90; x00])])
            [WrAck; WrAck] [wire_block x5a x00 apdu_select])
    [(x20, [x01; x02; x03]); (x60, [x04; x05]); (x00, [x90; x00])]
    got3
    (mk_bus [] []
       [wire_block x5a x00 apdu_select; chain_ack x20; chain_ack x60])) as H2.
  { refine (received_chained _ _ _ _ got1
              (mk_bus (chain_reads [(x60, [x04; x05]); (x00, [x90; x00])])
                      [WrAck; WrAck] [wire_block x5a x00 apdu_select])
              ack1
              (mk_bus (chain_reads [(x60, [x04; x05]); (x00, [x90; x00])])
                      [WrAck] [wire_block x5a x00 apdu_select; chain_ack x20])
              _ _ _ _ _ _ _ _ _ _);
      [vm_compute; reflexivity .. | vm_compute; discriminate | vm_compute; reflexivity |].
    refine (received_chained _ _ _ _ got2
              (mk_bus (chain_reads [(x00, [x90; x00])])
                      [WrAck] [wire_block x5a x00 apdu_select; chain_ack x20])
              ack2
              (mk_bus (chain_reads [(x00, [x90; x00])])
                      [] [wire_block x5a x00 apdu_select; chain_ack x20; chain_ack x60])
              _ _ _ _ _ _ _ _ _ _);
      [vm_compute; reflexivity .. | vm_compute; discriminate | vm_compute; reflexivity |].
    refine (received_last _ _ _ _ _ _ _ _ _ _ _); vm_compute; reflexivity. }
  assert (2 < length (chain_data
            [(x20, [x01; x02; x03]); (x60, [x04; x05]); (x00, [x90; x00])]))%nat as H3
    by (vm_compute; lia).
  refine (conj H0 (conj H1 (conj H2 (conj H3 _)))).
  etransitivity;
    [exact (xfer_truncates_without_error session0 _ apdu_select 4 [xff; xff] 2 _ _ _ _ _
              H0 H1 H2 H3)
    |vm_compute; reflexivity].
Defined.

(** * Further properties of the block engine *)

(** ** The PCB byte *)

(** X1. The three block classes partition the PCB values: every PCB is
    an I-block, an R-block or an S-block, and only one of them.  An
    S-block is a request or a response and not both, and an R-block with
    error is an R-block. *)
Theorem pcb_classes_partition (pcb : byte) :
  ((is_i_block pcb = true ∧ is_r_block pcb = false ∧ is_s_block pcb = false) ∨
   (is_i_block pcb = false ∧ is_r_block pcb = true ∧ is_s_block pcb = false) ∨
   (is_i_block pcb = false ∧ is_r_block pcb = false ∧ is_s_block pcb = true)) ∧
  is_s_block pcb = xorb (is_s_block_request pcb) (is_s_block_response pcb) ∧
  is_r_block_with_error pcb =
    is_r_block pcb && negb (Z.land (Z_of_byte pcb) CMD_ERROR_MASK =? EE_NO_ERROR).
Proof. destruct pcb; vm_compute; tauto. Qed.

Lemma i_block_pcb_fields ns chain :
  let pcb := i_block_pcb ns chain in
  is_i_block pcb = true ∧
  Z.land (Z.shiftr (Z_of_byte pcb) 6) 1 = (if ns =? 0 then 0 else 1) ∧
  chain_bit pcb = (if chain then 1 else 0).
Proof. unfold i_block_pcb. destruct (Z.eqb_spec ns 0), chain; vm_compute; done. Qed.

Lemma r_block_pcb_fields nr ee :
  0 ≤ nr ≤ 1 → 0 ≤ ee ≤ 3 →
  let pcb := r_block_pcb nr ee in
  is_r_block pcb = true ∧
  Z.land (Z.shiftr (Z_of_byte pcb) 4) 0x01 = nr ∧
  Z.land (Z_of_byte pcb) CMD_ERROR_MASK = ee ∧
  is_r_block_with_error pcb = negb (ee =? 0) ∧
  is_s_block_request pcb = false.
Proof.
  intros Hnr Hee.
  assert (nr = 0 ∨ nr = 1) as [-> | ->] by lia;
    assert (ee = 0 ∨ ee = 1 ∨ ee = 2 ∨ ee = 3) as [-> | [-> | [-> | ->]]] by lia;
    vm_compute; done.
Qed.

Lemma s_block_pcb_fields d t :
  let pcb := s_block_pcb d t in
  is_s_block pcb = true ∧
  is_s_block_request pcb = (if d is CMD_REQ then true else false) ∧
  is_s_block_response pcb = (if d is CMD_RES then true else false) ∧
  Z.land (Z_of_byte pcb) CMD_TYPE_MASK = cmd_type_val t.
Proof. destruct d, t; vm_compute; done. Qed.

(** X2. What the senders encode in a PCB the classifiers and the field
    extractions of the receive paths decode: the I-block PCB of
    [halse_se05x_send_i_block] is an I-block with N(S) in bit 6 and the
    chain flag in bit 5; the R-block PCB of [halse_se05x_send_r_block]
    is an R-block with N(R) in bit 4 and the error code in the low bits;
    the S-block PCB of [halse_se05x_send_s_block] is an S-block of the
    given direction and type. *)
Theorem pcb_fields_round_trip :
  (∀ ns chain,
      let pcb := i_block_pcb ns chain in
      is_i_block pcb = true ∧
      Z.land (Z.shiftr (Z_of_byte pcb) 6) 1 = (if ns =? 0 then 0 else 1) ∧
      chain_bit pcb = (if chain then 1 else 0)) ∧
  (∀ nr ee, 0 ≤ nr ≤ 1 → 0 ≤ ee ≤ 3 →
      let pcb := r_block_pcb nr ee in
      is_r_block pcb = true ∧
      Z.land (Z.shiftr (Z_of_byte pcb) 4) 0x01 = nr ∧
      Z.land (Z_of_byte pcb) CMD_ERROR_MASK = ee ∧
      is_r_block_with_error pcb = negb (ee =? 0)) ∧
  (∀ d t,
      let pcb := s_block_pcb d t in
      is_s_block pcb = true ∧
      is_s_block_request pcb = (if d is CMD_REQ then true else false) ∧
      is_s_block_response pcb = (if d is CMD_RES then true else false) ∧
      Z.land (Z_of_byte pcb) CMD_TYPE_MASK = cmd_type_val t).
Proof.
  split_and!.
  - apply i_block_pcb_fields.
  - intros nr ee Hnr Hee.
    destruct (r_block_pcb_fields nr ee Hnr Hee) as (? & ? & ? & ? & _). by split_and!.
  - apply s_block_pcb_fields.
Qed.

(** ** The CRC detects a corrupted byte *)

Lemma lxor_range (n a b : Z) :
  0 < n → 0 ≤ a < 2 ^ n → 0 ≤ b < 2 ^ n → 0 ≤ Z.lxor a b < 2 ^ n.
Proof.
  intros Hn Ha Hb.
  assert (0 ≤ Z.lxor a b) as Hnn by (apply Z.lxor_nonneg; lia).
  split; [done|].
  destruct (Z.eq_dec (Z.lxor a b) 0) as [->|Hne]; [lia|].
  apply Z.log2_lt_pow2; [lia|].
  pose proof (Z.log2_lxor a b ltac:(lia) ltac:(lia)) as Hlog.
  assert (Z.log2 a < n).
  { destruct (Z.eq_dec a 0) as [->|]; [simpl; lia|]. apply Z.log2_lt_pow2; lia. }
  assert (Z.log2 b < n).
  { destruct (Z.eq_dec b 0) as [->|]; [simpl; lia|]. apply Z.log2_lt_pow2; lia. }
  lia.
Qed.

Lemma lxor_cancel_r (a b c : Z) : Z.lxor a c = Z.lxor b c → a = b.
Proof.
  intros H. apply (f_equal (λ x, Z.lxor x c)) in H.
  by rewrite !Z.lxor_assoc, !Z.lxor_nilpotent, !Z.lxor_0_r in H.
Qed.

Lemma lxor_cancel_l (a b c : Z) : Z.lxor c a = Z.lxor c b → a = b.
Proof. rewrite !(Z.lxor_comm c). apply lxor_cancel_r. Qed.

(** [swap_uint16] exchanges the two bytes of a 16-bit value. *)
Lemma swap_uint16_bytes (v : Z) :
  0 ≤ v < 65536 → swap_uint16 v = 256 * (v mod 256) + v / 256.
Proof.
  intros Hv. unfold swap_uint16, u16.
  rewrite Z.shiftr_div_pow2 by lia. change (2 ^ 8) with 256.
  rewrite lor_shiftl_8 by (split; [apply Z.div_pos; lia | apply Z.div_lt_upper_bound; lia]).
  pose proof (Z.div_mod v 256 ltac:(lia)) as Hdm.
  pose proof (Z.mod_pos_bound v 256 ltac:(lia)) as Hr.
  assert (0 ≤ v / 256 < 256)
    by (split; [apply Z.div_pos; lia | apply Z.div_lt_upper_bound; lia]).
  replace (v * 256 + v / 256)
    with (256 * (v mod 256) + v / 256 + (v / 256) * 65536) by lia.
  rewrite Z.mod_add by lia. apply Z.mod_small. lia.
Qed.

Lemma swap_uint16_range (v : Z) : 0 ≤ swap_uint16 v < 65536.
Proof. apply u16_range. Qed.

Lemma swap_uint16_involutive (v : Z) :
  0 ≤ v < 65536 → swap_uint16 (swap_uint16 v) = v.
Proof.
  intros Hv.
  pose proof (Z.div_mod v 256 ltac:(lia)) as Hdm.
  pose proof (Z.mod_pos_bound v 256 ltac:(lia)) as Hr.
  assert (0 ≤ v / 256 < 256)
    by (split; [apply Z.div_pos; lia | apply Z.div_lt_upper_bound; lia]).
  rewrite (swap_uint16_bytes (swap_uint16 v)) by apply swap_uint16_range.
  rewrite (swap_uint16_bytes v) by done.
  replace (256 * (v mod 256) + v / 256) with (v / 256 + (v mod 256) * 256) by lia.
  rewrite Z.mod_add, Z.div_add by lia.
  rewrite (Z.mod_small (v / 256)), (Z.div_small (v / 256)) by lia. lia.
Qed.

Lemma crc_shift_range (c : Z) : 0 ≤ c < 65536 → 0 ≤ crc_shift c < 65536.
Proof.
  intros Hc. unfold crc_shift.
  assert (0 ≤ Z.shiftr c 1 < 32768).
  { rewrite Z.shiftr_div_pow2 by lia. change (2 ^ 1) with 2.
    split; [apply Z.div_pos; lia | apply Z.div_lt_upper_bound; lia]. }
  destruct (_ =? _); [apply u16_range | lia].
Qed.

(** One shift of the CRC register loses nothing: bit 15 of the result
    tells whether the feedback was applied. *)
Lemma crc_shift_inj (c1 c2 : Z) :
  0 ≤ c1 < 65536 → 0 ≤ c2 < 65536 → crc_shift c1 = crc_shift c2 → c1 = c2.
Proof.
  assert (∀ c, 0 ≤ c < 65536 →
            0 ≤ c / 2 < 32768 ∧ Z.testbit (c / 2) 15 = false ∧
            crc_shift c = (if c mod 2 =? 1 then Z.lxor (c / 2) 0x8408 else c / 2)) as Hshift.
  { intros c Hc.
    assert (0 ≤ c / 2 < 32768) as Hh
      by (split; [apply Z.div_pos; lia | apply Z.div_lt_upper_bound; lia]).
    split_and!; [lia..| |].
    - destruct (Z.eq_dec (c / 2) 0) as [->|]; [done|].
      apply Z.bits_above_log2; [lia|]. apply (Z.log2_lt_pow2 (c / 2) 15); lia.
    - unfold crc_shift. rewrite Z.shiftr_div_pow2 by lia. change (2 ^ 1) with 2.
      change 1 with (Z.ones 1) at 1. rewrite Z.land_ones by lia. change (2 ^ 1) with 2.
      change (Z.ones 1) with 1.
      destruct (_ =? _); [|done].
      apply Z.mod_small. apply (lxor_range 16); lia. }
  intros H1 H2 Heq.
  destruct (Hshift c1 H1) as (B1 & T1 & E1), (Hshift c2 H2) as (B2 & T2 & E2).
  rewrite E1, E2 in Heq.
  pose proof (Z.div_mod c1 2 ltac:(lia)) as D1.
  pose proof (Z.div_mod c2 2 ltac:(lia)) as D2.
  pose proof (Z.mod_pos_bound c1 2 ltac:(lia)).
  pose proof (Z.mod_pos_bound c2 2 ltac:(lia)).
  assert (∀ k, Z.testbit k 15 = false → Z.testbit (Z.lxor k 0x8408) 15 = true) as Hfb
    by (intros k Hk; rewrite Z.lxor_spec, Hk; reflexivity).
  destruct (Z.eqb_spec (c1 mod 2) 1), (Z.eqb_spec (c2 mod 2) 1).
  - apply lxor_cancel_r in Heq. lia.
  - pose proof (Hfb _ T1) as Hb. rewrite Heq, T2 in Hb. done.
  - pose proof (Hfb _ T2) as Hb. rewrite <- Heq, T1 in Hb. done.
  - lia.
Qed.

Lemma crc_shifts_range (n : nat) (c : Z) :
  0 ≤ c < 65536 → 0 ≤ Nat.iter n crc_shift c < 65536.
Proof. intros Hc. induction n; simpl; [done | by apply crc_shift_range]. Qed.

Lemma crc_shifts_inj (n : nat) (c1 c2 : Z) :
  0 ≤ c1 < 65536 → 0 ≤ c2 < 65536 →
  Nat.iter n crc_shift c1 = Nat.iter n crc_shift c2 → c1 = c2.
Proof.
  intros H1 H2. induction n; simpl; [done|].
  intros H. apply IHn. apply crc_shift_inj; [apply crc_shifts_range.. |]; done.
Qed.

Lemma crc_update_range (c : Z) (b : byte) : 0 ≤ c < 65536 → 0 ≤ crc_update c b < 65536.
Proof. intros Hc. apply crc_shifts_range, u16_range. Qed.

Lemma crc_update_inj (c1 c2 : Z) (b1 b2 : byte) :
  0 ≤ c1 < 65536 → 0 ≤ c2 < 65536 →
  crc_update c1 b1 = crc_update c2 b2 →
  Z.lxor c1 (Z_of_byte b1) = Z.lxor c2 (Z_of_byte b2).
Proof.
  intros H1 H2 H. apply crc_shifts_inj in H; [|apply u16_range..].
  pose proof (Z_of_byte_range b1). pose proof (Z_of_byte_range b2).
  unfold u16 in H.
  rewrite !Z.mod_small in H by (apply (lxor_range 16); lia). done.
Qed.

Lemma fold_crc_update_range (l : list byte) (c : Z) :
  0 ≤ c < 65536 → 0 ≤ fold_left crc_update l c < 65536.
Proof. revert c. induction l; simpl; intros; [done | by apply IHl, crc_update_range]. Qed.

Lemma fold_crc_update_inj (l : list byte) (c1 c2 : Z) :
  0 ≤ c1 < 65536 → 0 ≤ c2 < 65536 →
  fold_left crc_update l c1 = fold_left crc_update l c2 → c1 = c2.
Proof.
  revert c1 c2. induction l as [|b l IH]; simpl; intros c1 c2 H1 H2 H; [done|].
  apply IH in H; [|by apply crc_update_range..].
  apply crc_update_inj in H; [|done..]. by apply lxor_cancel_r in H.
Qed.

(** The last two steps of [halse_se05x_calculate_crc] lose nothing. *)
Lemma crc_finish_inj (c1 c2 : Z) :
  0 ≤ c1 < 65536 → 0 ≤ c2 < 65536 →
  swap_uint16 (u16 (Z.lxor c1 0xFFFF)) = swap_uint16 (u16 (Z.lxor c2 0xFFFF)) → c1 = c2.
Proof.
  intros H1 H2 H.
  apply (f_equal swap_uint16) in H.
  rewrite !swap_uint16_involutive in H by apply u16_range.
  unfold u16 in H. rewrite !Z.mod_small in H by (apply (lxor_range 16); lia).
  by apply lxor_cancel_r in H.
Qed.

(** Two buffers that differ in one byte of the checked range have
    different CRCs. *)
Lemma calculate_crc_one_byte (p s : list byte) (a b : byte) (len : nat) :
  a ≠ b → (length p < len)%nat →
  halse_se05x_calculate_crc (p ++ a :: s) len ≠
  halse_se05x_calculate_crc (p ++ b :: s) len.
Proof.
  intros Hab Hlen Hcrc. unfold halse_se05x_calculate_crc in Hcrc.
  rewrite !take_app_ge in Hcrc by lia.
  destruct (len - length p)%nat as [|k] eqn:Hk; [lia|].
  cbn [take] in Hcrc. rewrite !fold_left_app in Hcrc. cbn [fold_left] in Hcrc.
  set (c := fold_left crc_update p 65535) in *.
  assert (0 ≤ c < 65536) as Hc by (apply fold_crc_update_range; lia).
  apply crc_finish_inj in Hcrc;
    [|apply fold_crc_update_range, crc_update_range, Hc..].
  apply fold_crc_update_inj in Hcrc; [|by apply crc_update_range..].
  apply crc_update_inj in Hcrc; [|done..].
  apply lxor_cancel_l, Z_of_byte_inj in Hcrc. done.
Qed.

(** X3. The CRC of [halse_se05x_calculate_crc] detects every corruption
    of a single byte: two buffers that agree everywhere but in one byte
    within the first [len] have different checksums over [len] bytes. *)
Theorem crc_detects_single_byte_error (p s : list byte) (a b : byte) (len : nat) :
  a ≠ b → (length p < len)%nat →
  halse_se05x_calculate_crc (p ++ a :: s) len ≠
  halse_se05x_calculate_crc (p ++ b :: s) len.
Proof. apply calculate_crc_one_byte. Qed.

(** The SELECT block [5A 00 04 00 A4 04 00] with the instruction byte
    changed from [A4] to [A5]. *)
Lemma crc_detects_single_byte_error_witness :
  xa4 ≠ xa5 ∧ (length [x5a; x00; x04; x00] < 7)%nat ∧
  halse_se05x_calculate_crc ([x5a; x00; x04; x00] ++ xa4 :: [x04; x00]) 7 ≠
  halse_se05x_calculate_crc ([x5a; x00; x04; x00] ++ xa5 :: [x04; x00]) 7.
Proof.
  assert (xa4 ≠ xa5) as H1 by discriminate.
  assert (length [x5a; x00; x04; x00] < 7)%nat as H2 by (simpl; lia).
  exact (conj H1 (conj H2
    (crc_detects_single_byte_error [x5a; x00; x04; x00] [x04; x00] xa4 xa5 7 H1 H2))).
Defined.

(** ** What the receiver accepts *)

Lemma length_raw_block nad pcb inf c1 c2 :
  length (raw_block nad pcb inf c1 c2) = (5 + length inf)%nat.
Proof. unfold raw_block. simpl. rewrite length_app. simpl. lia. Qed.

Lemma wire_block_raw nad pcb inf :
  wire_block nad pcb inf =
  raw_block nad pcb inf
    (u8 (Z.shiftr (halse_se05x_calculate_crc
                     (nad :: pcb :: u8 (Z.of_nat (length inf)) :: inf) (3 + length inf)) 8))
    (u8 (Z.land (halse_se05x_calculate_crc
                   (nad :: pcb :: u8 (Z.of_nat (length inf)) :: inf) (3 + length inf)) 0xff)).
Proof. reflexivity. Qed.

(** The CRC the receiver reads out of the epilogue bytes. *)
Lemma act_crc_bytes (c1 c2 : byte) :
  u16 (Z.lor (u16 (Z.shiftl (Z_of_byte c1) 8)) (Z_of_byte c2)) =
  256 * Z_of_byte c1 + Z_of_byte c2.
Proof.
  pose proof (Z_of_byte_range c1). pose proof (Z_of_byte_range c2).
  unfold u16. rewrite Z.shiftl_mul_pow2 by lia. change (2 ^ 8) with 256.
  rewrite (Z.mod_small (_ * 256)) by lia.
  rewrite <- (Z.shiftl_mul_pow2 _ 8) by lia.
  rewrite lor_shiftl_8 by done. rewrite Z.mod_small; lia.
Qed.

(** The receiver's view of a raw block that lies at the start of a
    buffer. *)
Lemma raw_block_lookup nad pcb inf c1 c2 tail :
  let buf := raw_block nad pcb inf c1 c2 ++ tail in
  buf !!! 1%nat = pcb ∧
  buf !!! 2%nat = u8 (Z.of_nat (length inf)) ∧
  take (length inf) (drop 3 buf) = inf ∧
  halse_se05x_calculate_crc buf (3 + length inf) =
    halse_se05x_calculate_crc (nad :: pcb :: u8 (Z.of_nat (length inf)) :: inf)
      (3 + length inf) ∧
  buf !!! (3 + length inf)%nat = c1 ∧
  buf !!! (3 + length inf + 1)%nat = c2.
Proof.
  unfold raw_block. cbn zeta.
  set (body := nad :: pcb :: u8 (Z.of_nat (length inf)) :: inf).
  change (nad :: pcb :: u8 (Z.of_nat (length inf)) :: inf ++ [c1; c2])
    with (body ++ [c1; c2]).
  assert (length body = (3 + length inf)%nat) as Hbody by reflexivity.
  rewrite <- app_assoc.
  split_and!.
  - reflexivity.
  - reflexivity.
  - subst body. cbn [app drop]. apply take_app_length.
  - apply halse_se05x_calculate_crc_take.
    rewrite <- Hbody. by rewrite take_app_length, firstn_all.
  - rewrite <- Hbody, lookup_total_app_r, Nat.sub_diag by lia. reflexivity.
  - rewrite <- Hbody, lookup_total_app_r by lia.
    replace (length body + 1 - length body)%nat with 1%nat by lia. reflexivity.
Qed.

(** The first half of the receiver on a raw block the slave delivers:
    the block ends up at the start of [rxbuf], [*len] is its LEN, and
    the return value tells whether the epilogue is the CRC. *)
Lemma recv_block_read_raw dev nad pcb inf c1 c2 rest ws lg len0 :
  wf_dev dev → (length inf ≤ SIZE_INF_MAX)%nat →
  recv_block_read dev
    (mk_bus (block_reads (raw_block nad pcb inf c1 c2) ++ rest) ws lg) len0 =
  ((if halse_se05x_calculate_crc (nad :: pcb :: u8 (Z.of_nat (length inf)) :: inf)
          (3 + length inf) =? 256 * Z_of_byte c1 + Z_of_byte c2
    then 0 else -1),
   length inf,
   with_rx_block (raw_block nad pcb inf c1 c2) dev,
   mk_bus rest ws lg).
Proof.
  intros [Htx Hrx] Hlen.
  set (blk := raw_block nad pcb inf c1 c2).
  pose proof (length_raw_block nad pcb inf c1 c2) as Hblk. fold blk in Hblk.
  assert (length blk ≤ length (rxbuf dev))%nat as Hfit.
  { rewrite Hblk, Hrx. unfold SIZE_BUF, SIZE_PROLOGUE, SIZE_EPILOGUE, SIZE_INF_MAX in *. lia. }
  pose proof (raw_block_lookup nad pcb inf c1 c2 (drop (length blk) (rxbuf dev))) as Hlk.
  fold blk in Hlk.
  rewrite <- list_inserts_0_prefix in Hlk by done. cbn zeta in Hlk.
  destruct Hlk as (Hpcb & Hl & Hinf & Hcrc & Hc1 & Hc2).
  unfold with_rx_block.
  unfold recv_block_read, block_reads.
  destruct (Nat.leb_spec (length blk) 5) as [Hs|Hs]; cbn [app].
  - assert (length inf = 0)%nat as H0 by lia.
    rewrite halse_se05x_read_i2c_data by (rewrite Hblk, H0; reflexivity).
    cbn [negb Z.eqb rxbuf set_rxbuf].
    rewrite Hl, Z_of_byte_u8_len by done.
    destruct (Z.ltb_spec (Z.of_nat SIZE_INF_MAX) (Z.of_nat (length inf))); [lia|].
    rewrite !nat_of_byte_u8_len by done.
    rewrite H0 at 1. cbn [Nat.eqb negb Z.eqb rxbuf set_rxbuf].
    change SIZE_PROLOGUE with 3%nat. rewrite Hcrc, Hc1, Hc2, act_crc_bytes.
    by destruct (_ =? _).
  - assert (list_inserts 0 (take 5 blk) (rxbuf dev) !!! 2%nat
            = u8 (Z.of_nat (length inf))) as Hl1.
    { rewrite list_lookup_total_inserts
        by (rewrite ?length_take; unfold SIZE_BUF in *; simpl in *; lia).
      reflexivity. }
    rewrite halse_se05x_read_i2c_data
      by (rewrite length_take; change (SIZE_PROLOGUE + SIZE_EPILOGUE)%nat with 5%nat; lia).
    cbn [negb Z.eqb rxbuf set_rxbuf].
    rewrite Hl1, Z_of_byte_u8_len by done.
    destruct (Z.ltb_spec (Z.of_nat SIZE_INF_MAX) (Z.of_nat (length inf))); [lia|].
    rewrite !nat_of_byte_u8_len by done.
    destruct (Nat.eqb_spec (length inf) 0); [lia|]. cbn [negb].
    rewrite halse_se05x_read_i2c_data by (rewrite length_drop; lia).
    cbn [negb Z.eqb rxbuf set_rxbuf].
    change (SIZE_PROLOGUE + SIZE_EPILOGUE)%nat with 5%nat.
    rewrite list_inserts_split.
    change SIZE_PROLOGUE with 3%nat. rewrite Hcrc, Hc1, Hc2, act_crc_bytes.
    by destruct (_ =? _).
Qed.

Lemma crc_epilogue_value (crc : Z) :
  0 ≤ crc < 65536 →
  256 * Z_of_byte (u8 (Z.shiftr crc 8)) + Z_of_byte (u8 (Z.land crc 0xff)) = crc.
Proof. intros H. rewrite <- act_crc_bytes. by apply crc_epilogue_roundtrip. Qed.

(** The receiver on a raw block whose epilogue is not the CRC. *)
Lemma recv_block_bad_crc dev nad pcb inf c1 c2 rest ws lg len0 :
  wf_dev dev → (length inf ≤ SIZE_INF_MAX)%nat →
  halse_se05x_calculate_crc (nad :: pcb :: u8 (Z.of_nat (length inf)) :: inf)
    (3 + length inf) ≠ 256 * Z_of_byte c1 + Z_of_byte c2 →
  halse_se05x_recv_block dev
    (mk_bus (block_reads (raw_block nad pcb inf c1 c2) ++ rest) ws lg) len0 =
  (-1, length inf, with_rx_block (raw_block nad pcb inf c1 c2) dev, mk_bus rest ws lg).
Proof.
  intros Hwf Hlen Hcrc.
  rewrite halse_se05x_recv_block_unfold. unfold recv_block_body.
  rewrite recv_block_read_raw by done.
  destruct (Z.eqb_spec (halse_se05x_calculate_crc
                          (nad :: pcb :: u8 (Z.of_nat (length inf)) :: inf)
                          (3 + length inf))
                       (256 * Z_of_byte c1 + Z_of_byte c2)); [done|].
  reflexivity.
Qed.

(** X4. [halse_se05x_recv_block] accepts a block the slave delivers
    only with the right checksum: the read half returns 0 exactly when
    the two epilogue bytes are the CRC of prologue and INF, high byte
    first; otherwise the call returns -1 with the block in [rxbuf] and
    [*len] set, and writes nothing to the bus (no R-block asks for a
    retransmission). *)
Theorem recv_block_checks_crc dev nad pcb inf c1 c2 rest ws lg len0 :
  wf_dev dev → (length inf ≤ SIZE_INF_MAX)%nat →
  let crc := halse_se05x_calculate_crc
               (nad :: pcb :: u8 (Z.of_nat (length inf)) :: inf) (3 + length inf) in
  let bus := mk_bus (block_reads (raw_block nad pcb inf c1 c2) ++ rest) ws lg in
  ((recv_block_read dev bus len0).1.1.1 = 0 ↔ crc = 256 * Z_of_byte c1 + Z_of_byte c2) ∧
  (crc ≠ 256 * Z_of_byte c1 + Z_of_byte c2 →
   halse_se05x_recv_block dev bus len0 =
   (-1, length inf, with_rx_block (raw_block nad pcb inf c1 c2) dev, mk_bus rest ws lg)).
Proof.
  intros Hwf Hlen crc bus. split.
  - unfold bus. rewrite recv_block_read_raw by done. cbn [fst]. fold crc.
    destruct (Z.eqb_spec crc (256 * Z_of_byte c1 + Z_of_byte c2)); split; done.
  - intros Hne. by apply recv_block_bad_crc.
Qed.

(** The block [A5 00 02 90 00] with the epilogue of the block
    [A5 00 02 90 01]. *)
Lemma recv_block_checks_crc_witness :
  wf_dev session0 ∧ (length [x90; x00] ≤ SIZE_INF_MAX)%nat ∧
  halse_se05x_calculate_crc [xa5; x00; x02; x90; x00] 5 ≠ 256 * Z_of_byte x8b + Z_of_byte xbe ∧
  halse_se05x_recv_block session0
    (mk_bus (block_reads [xa5; x00; x02; x90; x00; x8b; xbe]) [WrAck] []) 0 =
  (-1, 2%nat, with_rx_block [xa5; x00; x02; x90; x00; x8b; xbe] session0,
   mk_bus [] [WrAck] []).
Proof.
  assert (wf_dev session0) as H1 by (split; reflexivity).
  assert (length [x90; x00] ≤ SIZE_INF_MAX)%nat as H2 by (unfold SIZE_INF_MAX; simpl; lia).
  assert (halse_se05x_calculate_crc [xa5; x00; x02; x90; x00] 5
          ≠ 256 * Z_of_byte x8b + Z_of_byte xbe) as H3 by (vm_compute; discriminate).
  refine (conj H1 (conj H2 (conj H3 _))).
  exact (proj2 (recv_block_checks_crc session0 xa5 x00 [x90; x00] x8b xbe [] [WrAck] [] 0
                  H1 H2) H3).
Defined.

(** A block of which one byte other than LEN was changed on the line
    is a raw block whose epilogue is not its CRC. *)
Lemma corrupted_block_raw nad pcb inf (i : nat) (b : byte) :
  (length inf ≤ SIZE_INF_MAX)%nat →
  (i < 5 + length inf)%nat → i ≠ 2%nat →
  b ≠ wire_block nad pcb inf !!! i →
  ∃ nad' pcb' inf' c1 c2,
    <[i := b]> (wire_block nad pcb inf) = raw_block nad' pcb' inf' c1 c2 ∧
    length inf' = length inf ∧
    halse_se05x_calculate_crc (nad' :: pcb' :: u8 (Z.of_nat (length inf')) :: inf')
      (3 + length inf') ≠ 256 * Z_of_byte c1 + Z_of_byte c2.
Proof.
  intros Hlen Hi Hi2 Hb.
  set (crc := halse_se05x_calculate_crc
                (nad :: pcb :: u8 (Z.of_nat (length inf)) :: inf) (3 + length inf)).
  assert (0 ≤ crc < 65536) as Hcrc by apply halse_se05x_calculate_crc_range.
  pose proof (crc_epilogue_value crc Hcrc) as Hep.
  set (h := u8 (Z.shiftr crc 8)) in *. set (l := u8 (Z.land crc 0xff)) in *.
  rewrite wire_block_raw in Hb |- *. fold crc h l in Hb |- *.
  unfold raw_block in Hb |- *.
  pose proof (Z_of_byte_range h). pose proof (Z_of_byte_range l).
  pose proof (Z_of_byte_range b).
  destruct i as [|[|[|k]]]; [| |done|].
  - (* NAD *)
    exists b, pcb, inf, h, l. split_and!; [done..|]. rewrite Hep.
    intros E. apply (calculate_crc_one_byte [] (pcb :: u8 (Z.of_nat (length inf)) :: inf)
                       b nad (3 + length inf)); [done | simpl; lia | done].
  - (* PCB *)
    exists nad, b, inf, h, l. split_and!; [done..|]. rewrite Hep.
    intros E. apply (calculate_crc_one_byte [nad] (u8 (Z.of_nat (length inf)) :: inf)
                       b pcb (3 + length inf)); [done | simpl; lia | done].
  - change (<[S (S (S k)) := b]>
              (nad :: pcb :: u8 (Z.of_nat (length inf)) :: inf ++ [h; l]))
      with (nad :: pcb :: u8 (Z.of_nat (length inf)) :: <[k := b]> (inf ++ [h; l])).
    change ((nad :: pcb :: u8 (Z.of_nat (length inf)) :: inf ++ [h; l]) !!! S (S (S k)))
      with ((inf ++ [h; l]) !!! k) in Hb.
    destruct (Nat.lt_ge_cases k (length inf)) as [Hk|Hk].
    + (* a byte of INF *)
      destruct (lookup_lt_is_Some_2 inf k Hk) as [a Ha].
      assert ((inf ++ [h; l]) !!! k = a) as Hka
        by (apply list_lookup_total_correct; by rewrite lookup_app_l).
      exists nad, pcb, (<[k := b]> inf), h, l.
      rewrite length_insert. split_and!; [|done|].
      * by rewrite insert_app_l.
      * rewrite Hep. intros E.
        pose proof (take_drop_middle inf k a Ha) as Hmid.
        apply (calculate_crc_one_byte
                 (nad :: pcb :: u8 (Z.of_nat (length inf)) :: take k inf) (drop (S k) inf)
                 b a (3 + length inf)); [congruence | simpl; rewrite length_take; lia |].
        cbn [app]. rewrite Hmid, <- (insert_take_drop inf k b Hk). exact E.
    + (* a byte of the epilogue *)
      rewrite insert_app_r_alt by done.
      assert ((inf ++ [h; l]) !!! k = [h; l] !!! (k - length inf)%nat) as Hka
        by (by rewrite lookup_total_app_r).
      rewrite Hka in Hb.
      assert (k - length inf = 0 ∨ k - length inf = 1)%nat as [Hz | Hz] by lia;
        rewrite Hz in Hb |- *; cbn in Hb.
      * exists nad, pcb, inf, b, l. split_and!; [done..|]. fold crc.
        intros E. apply Hb, Z_of_byte_inj. lia.
      * exists nad, pcb, inf, h, b. split_and!; [done..|]. fold crc.
        intros E. apply Hb, Z_of_byte_inj. lia.
Qed.

(** X5. A block of which one byte of NAD, PCB, INF or epilogue was
    changed on its way from the slave is rejected: for every block the
    senders' framing produces, changing any one byte but LEN makes
    [halse_se05x_recv_block] return -1.  The corrupted block is left in
    [rxbuf] and nothing is written to the bus. *)
Theorem recv_block_rejects_corrupted_byte dev nad pcb inf (i : nat) (b : byte) rest ws lg len0 :
  wf_dev dev → (length inf ≤ SIZE_INF_MAX)%nat →
  (i < 5 + length inf)%nat → i ≠ 2%nat →
  b ≠ wire_block nad pcb inf !!! i →
  halse_se05x_recv_block dev
    (mk_bus (block_reads (<[i := b]> (wire_block nad pcb inf)) ++ rest) ws lg) len0 =
  (-1, length inf, with_rx_block (<[i := b]> (wire_block nad pcb inf)) dev,
   mk_bus rest ws lg).
Proof.
  intros Hwf Hlen Hi Hi2 Hb.
  destruct (corrupted_block_raw nad pcb inf i b Hlen Hi Hi2 Hb)
    as (nad' & pcb' & inf' & c1 & c2 & -> & Hlen' & Hcrc).
  rewrite <- Hlen'. apply recv_block_bad_crc; [done | by rewrite Hlen' | done].
Qed.

(** The answer [A5 00 02 90 00 02 AF] with its status byte [90] changed
    to [91]. *)
Lemma recv_block_rejects_corrupted_byte_witness :
  wf_dev session0 ∧ (length [x90; x00] ≤ SIZE_INF_MAX)%nat ∧
  (3 < 5 + length [x90; x00])%nat ∧ 3%nat ≠ 2%nat ∧
  x91 ≠ wire_block xa5 x00 [x90; x00] !!! 3%nat ∧
  halse_se05x_recv_block session0
    (mk_bus (block_reads [xa5; x00; x02; x91; x00; x02; xaf]) [WrAck] []) 0 =
  (-1, 2%nat, with_rx_block [xa5; x00; x02; x91; x00; x02; xaf] session0,
   mk_bus [] [WrAck] []).
Proof.
  assert (wf_dev session0) as H1 by (split; reflexivity).
  assert (length [x90; x00] ≤ SIZE_INF_MAX)%nat as H2 by (unfold SIZE_INF_MAX; simpl; lia).
  assert (3 < 5 + length [x90; x00])%nat as H3 by (simpl; lia).
  assert (3%nat ≠ 2%nat) as H4 by lia.
  assert (x91 ≠ wire_block xa5 x00 [x90; x00] !!! 3%nat) as H5 by (vm_compute; discriminate).
  refine (conj H1 (conj H2 (conj H3 (conj H4 (conj H5 _))))).
  exact (recv_block_rejects_corrupted_byte session0 xa5 x00 [x90; x00] 3 x91 [] [WrAck] [] 0
           H1 H2 H3 H4 H5).
Defined.

(** X6. A prologue whose LEN byte is above SIZE_INF_MAX, that is 255,
    is refused after the first read of five bytes: the call returns -1,
    no second read is made for the INF bytes, [*len] keeps what it held
    on entry, and nothing is written to the bus. *)
Theorem recv_block_rejects_invalid_len dev (b0 b1 b3 b4 : byte) rest ws lg len0 :
  wf_dev dev →
  halse_se05x_recv_block dev (mk_bus (RdData [b0; b1; xff; b3; b4] :: rest) ws lg) len0 =
  (-1, len0, with_rx_block [b0; b1; xff; b3; b4] dev, mk_bus rest ws lg).
Proof.
  intros [Htx Hrx].
  rewrite halse_se05x_recv_block_unfold. unfold recv_block_body, recv_block_read.
  rewrite halse_se05x_read_i2c_data by reflexivity.
  cbn [negb Z.eqb rxbuf set_rxbuf].
  assert (list_inserts 0 [b0; b1; xff; b3; b4] (rxbuf dev) !!! 2%nat = xff) as ->.
  { rewrite list_lookup_total_inserts by (unfold SIZE_BUF in *; simpl in *; lia).
    reflexivity. }
  reflexivity.
Qed.

Lemma recv_block_rejects_invalid_len_witness :
  wf_dev session0 ∧
  halse_se05x_recv_block session0
    (mk_bus [RdData [xa5; x00; xff; x12; x34]; RdData (replicate 255 x00)] [] []) 7 =
  (-1, 7%nat, with_rx_block [xa5; x00; xff; x12; x34] session0,
   mk_bus [RdData (replicate 255 x00)] [] []).
Proof.
  assert (wf_dev session0) as H1 by (split; reflexivity).
  exact (conj H1 (recv_block_rejects_invalid_len session0 xa5 x00 x12 x34
                    [RdData (replicate 255 x00)] [] [] 7 H1)).
Defined.

(** X7. An S-block request of any type but WTX (RESYNC, IFS, ABORT, a
    reset request, ...) ends the receive with -1: the block is not
    answered, nothing is written to the bus. *)
Theorem recv_block_rejects_unsupported_request dev nad pcb inf rest ws lg len0 :
  wf_dev dev → (length inf ≤ SIZE_INF_MAX)%nat →
  is_s_block_request pcb = true →
  Z.land (Z_of_byte pcb) CMD_TYPE_MASK ≠ cmd_type_val CMD_WTX →
  halse_se05x_recv_block dev
    (mk_bus (block_reads (wire_block nad pcb inf) ++ rest) ws lg) len0 =
  (-1, length inf, with_rx_block (wire_block nad pcb inf) dev, mk_bus rest ws lg).
Proof.
  intros Hwf Hlen Hreq Htype.
  destruct (with_rx_block_lookup nad pcb inf dev Hwf Hlen) as [Hpcb _].
  rewrite halse_se05x_recv_block_unfold. unfold recv_block_body.
  rewrite recv_block_read_block by done.
  fold (with_rx_block (wire_block nad pcb inf) dev).
  cbn [negb Z.eqb]. rewrite Hpcb, Hreq.
  by destruct (Z.eqb_spec (Z.land (Z_of_byte pcb) CMD_TYPE_MASK) (cmd_type_val CMD_WTX)).
Qed.

(** A RESYNC request [A5 C0 00]. *)
Lemma recv_block_rejects_unsupported_request_witness :
  wf_dev session0 ∧ (length (@nil byte) ≤ SIZE_INF_MAX)%nat ∧
  is_s_block_request xc0 = true ∧
  Z.land (Z_of_byte xc0) CMD_TYPE_MASK ≠ cmd_type_val CMD_WTX ∧
  halse_se05x_recv_block session0
    (mk_bus (block_reads (wire_block xa5 xc0 [])) [WrAck] []) 0 =
  (-1, 0%nat, with_rx_block (wire_block xa5 xc0 []) session0, mk_bus [] [WrAck] []).
Proof.
  assert (wf_dev session0) as H1 by (split; reflexivity).
  assert (length (@nil byte) ≤ SIZE_INF_MAX)%nat as H2 by (unfold SIZE_INF_MAX; simpl; lia).
  assert (is_s_block_request xc0 = true) as H3 by reflexivity.
  assert (Z.land (Z_of_byte xc0) CMD_TYPE_MASK ≠ cmd_type_val CMD_WTX) as H4
    by (vm_compute; discriminate).
  refine (conj H1 (conj H2 (conj H3 (conj H4 _)))).
  exact (recv_block_rejects_unsupported_request session0 xa5 xc0 [] [] [WrAck] [] 0
           H1 H2 H3 H4).
Defined.

(** ** What a successful receive guarantees *)

Lemma take_list_inserts_above {A} (l k : list A) (off n : nat) :
  (n ≤ off)%nat → take n (list_inserts off k l) = take n l.
Proof.
  intros Hn. apply list_eq. intros j.
  destruct (Nat.lt_ge_cases j n) as [Hj|Hj].
  - rewrite !lookup_take_lt by done. apply list_lookup_inserts_lt. lia.
  - by rewrite !lookup_take_ge.
Qed.

Lemma hali2c_read_loop_below more bus buf off len n :
  (n ≤ off)%nat →
  take n (hali2c_read_loop more bus buf off len).1.2 = take n buf.
Proof.
  intros Hn. revert bus buf. induction more as [|more IH]; intros bus buf;
    cbn [hali2c_read_loop]; unfold hali2c_kernel_read;
    destruct (rd_script bus) as [|[bs|e] rs];
    repeat (destruct (_ =? _) || destruct (is_nack _)); cbn [fst snd];
    rewrite ?IH, ?take_list_inserts_above by done; reflexivity.
Qed.

Lemma halse_se05x_read_i2c_below dev bus off len n :
  (n ≤ off)%nat →
  take n (rxbuf (halse_se05x_read_i2c dev bus off len).1.2) = take n (rxbuf dev).
Proof.
  intros Hn. unfold halse_se05x_read_i2c, hali2c_read_with_retry.
  pose proof (hali2c_read_loop_below (max_retries dev - 1) bus (rxbuf dev) off len n Hn) as H.
  destruct (hali2c_read_loop _ _ _ _ _) as [[r b] bus']. exact H.
Qed.

(** The first half of the receiver returns 0 only with a checked block
    in [rxbuf]. *)
Lemma recv_block_read_ok dev bus len0 len dev' bus' :
  recv_block_read dev bus len0 = (0, len, dev', bus') →
  len = nat_of_byte (rxbuf dev' !!! 2%nat) ∧ (len ≤ SIZE_INF_MAX)%nat ∧
  halse_se05x_calculate_crc (rxbuf dev') (3 + len) =
    256 * Z_of_byte (rxbuf dev' !!! (3 + len)%nat) +
    Z_of_byte (rxbuf dev' !!! (3 + len + 1)%nat).
Proof.
  unfold recv_block_read.
  destruct (halse_se05x_read_i2c dev bus 0 _) as [[r1 d1] b1].
  destruct (negb (r1 =? 0)); [done|].
  destruct (Z.ltb_spec (Z.of_nat SIZE_INF_MAX) (Z_of_byte (rxbuf d1 !!! 2%nat))) as [|Hle];
    [done|].
  set (l := nat_of_byte (rxbuf d1 !!! 2%nat)).
  assert (l ≤ SIZE_INF_MAX)%nat as Hl by (unfold l, nat_of_byte; lia).
  assert (∀ d2 : halse_se05x_dev, take 3 (rxbuf d2) = take 3 (rxbuf d1) →
            nat_of_byte (rxbuf d2 !!! 2%nat) = l) as Hsame.
  { intros d2 H3. unfold l. f_equal.
    rewrite !list_lookup_total_alt.
    rewrite <- (lookup_take_lt (rxbuf d2) 3 2), <- (lookup_take_lt (rxbuf d1) 3 2) by lia.
    by rewrite H3. }
  pose proof (halse_se05x_read_i2c_below d1 b1 (SIZE_PROLOGUE + SIZE_EPILOGUE) l 3
                ltac:(unfold SIZE_PROLOGUE, SIZE_EPILOGUE; lia)) as Hbelow.
  destruct (negb (l =? 0)%nat).
  - destruct (halse_se05x_read_i2c d1 b1 _ l) as [[r2 d2] b2]. cbn [fst snd] in Hbelow.
    destruct (negb (r2 =? 0)); [done|].
    destruct (Z.eqb_spec (halse_se05x_calculate_crc (rxbuf d2) (SIZE_PROLOGUE + l))
                (u16 (Z.lor (u16 (Z.shiftl (Z_of_byte (rxbuf d2 !!! (SIZE_PROLOGUE + l)%nat)) 8))
                            (Z_of_byte (rxbuf d2 !!! (SIZE_PROLOGUE + l + 1)%nat)))))
      as [Hcrc|]; [|done].
    intros [= <- <- <-]. rewrite act_crc_bytes in Hcrc.
    split_and!; [symmetry; by apply Hsame | done | exact Hcrc].
  - destruct (negb (r1 =? 0)); [done|].
    destruct (Z.eqb_spec (halse_se05x_calculate_crc (rxbuf d1) (SIZE_PROLOGUE + l))
                (u16 (Z.lor (u16 (Z.shiftl (Z_of_byte (rxbuf d1 !!! (SIZE_PROLOGUE + l)%nat)) 8))
                            (Z_of_byte (rxbuf d1 !!! (SIZE_PROLOGUE + l + 1)%nat)))))
      as [Hcrc|]; [|done].
    intros [= <- <- <-]. rewrite act_crc_bytes in Hcrc.
    split_and!; [done | done | exact Hcrc].
Qed.

Lemma recv_block_rounds_ok n dev bus len0 len dev' bus' :
  recv_block_rounds n dev bus len0 = (0, len, dev', bus') →
  len = nat_of_byte (rxbuf dev' !!! 2%nat) ∧ (len ≤ SIZE_INF_MAX)%nat ∧
  halse_se05x_calculate_crc (rxbuf dev') (3 + len) =
    256 * Z_of_byte (rxbuf dev' !!! (3 + len)%nat) +
    Z_of_byte (rxbuf dev' !!! (3 + len + 1)%nat) ∧
  is_s_block_request (rxbuf dev' !!! 1%nat) = false ∧
  is_r_block_with_error (rxbuf dev' !!! 1%nat) = false.
Proof.
  revert dev bus len0. induction n as [|n IH]; intros dev bus len0; [done|].
  cbn [recv_block_rounds]. unfold recv_block_body.
  destruct (recv_block_read dev bus len0) as [[[r l] d] b] eqn:Hread.
  destruct (Z.eqb_spec r 0) as [->|Hr]; cbn [negb]; [|by intros [= ? ? ? ?]].
  apply recv_block_read_ok in Hread as (Hl & Hle & Hcrc).
  destruct (is_s_block_request (rxbuf d !!! 1%nat)) eqn:Hreq.
  { destruct (_ =? cmd_type_val CMD_WTX); [|done].
    destruct (halse_se05x_send_s_block _ _ _ _ _ _) as [[r2 d2] b2].
    destruct (negb (r2 =? 0)); [done | apply IH]. }
  destruct (is_r_block_with_error (rxbuf d !!! 1%nat)) eqn:Herr.
  { destruct (halse_se05x_resend d b) as [[r2 d2] b2].
    destruct (Z.eqb_spec r2 0) as [->|]; cbn [negb]; [apply IH | by intros [= ? ? ? ?]]. }
  intros [= <- <- <-]. by split_and!.
Qed.

(** X8. Whatever the slave does, [halse_se05x_recv_block] returns 0
    only with a checked block in [rxbuf]: its LEN is at most 254 and is
    what [*len] holds, its two epilogue bytes are the CRC of prologue
    and INF, and it is neither an S-block request nor an R-block with
    error (those are answered inside the call). *)
Theorem recv_block_success_means_valid_block dev bus len0 len dev' bus' :
  halse_se05x_recv_block dev bus len0 = (0, len, dev', bus') →
  len = nat_of_byte (rxbuf dev' !!! 2%nat) ∧ (len ≤ SIZE_INF_MAX)%nat ∧
  halse_se05x_calculate_crc (rxbuf dev') (3 + len) =
    256 * Z_of_byte (rxbuf dev' !!! (3 + len)%nat) +
    Z_of_byte (rxbuf dev' !!! (3 + len + 1)%nat) ∧
  is_s_block_request (rxbuf dev' !!! 1%nat) = false ∧
  is_r_block_with_error (rxbuf dev' !!! 1%nat) = false.
Proof. apply recv_block_rounds_ok. Qed.

(** A WTX request, two NACKs and then the answer [A5 00 02 90 00]. *)
Lemma recv_block_success_means_valid_block_witness :
  halse_se05x_recv_block session0
    (mk_bus (block_reads (wire_block xa5 xc3 [x01]) ++ [RdErr 6; RdErr 6] ++
             block_reads (wire_block xa5 x00 [x90; x00])) [WrAck] []) 0 =
  (0, 2%nat,
   with_rx_block (wire_block xa5 x00 [x90; x00])
     (with_tx_block (wire_block x5a xe3 [x01])
        (with_rx_block (wire_block xa5 xc3 [x01]) session0)),
   mk_bus [] [] [wire_block x5a xe3 [x01]]) ∧
  halse_se05x_calculate_crc [xa5; x00; x02; x90; x00] 5 = 256 * 0x02 + 0xaf.
Proof.
  assert (halse_se05x_recv_block session0
    (mk_bus (block_reads (wire_block xa5 xc3 [x01]) ++ [RdErr 6; RdErr 6] ++
             block_reads (wire_block xa5 x00 [x90; x00])) [WrAck] []) 0 =
    (0, 2%nat,
     with_rx_block (wire_block xa5 x00 [x90; x00])
       (with_tx_block (wire_block x5a xe3 [x01])
          (with_rx_block (wire_block xa5 xc3 [x01]) session0)),
     mk_bus [] [] [wire_block x5a xe3 [x01]])) as H by (vm_compute; reflexivity).
  refine (conj H _).
  destruct (recv_block_success_means_valid_block _ _ _ _ _ _ H) as (_ & _ & Hcrc & _).
  etransitivity; [|etransitivity; [exact Hcrc|]]; vm_compute; reflexivity.
Defined.

(** ** The exchange *)

(** X9. When the capacity the caller passed in [*rx_len] holds the
    whole answer, [halse_se05x_xfer] returns 0, stores the data of the
    received chain at the start of the caller's buffer, leaves the rest
    of the buffer as it was and sets [*rx_len] to the number of bytes
    received. *)
Theorem xfer_returns_whole_answer
    dev bus tx tx_len rx cap dev1 bus1 blocks dev2 bus2 :
  tx_len ≠ 0%nat →
  xfer_write_loop tx tx_len dev bus 0 = (0, dev1, bus1) →
  chain_received dev1 bus1 blocks dev2 bus2 →
  (length (chain_data blocks) ≤ cap)%nat →
  halse_se05x_xfer dev bus (Some tx) tx_len (Some rx) (Some cap) =
  (0, Some (list_inserts 0 (chain_data blocks) rx), Some (length (chain_data blocks)),
   halse_se05x_clear_buf dev2, bus2).
Proof.
  intros Hlen Hwrite Hrecv Hcap.
  unfold halse_se05x_xfer.
  destruct (Nat.eqb_spec tx_len 0); [done|].
  cbv [is_null orb default from_option id]. rewrite Hwrite. cbn [negb Z.eqb].
  rewrite (xfer_read_loop_received cap dev1 bus1 blocks dev2 bus2 rx 0 Hrecv (Nat.le_0_l _)).
  by rewrite Nat.sub_0_r, Nat.add_0_l, Nat.min_r, take_ge by lia.
Qed.

(** The answer [90 00] to the SELECT in a buffer of sixteen bytes. *)
Lemma xfer_returns_whole_answer_witness :
  4%nat ≠ 0%nat ∧
  xfer_write_loop apdu_select 4 session0
    (mk_bus (block_reads (wire_block xa5 x00 [x90; x00])) [WrAck] []) 0 =
    (0, with_tx_block (wire_block x5a x00 apdu_select) (set_n_s 1 session0),
     mk_bus (block_reads (wire_block xa5 x00 [x90; x00])) []
            [wire_block x5a x00 apdu_select]) ∧
  chain_received
    (with_tx_block (wire_block x5a x00 apdu_select) (set_n_s 1 session0))
    (mk_bus (block_reads (wire_block xa5 x00 [x90; x00])) []
            [wire_block x5a x00 apdu_select])
    [(x00, [x90; x00])]
    (with_rx_block (wire_block xa5 x00 [x90; x00])
       (with_tx_block (wire_block x5a x00 apdu_select) (set_n_s 1 session0)))
    (mk_bus [] [] [wire_block x5a x00 apdu_select]) ∧
  (length (chain_data [(x00, [x90; x00])]) ≤ 16)%nat ∧
  halse_se05x_xfer session0
    (mk_bus (block_reads (wire_block xa5 x00 [x90; x00])) [WrAck] [])
    (Some apdu_select) 4 (Some (replicate 16 xff)) (Some 16%nat) =
  (0, Some ([x90; x00] ++ replicate 14 xff), Some 2%nat, set_n_s 1 session0,
   mk_bus [] [] [wire_block x5a x00 apdu_select]).
Proof.
  set (sent := with_tx_block (wire_block x5a x00 apdu_select) (set_n_s 1 session0)).
  assert (4%nat ≠ 0%nat) as H0 by lia.
  assert (xfer_write_loop apdu_select 4 session0
    (mk_bus (block_reads (wire_block xa5 x00 [x90; x00])) [WrAck] []) 0 =
    (0, sent,
     mk_bus (block_reads (wire_block xa5 x00 [x90; x00])) []
            [wire_block x5a x00 apdu_select])) as H1
    by (vm_compute; reflexivity).
  assert (chain_received sent
    (mk_bus (block_reads (wire_block xa5 x00 [x90; x00])) []
            [wire_block x5a x00 apdu_select])
    [(x00, [x90; x00])]
    (with_rx_block (wire_block xa5 x00 [x90; x00]) sent)
    (mk_bus [] [] [wire_block x5a x00 apdu_select])) as H2
    by (refine (received_last _ _ _ _ _ _ _ _ _ _ _); vm_compute; reflexivity).
  assert (length (chain_data [(x00, [x90; x00])]) ≤ 16)%nat as H3 by (vm_compute; lia).
  refine (conj H0 (conj H1 (conj H2 (conj H3 _)))).
  etransitivity;
    [exact (xfer_returns_whole_answer session0 _ apdu_select 4 (replicate 16 xff) 16 _ _ _ _ _
              H0 H1 H2 H3)
    |vm_compute; reflexivity].
Defined.

(** X10. Whatever its arguments and whatever the slave does,
    [halse_se05x_xfer] leaves no block data behind: both block buffers
    are zeroed, [txlen] is 0 and the retransmit latch is clear when it
    returns.  The cached ATR, the timing parameters and N(R) are as
    before the call. *)
Theorem xfer_leaves_session_clean dev bus tx_buf tx_len rx_buf rx_len :
  let '(_, _, _, dev', _) := halse_se05x_xfer dev bus tx_buf tx_len rx_buf rx_len in
  txbuf dev' = replicate SIZE_BUF x00 ∧ rxbuf dev' = replicate SIZE_BUF x00 ∧
  txlen dev' = 0%nat ∧ txretransmit dev' = false ∧
  atr dev' = atr dev ∧ n_r dev' = n_r dev ∧
  timeout_us dev' = timeout_us dev ∧ guard_time_us dev' = guard_time_us dev ∧
  max_retries dev' = max_retries dev.
Proof.
  unfold halse_se05x_xfer.
  destruct (_ || _) eqn:Hnull; [by split_and!|].
  destruct (xfer_write_loop _ _ _ _ _) as [[r d1] b1] eqn:Hw.
  apply xfer_write_rounds_frame in Hw as [v Fw].
  assert (atr d1 = atr dev ∧ n_r d1 = n_r dev ∧ timeout_us d1 = timeout_us dev ∧
          guard_time_us d1 = guard_time_us dev ∧ max_retries d1 = max_retries dev)
    as (Ha & Hn & Ht & Hg & Hm) by (destruct Fw; by split_and!).
  destruct (negb (r =? 0)); [by split_and!|].
  destruct (xfer_read_loop _ _ _ _ _) as [[[[[e r2] rx2] off2] d2] b2] eqn:Hr.
  apply xfer_read_loop_frame in Hr as [].
  destruct e; simpl; split_and!; congruence.
Qed.

(** A copy that ends at or before [cap] leaves the bytes from [cap] on
    alone, and one that begins at [off] those before [off]. *)
Lemma drop_list_inserts_below {A} (l k : list A) (off cap : nat) :
  (off + length k ≤ cap)%nat → drop cap (list_inserts off k l) = drop cap l.
Proof.
  intros H. apply list_eq. intros j. rewrite !lookup_drop.
  apply list_lookup_inserts_ge. lia.
Qed.

(** The read loop keeps within the capacity: the offset never passes
    it, the buffer keeps its size and the bytes from the capacity on,
    and the loop is left at its end with the return value 0 only. *)
Lemma xfer_read_rounds_capacity n cap dev bus rx off exit ret rx' off' dev' bus' :
  xfer_read_rounds n cap dev bus rx off = (exit, ret, rx', off', dev', bus') →
  (off ≤ cap)%nat →
  (off' ≤ cap)%nat ∧ length rx' = length rx ∧ drop cap rx' = drop cap rx ∧
  (exit = LoopDone → ret = 0).
Proof.
  revert dev bus rx off. induction n as [|n IH]; intros dev bus rx off; simpl.
  { intros [= <- <- <- <- <- <-] ?. by split_and!. }
  unfold xfer_read_body.
  destruct (halse_se05x_recv_block dev bus 0) as [[[r l] d] b] eqn:Hr.
  destruct (Z.eqb_spec r 0) as [->|]; cbn [negb];
    [|intros [= <- <- <- <- <- <-] ?; by split_and!].
  destruct (negb (is_i_block _)); [intros [= <- <- <- <- <- <-] ?; by split_and!|].
  set (len := if (cap <? off + l)%nat then (cap - off)%nat else l).
  set (rx1 := list_inserts off (take len (drop 3 (rxbuf d))) rx).
  intros Hloop Hoff.
  assert (off + len ≤ cap)%nat as Hlen
    by (unfold len; destruct (Nat.ltb_spec cap (off + l)); lia).
  assert (length rx1 = length rx) as Hl1 by apply length_inserts.
  assert (drop cap rx1 = drop cap rx) as Hd1.
  { apply drop_list_inserts_below. rewrite length_take. lia. }
  destruct (negb (_ =? 0)); [|injection Hloop as <- <- <- <- <- <-; by split_and!].
  destruct (halse_se05x_send_r_block _ _ _ _) as [[r' d'] b'].
  destruct (negb (r' =? 0)); [injection Hloop as <- <- <- <- <- <-; by split_and!|].
  apply IH in Hloop as (? & ? & ? & ?); [|done].
  split_and!; [done | congruence | congruence | done].
Qed.

(** X11. [halse_se05x_xfer] keeps within the capacity the caller passed
    in [*rx_len]: the length it reports is never above the capacity, the
    bytes of the caller's buffer from the capacity on are never written,
    and when the call fails [*rx_len] still holds the capacity. *)
Theorem xfer_respects_capacity dev bus tx tx_len rx cap :
  ∃ ret rx' len' dev' bus',
    halse_se05x_xfer dev bus (Some tx) tx_len (Some rx) (Some cap) =
      (ret, Some rx', Some len', dev', bus') ∧
    (len' ≤ cap)%nat ∧ length rx' = length rx ∧ drop cap rx' = drop cap rx ∧
    (ret ≠ 0 → len' = cap).
Proof.
  unfold halse_se05x_xfer.
  cbv [is_null orb default from_option id].
  destruct (tx_len =? 0)%nat; [by repeat eexists|].
  destruct (xfer_write_loop _ _ _ _ _) as [[r d1] b1].
  destruct (Z.eqb_spec r 0) as [->|]; cbn [negb]; [|by repeat eexists].
  destruct (xfer_read_loop _ _ _ _ _) as [[[[[e r2] rx2] off2] d2] b2] eqn:Hr.
  apply xfer_read_rounds_capacity in Hr as (Hoff & Hl & Hd & He); [|lia].
  destruct e; repeat eexists; try done.
  intros Hne. by rewrite He in Hne.
Qed.

Lemma apdu_chunks_nonempty chunks : apdu_chunks chunks → (0 < length (concat chunks))%nat.
Proof.
  destruct chunks as [|c [|c2 cs]]; simpl; [done| |].
  - rewrite length_app. simpl. lia.
  - intros [Hc _]. rewrite length_app, Hc. unfold SIZE_INF_MAX. lia.
Qed.

(** The write loop over the chunks that are left from [off] on, against
    a slave that accepts every block and passes the token back. *)
Lemma xfer_write_loop_chunks_from chunks dev lg tx tx_len off rest ws :
  wf_dev dev → (n_s dev = 0 ∨ n_s dev = 1) → apdu_chunks chunks →
  tx_len = (off + length (concat chunks))%nat →
  take (length (concat chunks)) (drop off tx) = concat chunks →
  ∃ dev',
    xfer_write_loop tx tx_len dev
      (mk_bus (apdu_tokens (n_s dev) chunks ++ rest)
              (replicate (length chunks) WrAck ++ ws) lg) off
    = (0, dev', mk_bus rest ws (lg ++ apdu_blocks (n_s dev) chunks)) ∧
    n_s dev' = (n_s dev + Z.of_nat (length chunks)) mod 2 ∧
    wf_dev dev'.
Proof.
  revert dev lg off.
  induction chunks as [|c cs IH]; intros dev lg off Hwf Hns Hchunks Hlen Htx; [done|].
  assert (length c ≤ SIZE_INF_MAX)%nat as Hc
    by (destruct cs; simpl in Hchunks; unfold SIZE_INF_MAX in *; lia).
  assert (length (concat (c :: cs)) = length c + length (concat cs))%nat as Hcat
    by (simpl; by rewrite length_app).
  assert (length c ≤ length (drop off tx))%nat as Hbuf.
  { apply (f_equal length) in Htx. rewrite length_take, Hcat in Htx. lia. }
  assert (take (length c) (drop off tx) = c) as Hinf.
  { apply (f_equal (take (length c))) in Htx.
    rewrite take_take, Hcat in Htx. cbn [concat] in Htx.
    rewrite take_app_length in Htx. by rewrite Nat.min_l in Htx by lia. }
  assert (∀ chain,
    wf_dev (with_tx_block (wire_block (u8 SE05X_NAD) (i_block_pcb (n_s dev) chain) c)
              (set_n_s (Z.lxor (n_s dev) 1) dev))) as Hwf1.
  { intros chain. apply (session_frame_wf (set_n_s (Z.lxor (n_s dev) 1) dev));
      [apply with_tx_block_frame | exact Hwf]. }
  rewrite xfer_write_loop_unfold. unfold xfer_write_body.
  replace (tx_len - off)%nat with (length c + length (concat cs))%nat by lia.
  destruct cs as [|c2 cs].
  - (* the last chunk *)
    cbn [concat length] in *. rewrite Nat.add_0_r.
    cbn [apdu_tokens apdu_blocks replicate app].
    assert ((if (length c <? SIZE_INF_MAX)%nat then length c else SIZE_INF_MAX) = length c)
      as -> by (destruct (Nat.ltb_spec (length c) SIZE_INF_MAX); lia).
    rewrite Nat.sub_diag. change (0 <? 0)%nat with false.
    rewrite halse_se05x_send_i_block_ack by done. cbn zeta. rewrite Hinf.
    cbn [negb Z.eqb].
    eexists. split_and!; [reflexivity | | apply Hwf1].
    simpl. destruct Hns as [-> | ->]; reflexivity.
  - (* a chained chunk: the token comes back, then the rest *)
    destruct Hchunks as [Hc254 Hchunks].
    pose proof (apdu_chunks_nonempty _ Hchunks) as Hrest.
    assert ((if (length c + length (concat (c2 :: cs)) <? SIZE_INF_MAX)%nat
             then (length c + length (concat (c2 :: cs)))%nat else SIZE_INF_MAX) = length c)
      as -> by (destruct (Nat.ltb_spec (length c + length (concat (c2 :: cs))) SIZE_INF_MAX); lia).
    replace (length c + length (concat (c2 :: cs)) - length c)%nat
      with (length (concat (c2 :: cs))) by lia.
    destruct (Nat.ltb_spec 0 (length (concat (c2 :: cs)))) as [_|]; [|lia].
    change (length (c :: c2 :: cs)) with (S (length (c2 :: cs))).
    cbn [replicate app].
    rewrite halse_se05x_send_i_block_ack by done. cbn zeta. rewrite Hinf.
    set (ns' := Z.lxor (n_s dev) 1).
    assert (0 ≤ ns' ≤ 1) as Hns'
      by (unfold ns'; destruct Hns as [-> | ->];
          [change (Z.lxor 0 1) with 1 | change (Z.lxor 1 1) with 0]; lia).
    destruct (r_block_pcb_fields ns' 0 Hns' ltac:(lia)) as (Hr & Hnr & Hee & Herr & Hreq).
    set (blk := wire_block (u8 SE05X_NAD) (i_block_pcb (n_s dev) true) c).
    set (dev1 := with_tx_block blk (set_n_s ns' dev)).
    assert (wf_dev dev1) as Hwfd1 by apply Hwf1.
    change (apdu_tokens (n_s dev) (c :: c2 :: cs))
      with (block_reads (wire_block xa5 (r_block_pcb ns' 0) [])
            ++ apdu_tokens ns' (c2 :: cs)).
    rewrite <- app_assoc.
    rewrite recv_block_final by (done || simpl; unfold SIZE_INF_MAX; lia).
    destruct (with_rx_block_lookup xa5 (r_block_pcb ns' 0) [] dev1 Hwfd1
                ltac:(simpl; unfold SIZE_INF_MAX; lia)) as [Hpcb _].
    set (dev2 := with_rx_block (wire_block xa5 (r_block_pcb ns' 0) []) dev1) in *.
    cbn [negb Z.eqb]. rewrite Hpcb, Hr, Hee, Hnr. cbn [negb Z.eqb].
    assert (n_s dev2 = ns') as Hns2 by reflexivity.
    rewrite Hns2, Z.eqb_refl. cbn [negb Z.eqb].
    assert (wf_dev dev2) as Hwf2
      by (apply (session_frame_wf dev1); [apply with_rx_block_frame | done]).
    destruct (IH dev2 (lg ++ [blk]) (off + length c)%nat Hwf2
                ltac:(rewrite Hns2; lia) Hchunks ltac:(lia)) as (dev' & Hloop & Hn & Hwf').
    { rewrite Hcat in Htx.
      rewrite <- drop_drop, take_drop_commute, Htx. cbn [concat].
      by rewrite drop_app_length. }
    rewrite Hns2 in Hloop, Hn.
    exists dev'. split_and!; [|  | done].
    + rewrite Hloop. rewrite <- app_assoc. reflexivity.
    + rewrite Hn. unfold ns'. change (length (c :: c2 :: cs)) with (S (length (c2 :: cs))).
      rewrite Nat2Z.inj_succ.
      destruct Hns as [-> | ->];
        [change (Z.lxor 0 1) with 1 | change (Z.lxor 1 1) with 0].
      * f_equal. lia.
      * replace (1 + Z.succ (Z.of_nat (length (c2 :: cs))))
          with (0 + Z.of_nat (length (c2 :: cs)) + 1 * 2) by lia.
        by rewrite Z.mod_add.
Qed.

(** X12. The write loop of [halse_se05x_xfer] cuts the APDU into chunks
    of 254 bytes and sends them in order, each in one I-block: the chain
    flag is set on every block but the last, N(S) alternates from the
    session's N(S) on, and after every chained block the token R-block
    of the slave is consumed.  The INF fields on the bus, put together,
    are the APDU; afterwards N(S) has moved on by the number of blocks. *)
Theorem xfer_write_loop_chunks chunks dev lg tx rest ws :
  wf_dev dev → (n_s dev = 0 ∨ n_s dev = 1) → apdu_chunks chunks →
  take (length (concat chunks)) tx = concat chunks →
  ∃ dev',
    xfer_write_loop tx (length (concat chunks)) dev
      (mk_bus (apdu_tokens (n_s dev) chunks ++ rest)
              (replicate (length chunks) WrAck ++ ws) lg) 0
    = (0, dev', mk_bus rest ws (lg ++ apdu_blocks (n_s dev) chunks)) ∧
    n_s dev' = (n_s dev + Z.of_nat (length chunks)) mod 2.
Proof.
  intros Hwf Hns Hchunks Htx.
  destruct (xfer_write_loop_chunks_from chunks dev lg tx (length (concat chunks)) 0 rest ws
              Hwf Hns Hchunks eq_refl Htx) as (dev' & Hloop & Hn & _).
  by exists dev'.
Qed.

(** An APDU of 300 bytes goes out as a chained I-block of 254 bytes
    with N(S) = 0 and, after the token [A5 90 00], a last one of 46
    bytes with N(S) = 1. *)
Lemma xfer_write_loop_chunks_witness :
  wf_dev session0 ∧ (n_s session0 = 0 ∨ n_s session0 = 1) ∧
  apdu_chunks [replicate 254 x11; replicate 46 x11] ∧
  take (length (concat [replicate 254 x11; replicate 46 x11])) (replicate 300 x11) =
    concat [replicate 254 x11; replicate 46 x11] ∧
  ∃ dev',
    xfer_write_loop (replicate 300 x11) 300 session0
      (mk_bus (block_reads (wire_block xa5 x90 []) ++ [RdErr 6]) [WrAck; WrAck; WrErr 5] []) 0
    = (0, dev',
       mk_bus [RdErr 6] [WrErr 5]
         [wire_block x5a x20 (replicate 254 x11); wire_block x5a x40 (replicate 46 x11)]) ∧
    n_s dev' = 0.
Proof.
  assert (wf_dev session0) as H1 by (split; reflexivity).
  assert (n_s session0 = 0 ∨ n_s session0 = 1) as H2 by (left; reflexivity).
  assert (apdu_chunks [replicate 254 x11; replicate 46 x11]) as H3
    by (simpl; rewrite ?length_replicate; unfold SIZE_INF_MAX; lia).
  assert (take (length (concat [replicate 254 x11; replicate 46 x11])) (replicate 300 x11) =
          concat [replicate 254 x11; replicate 46 x11]) as H4 by (vm_compute; reflexivity).
  refine (conj H1 (conj H2 (conj H3 (conj H4 _)))).
  destruct (xfer_write_loop_chunks [replicate 254 x11; replicate 46 x11] session0 []
              (replicate 300 x11) [RdErr 6] [WrErr 5] H1 H2 H3 H4) as (dev' & Hloop & Hn).
  exists dev'. split; [exact Hloop | exact Hn].
Defined.

(** ** The exchange, end to end *)

(** X13. An exchange with a slave that plays its part: for an APDU of
    any length the slave accepts the I-blocks and passes the token back
    after each chained one, then delivers its answer as a chain of
    I-blocks and accepts the acknowledgements.  [halse_se05x_xfer]
    returns 0 with the answer in the caller's buffer and its length in
    [*rx_len]; the bus has seen the APDU in chunks of 254 bytes and one
    R-block for every chained block of the answer; the session is left
    with clean buffers and N(S) moved on by the number of blocks sent. *)
Theorem xfer_exchange chunks blocks dev tx rx cap rest ws lg :
  wf_dev dev → (n_s dev = 0 ∨ n_s dev = 1) →
  apdu_chunks chunks → take (length (concat chunks)) tx = concat chunks →
  i_block_chain blocks → (length (chain_data blocks) ≤ cap)%nat →
  halse_se05x_xfer dev
    (mk_bus (apdu_tokens (n_s dev) chunks ++ chain_reads blocks ++ rest)
            (replicate (length chunks) WrAck ++
             replicate (length blocks - 1) WrAck ++ ws) lg)
    (Some tx) (length (concat chunks)) (Some rx) (Some cap) =
  (0, Some (list_inserts 0 (chain_data blocks) rx), Some (length (chain_data blocks)),
   set_n_s ((n_s dev + Z.of_nat (length chunks)) mod 2) (halse_se05x_clear_buf dev),
   mk_bus rest ws (lg ++ apdu_blocks (n_s dev) chunks ++ chain_acks blocks)).
Proof.
  intros Hwf Hns Hchunks Htx Hchain Hcap.
  destruct (xfer_write_loop_chunks_from chunks dev lg tx (length (concat chunks)) 0
              (chain_reads blocks ++ rest) (replicate (length blocks - 1) WrAck ++ ws)
              Hwf Hns Hchunks eq_refl Htx) as (dev1 & Hloop & Hn & Hwf1).
  destruct (chain_reads_received blocks dev1 rest ws (lg ++ apdu_blocks (n_s dev) chunks)
              Hwf1 Hchain) as (dev2 & F2 & Hrecv).
  pose proof (apdu_chunks_nonempty _ Hchunks) as Hlen.
  pose proof Hloop as Hframe. apply xfer_write_rounds_frame in Hframe as [v F1].
  unfold halse_se05x_xfer.
  destruct (Nat.eqb_spec (length (concat chunks)) 0); [lia|].
  cbv [is_null orb default from_option id]. rewrite Hloop. cbn [negb Z.eqb].
  rewrite (xfer_read_loop_received cap dev1 _ blocks dev2 _ rx 0 Hrecv (Nat.le_0_l _)).
  rewrite Nat.sub_0_r, Nat.add_0_l, Nat.min_r, take_ge by lia.
  rewrite <- app_assoc.
  do 2 f_equal.
  rewrite (halse_se05x_clear_buf_frame dev1 dev2 F2).
  assert (n_s dev1 = v) as Hv by (by destruct F1).
  rewrite <- Hn, Hv.
  destruct F1, dev, dev1. unfold halse_se05x_clear_buf, set_n_s, set_rxbuf,
    set_txretransmit, set_txlen, set_txbuf. simpl in *. congruence.
Qed.

(** An APDU of 300 bytes and an answer of 300 bytes. *)
Lemma xfer_exchange_witness :
  wf_dev session0 ∧ (n_s session0 = 0 ∨ n_s session0 = 1) ∧
  apdu_chunks [replicate 254 x11; replicate 46 x11] ∧
  take (length (concat [replicate 254 x11; replicate 46 x11])) (replicate 300 x11) =
    concat [replicate 254 x11; replicate 46 x11] ∧
  i_block_chain [(x20, replicate 254 x22); (x40, replicate 46 x33)] ∧
  (length (chain_data [(x20, replicate 254 x22); (x40, replicate 46 x33)]) ≤ 512)%nat ∧
  halse_se05x_xfer session0
    (mk_bus (block_reads (wire_block xa5 x90 []) ++
             chain_reads [(x20, replicate 254 x22); (x40, replicate 46 x33)])
            [WrAck; WrAck; WrAck] [])
    (Some (replicate 300 x11)) 300 (Some (replicate 512 xff)) (Some 512%nat) =
  (0, Some (replicate 254 x22 ++ replicate 46 x33 ++ replicate 212 xff), Some 300%nat,
   session0,
   mk_bus [] []
     [wire_block x5a x20 (replicate 254 x11); wire_block x5a x40 (replicate 46 x11);
      wire_block x5a x90 []]).
Proof.
  assert (wf_dev session0) as H1 by (split; reflexivity).
  assert (n_s session0 = 0 ∨ n_s session0 = 1) as H2 by (left; reflexivity).
  assert (apdu_chunks [replicate 254 x11; replicate 46 x11]) as H3
    by (simpl; rewrite ?length_replicate; unfold SIZE_INF_MAX; lia).
  assert (take (length (concat [replicate 254 x11; replicate 46 x11])) (replicate 300 x11) =
          concat [replicate 254 x11; replicate 46 x11]) as H4 by (vm_compute; reflexivity).
  assert (i_block_chain [(x20, replicate 254 x22); (x40, replicate 46 x33)]) as H5
    by (cbn; rewrite ?length_replicate; unfold SIZE_INF_MAX;
        repeat split; (reflexivity || lia || discriminate)).
  assert (length (chain_data [(x20, replicate 254 x22); (x40, replicate 46 x33)]) ≤ 512)%nat
    as H6 by (vm_compute; lia).
  refine (conj H1 (conj H2 (conj H3 (conj H4 (conj H5 (conj H6 _)))))).
  etransitivity;
    [exact (xfer_exchange [replicate 254 x11; replicate 46 x11]
              [(x20, replicate 254 x22); (x40, replicate 46 x33)]
              session0 (replicate 300 x11) (replicate 512 xff) 512 [] [] []
              H1 H2 H3 H4 H5 H6)
    |vm_compute; reflexivity].
Defined.

(** ** The ATR handed to the resource manager *)

Lemma xor_all_app (a b : list byte) :
  xor_all (a ++ b) = Z.lxor (xor_all a) (xor_all b).
Proof.
  induction a as [|x a IH]; cbn [app xor_all foldr]; [by rewrite Z.lxor_0_l|].
  fold (xor_all (a ++ b)). fold (xor_all a). by rewrite IH, Z.lxor_assoc.
Qed.

Lemma t0_low_nibble (k : nat) :
  (k ≤ 15)%nat → Z.land (Z_of_byte (u8 (Z.lor 0xF0 (Z.of_nat k)))) 0x0F = Z.of_nat k.
Proof.
  intros Hk. do 16 (destruct k as [|k]; [vm_compute; reflexivity|]). lia.
Qed.

(** The layout of the ATR [halse_se05x_get_atr] composes. *)
Lemma halse_se05x_get_atr_layout dev buf len :
  let n := nat_of_byte (atr dev !!! 6%nat) in
  let m := nat_of_byte (atr dev !!! (8 + n)%nat) in
  let hb_len := nat_of_byte (atr dev !!! (9 + n + m)%nat) in
  let hb := take hb_len (drop (10 + n + m) (atr dev)) in
  let t0 := u8 (Z.lor 0xF0 (Z.of_nat hb_len)) in
  (hb_len ≤ 15)%nat →
  (10 + n + m + hb_len ≤ length (atr dev))%nat →
  (9 + hb_len ≤ length buf)%nat →
  ∃ tck,
    halse_se05x_get_atr dev buf len =
    (0, [x3b; t0; x96; x00; x00; x80; x11; xfe] ++ hb ++ [tck] ++ drop (9 + hb_len) buf,
     (9 + hb_len)%nat) ∧
    length hb = hb_len ∧
    Z_of_byte tck = xor_all ([t0; x96; x00; x00; x80; x11; xfe] ++ hb).
Proof.
  intros n m hb_len hb t0. unfold halse_se05x_get_atr. cbv zeta.
  change (0 + (1 + 5))%nat with 6%nat. fold n.
  replace (6 + (1 + n) + 1)%nat with (8 + n)%nat by lia. fold m.
  replace (8 + n + (1 + m))%nat with (9 + n + m)%nat by lia. fold hb_len.
  replace (9 + n + m + 1)%nat with (10 + n + m)%nat by lia. fold hb.
  intros Hhb Hatr Hbuf.
  destruct (Nat.ltb_spec 15 hb_len); [lia|].
  assert (length hb = hb_len) as Hlen.
  { unfold hb. rewrite length_take, length_drop. lia. }
  change (0 + length atr_prologue)%nat with 8%nat.
  rewrite (list_inserts_0_prefix atr_prologue buf) by (simpl; lia).
  change (length atr_prologue) with 8%nat.
  cbn [atr_prologue app lookup_total list_lookup_total list_insert insert].
  change (Z_of_byte xf0) with 0xF0. fold t0.
  set (rest := drop 8 buf).
  assert (length rest = (length buf - 8)%nat) as Hrest by apply length_drop.
  change (x3b :: t0 :: x96 :: x00 :: x00 :: x80 :: x11 :: xfe :: rest)
    with ([x3b; t0; x96; x00; x00; x80; x11; xfe] ++ rest).
  assert (list_inserts 8 hb ([x3b; t0; x96; x00; x00; x80; x11; xfe] ++ rest)
          = [x3b; t0; x96; x00; x00; x80; x11; xfe] ++ hb ++ drop hb_len rest) as Hins.
  { change 8%nat with (length [x3b; t0; x96; x00; x00; x80; x11; xfe] + 0)%nat.
    rewrite list_inserts_app_r, list_inserts_0_prefix by lia. by rewrite Hlen. }
  rewrite !Hins.
  set (tck := halse_se05x_calculate_xor _ _).
  exists tck.
  assert (drop hb_len rest = (rest !!! hb_len) :: drop (9 + hb_len) buf) as Htail.
  { unfold rest. rewrite (drop_S (drop 8 buf) (drop 8 buf !!! hb_len) hb_len)
      by (apply list_lookup_lookup_total_lt; fold rest; lia).
    f_equal. rewrite drop_drop. reflexivity. }
  split_and!; [|done|].
  + f_equal; [|lia]. f_equal.
    rewrite Htail.
    rewrite (app_assoc [x3b; t0; x96; x00; x00; x80; x11; xfe] hb).
    rewrite (insert_app_r_alt ([x3b; t0; x96; x00; x00; x80; x11; xfe] ++ hb))
      by (rewrite length_app, Hlen; simpl; lia).
    rewrite length_app, Hlen. cbn [length].
    replace (8 + hb_len - (8 + hb_len))%nat with 0%nat by lia.
    cbn [list_insert insert]. by rewrite <- app_assoc.
  + unfold tck. rewrite halse_se05x_calculate_xor_spec.
    cbn [app drop]. replace (8 + hb_len - 1)%nat with (7 + hb_len)%nat by lia.
    change (t0 :: x96 :: x00 :: x00 :: x80 :: x11 :: xfe :: hb ++ drop hb_len rest)
      with (([t0; x96; x00; x00; x80; x11; xfe] ++ hb) ++ drop hb_len rest).
    replace (7 + hb_len)%nat with (length ([t0; x96; x00; x00; x80; x11; xfe] ++ hb))
      by (rewrite length_app, Hlen; reflexivity).
    by rewrite take_app_length.
Qed.

(** X14. The ATR [halse_se05x_get_atr] hands out is consistent in
    itself: its length is between 9 and 24 bytes, the low nibble of T0
    is the number of historical bytes, that is the length less 9, and
    the XOR of all bytes from T0 to TCK is 0, as ISO 7816-3 asks of a
    check byte.  The capacity the caller passed in [*len] is not looked
    at: the same bytes are written whatever it is, and the bytes of the
    buffer behind them are kept. *)
Theorem get_atr_is_consistent dev buf :
  let n := nat_of_byte (atr dev !!! 6%nat) in
  let m := nat_of_byte (atr dev !!! (8 + n)%nat) in
  let hb_len := nat_of_byte (atr dev !!! (9 + n + m)%nat) in
  (hb_len ≤ 15)%nat →
  (10 + n + m + hb_len ≤ length (atr dev))%nat →
  (9 + hb_len ≤ length buf)%nat →
  ∃ out len',
    (∀ cap, halse_se05x_get_atr dev buf cap = (0, out, len')) ∧
    (9 ≤ len' ≤ 24)%nat ∧ len' = (9 + hb_len)%nat ∧
    Z.land (Z_of_byte (out !!! 1%nat)) 0x0F = Z.of_nat (len' - 9) ∧
    xor_all (take (len' - 1) (drop 1 out)) = 0 ∧
    length out = length buf ∧ drop len' out = drop len' buf.
Proof.
  intros n m hb_len Hhb Hatr Hbuf.
  destruct (halse_se05x_get_atr_layout dev buf 0 Hhb Hatr Hbuf) as (tck & Hget & Hlen & Htck).
  fold n m hb_len in Hget, Hlen, Htck.
  set (hb := take hb_len (drop (10 + n + m) (atr dev))) in *.
  set (t0 := u8 (Z.lor 0xF0 (Z.of_nat hb_len))) in *.
  exists ([x3b; t0; x96; x00; x00; x80; x11; xfe] ++ hb ++ [tck] ++ drop (9 + hb_len) buf),
    (9 + hb_len)%nat.
  split_and!.
  - intros cap.
    destruct (halse_se05x_get_atr_layout dev buf cap Hhb Hatr Hbuf) as (tck' & Hget' & _ & Htck').
    fold n m hb_len hb t0 in Hget', Htck'.
    assert (tck' = tck) as -> by (apply Z_of_byte_inj; by rewrite Htck', Htck).
    exact Hget'.
  - lia.
  - lia.
  - reflexivity.
  - cbn [app lookup_total list_lookup_total].
    replace (9 + hb_len - 9)%nat with hb_len by lia. by apply t0_low_nibble.
  - cbn [app drop]. replace (9 + hb_len - 1)%nat with (8 + hb_len)%nat by lia.
    change (t0 :: x96 :: x00 :: x00 :: x80 :: x11 :: xfe :: hb ++ tck :: drop (9 + hb_len) buf)
      with ([t0; x96; x00; x00; x80; x11; xfe] ++ hb ++ [tck] ++ drop (9 + hb_len) buf).
    rewrite !app_assoc, <- (app_assoc _ hb [tck]).
    replace (8 + hb_len)%nat
      with (length ([t0; x96; x00; x00; x80; x11; xfe] ++ hb ++ [tck]))
      by (rewrite !length_app, Hlen; simpl; lia).
    rewrite take_app_length, app_assoc, xor_all_app.
    change (xor_all [tck]) with (Z.lxor (Z_of_byte tck) 0).
    rewrite Z.lxor_0_r, Htck. apply Z.lxor_nilpotent.
  - rewrite !length_app, Hlen, length_drop. simpl. lia.
  - set (tail := drop (9 + hb_len) buf).
    rewrite (app_assoc _ hb), (app_assoc _ [tck]).
    apply drop_app_length'. rewrite !length_app, Hlen. simpl. lia.
Qed.

Lemma get_atr_is_consistent_witness :
  (nat_of_byte (atr (session_with_atr atr_jcop) !!! 12%nat) ≤ 15)%nat ∧
  (10 + 2 + 1 + 10 ≤ length (atr (session_with_atr atr_jcop)))%nat ∧
  (9 + 10 ≤ length (replicate 32 x00))%nat ∧
  ∃ out len',
    halse_se05x_get_atr (session_with_atr atr_jcop) (replicate 32 x00) 0 = (0, out, len') ∧
    len' = 19%nat ∧
    Z.land (Z_of_byte (out !!! 1%nat)) 0x0F = 10 ∧
    xor_all (take (len' - 1) (drop 1 out)) = 0.
Proof.
  assert (nat_of_byte (atr (session_with_atr atr_jcop) !!! 12%nat) ≤ 15)%nat as H1
    by (vm_compute; lia).
  assert (10 + 2 + 1 + 10 ≤ length (atr (session_with_atr atr_jcop)))%nat as H2
    by (vm_compute; lia).
  assert (9 + 10 ≤ length (replicate 32 x00))%nat as H3 by (vm_compute; lia).
  refine (conj H1 (conj H2 (conj H3 _))).
  destruct (get_atr_is_consistent (session_with_atr atr_jcop) (replicate 32 x00) H1 H2 H3)
    as (out & len' & Hget & _ & Hlen & Hk & Hx & _).
  exists out, len'. split_and!; [apply Hget | exact Hlen | | exact Hx].
  rewrite Hk, Hlen. reflexivity.
Defined.

(** ** Resets and power *)

Lemma set_atr_frame_but_atr a dev :
  n_s (set_atr a dev) = n_s dev ∧ n_r (set_atr a dev) = n_r dev ∧
  txbuf (set_atr a dev) = txbuf dev ∧ rxbuf (set_atr a dev) = rxbuf dev.
Proof. done. Qed.

(** An S-block request without INF and the answer to it, as both
    resets exchange them. *)
Lemma s_block_exchange dev rs ws lg t pcb inf :
  wf_dev dev → (length inf ≤ SIZE_INF_MAX)%nat →
  is_s_block_request pcb = false → is_r_block_with_error pcb = false →
  ∃ dev',
    (let '(ret, dev1, bus1) :=
       halse_se05x_send_s_block_noinf dev
         (mk_bus (block_reads (wire_block xa5 pcb inf) ++ rs) (WrAck :: ws) lg) CMD_REQ t in
     if negb (ret =? 0) then (-1, 0%nat, dev1, bus1)
     else halse_se05x_recv_block dev1 bus1 0)
    = (0, length inf, dev',
       mk_bus rs ws (lg ++ [wire_block x5a (s_block_pcb CMD_REQ t) []])) ∧
    session_frame dev dev' ∧
    rxbuf dev' !!! 1%nat = pcb ∧ take (length inf) (drop 3 (rxbuf dev')) = inf.
Proof.
  intros Hwf Hlen Hreq Herr.
  unfold halse_se05x_send_s_block_noinf.
  rewrite halse_se05x_send_s_block_ack by (done || simpl; unfold SIZE_INF_MAX; lia).
  cbn [negb Z.eqb take].
  set (dev1 := with_tx_block _ dev).
  assert (wf_dev dev1) as Hwf1
    by (apply (session_frame_wf dev); [apply with_tx_block_frame | done]).
  rewrite recv_block_final by done.
  destruct (with_rx_block_lookup xa5 pcb inf dev1 Hwf1 Hlen) as [Hpcb Hinf].
  eexists. split_and!; [reflexivity | | exact Hpcb | exact Hinf].
  eapply session_frame_trans; [apply with_tx_block_frame | apply with_rx_block_frame].
Qed.

(** X15. A warm reset that the SE answers caches the ATR: when the
    slave accepts the S-block request SOFT_RESET ([5A CF 00] and CRC)
    and answers with the S-block response SOFT_RESET, the call returns
    0, the INF field of the answer is the cached ATR from then on, and
    N(S) and N(R) are 0. *)
Theorem warm_reset_caches_atr dev rs ws lg a :
  wf_dev dev → (length a ≤ SIZE_INF_MAX)%nat →
  ∃ dev',
    halse_se05x_warm_reset dev
      (mk_bus (block_reads (wire_block xa5 xef a) ++ rs) (WrAck :: ws) lg)
    = (0, dev', mk_bus rs ws (lg ++ [wire_block x5a xcf []])) ∧
    atr dev' = a ∧ n_s dev' = 0 ∧ n_r dev' = 0 ∧ wf_dev dev'.
Proof.
  intros Hwf Hlen.
  assert (wf_dev (halse_se05x_clear_state dev)) as Hwf0 by exact Hwf.
  destruct (s_block_exchange (halse_se05x_clear_state dev) rs ws lg CMD_SOFT_RESET xef a
              Hwf0 Hlen eq_refl eq_refl) as (dev1 & Hx & F & Hpcb & Hinf).
  unfold halse_se05x_warm_reset, halse_se05x_warm_reset_dev.
  destruct (halse_se05x_send_s_block_noinf _ _ _ _) as [[r d] b].
  destruct (negb (r =? 0)); [done|]. rewrite Hx. cbn [negb Z.eqb].
  rewrite Hpcb, Hinf. change (Z_of_byte xef =? _) with true. cbn [negb].
  eexists. split_and!; [reflexivity | reflexivity | | |].
  - cbn. by rewrite (frame_n_s _ _ F).
  - cbn. by rewrite (frame_n_r _ _ F).
  - apply (session_frame_wf _ _ F) in Hwf0. exact Hwf0.
Qed.

Lemma warm_reset_caches_atr_witness :
  wf_dev (set_n_s 1 session0) ∧ (length atr_jcop ≤ SIZE_INF_MAX)%nat ∧
  ∃ dev',
    halse_se05x_warm_reset (set_n_s 1 session0)
      (mk_bus (block_reads (wire_block xa5 xef atr_jcop)) [WrAck] [])
    = (0, dev', mk_bus [] [] [[x5a; xcf; x00; x37; x7f]]) ∧
    atr dev' = atr_jcop ∧ n_s dev' = 0 ∧ n_r dev' = 0.
Proof.
  assert (wf_dev (set_n_s 1 session0)) as H1 by (split; reflexivity).
  assert (length atr_jcop ≤ SIZE_INF_MAX)%nat as H2 by (vm_compute; lia).
  refine (conj H1 (conj H2 _)).
  destruct (warm_reset_caches_atr (set_n_s 1 session0) [] [] [] atr_jcop H1 H2)
    as (dev' & Hr & Ha & Hs & Hn & _).
  exists dev'. split_and!; [exact Hr | done..].
Defined.

(** X16. [halse_se05x_warm_reset] reports a failure as -1 whatever went
    wrong (a write error, a receive error or timeout, an answer that is
    not the S-block response SOFT_RESET), clears N(S) and N(R) in every
    case, and replaces the cached ATR only when it returns 0. *)
Theorem warm_reset_outcomes dev bus :
  let '(ret, dev', _) := halse_se05x_warm_reset dev bus in
  (ret = 0 ∨ ret = -1) ∧ n_s dev' = 0 ∧ n_r dev' = 0 ∧
  (ret ≠ 0 → atr dev' = atr dev) ∧
  (wf_dev dev → wf_dev dev').
Proof.
  unfold halse_se05x_warm_reset, halse_se05x_warm_reset_dev, halse_se05x_send_s_block_noinf.
  destruct (halse_se05x_send_s_block _ _ _ _ _ _) as [[r d] b] eqn:Hs.
  apply halse_se05x_send_s_block_frame in Hs as (F & _).
  assert (wf_dev dev → wf_dev d) as Hwf by (intros H; by apply (session_frame_wf _ _ F)).
  destruct (negb (r =? 0)).
  { destruct F. split_and!; [by right | done.. ]. }
  destruct (halse_se05x_recv_block d b 0) as [[[r' l] d'] b'] eqn:Hr.
  apply halse_se05x_recv_block_frame in Hr as (F' & _).
  pose proof (session_frame_trans _ _ _ F F') as [].
  assert (wf_dev dev → wf_dev d') as Hwf'
    by (intros H; by apply (session_frame_wf _ _ F'), Hwf).
  destruct (negb (r' =? 0)); [split_and!; [by right | done..]|].
  destruct (negb (_ =? _)); [split_and!; [by right | done..]|].
  split_and!; [by left | done.. ].
Qed.


(** ** Retry on NACK (hali2c.c) *)

Lemma is_nack_nonneg (v : Z) : 0 ≤ v → is_nack v = false.
Proof.
  intros Hv. unfold is_nack, ENXIO, ETIMEDOUT, EREMOTEIO.
  apply orb_false_intro; [apply orb_false_intro|]; apply Z.eqb_neq; lia.
Qed.

Lemma hali2c_read_loop_nack more e rs ws lg buf off len :
  nack_errno e = true →
  hali2c_read_loop more (mk_bus (RdErr e :: rs) ws lg) buf off len =
  match more with
  | O => (- ETIMEDOUT, buf, mk_bus rs ws lg)
  | S more' => hali2c_read_loop more' (mk_bus rs ws lg) buf off len
  end.
Proof.
  intros He. unfold nack_errno in He.
  destruct more; cbn [hali2c_read_loop hali2c_kernel_read rd_script wr_script wire];
    (destruct (Z.eqb_spec (- Z.pos e) (Z.of_nat len)); [lia|]);
    rewrite He; reflexivity.
Qed.

Lemma hali2c_read_loop_nacks es more rs ws lg buf off len :
  Forall (λ e, nack_errno e = true) es →
  hali2c_read_loop (length es + more) (mk_bus (map RdErr es ++ rs) ws lg) buf off len =
  hali2c_read_loop more (mk_bus rs ws lg) buf off len.
Proof.
  induction 1 as [|e es He _ IH]; [done|].
  cbn [map app length Nat.add]. by rewrite hali2c_read_loop_nack.
Qed.

Lemma hali2c_read_loop_data more bs rs ws lg buf off len :
  length bs = len →
  hali2c_read_loop more (mk_bus (RdData bs :: rs) ws lg) buf off len =
  (0, list_inserts off bs buf, mk_bus rs ws lg).
Proof.
  intros <-.
  destruct more; cbn [hali2c_read_loop hali2c_kernel_read rd_script wr_script wire];
    rewrite firstn_all, Z.eqb_refl; reflexivity.
Qed.

(** X18. [hali2c_read_with_retry] rides out the NACKs of a slave that
    is not ready: when the slave answers up to [max_attempts - 1] raw
    reads with a NACK (-ENXIO, -ETIMEDOUT or -EREMOTEIO) and then
    delivers the [len] bytes, the call returns 0 with the bytes in the
    buffer; the buffer is not touched by the attempts before. *)
Theorem read_with_retry_rides_out_nacks es bs rs ws lg buf off len max_attempts :
  Forall (λ e, nack_errno e = true) es →
  (length es ≤ max_attempts - 1)%nat → length bs = len →
  hali2c_read_with_retry (mk_bus (map RdErr es ++ RdData bs :: rs) ws lg)
    buf off len max_attempts =
  (0, list_inserts off bs buf, mk_bus rs ws lg).
Proof.
  intros Hes Hn Hbs. unfold hali2c_read_with_retry.
  replace (max_attempts - 1)%nat
    with (length es + (max_attempts - 1 - length es))%nat by lia.
  rewrite hali2c_read_loop_nacks by done. by apply hali2c_read_loop_data.
Qed.

Lemma read_with_retry_rides_out_nacks_witness :
  Forall (λ e, nack_errno e = true) [6; 121; 110]%positive ∧
  (length [6; 121; 110]%positive ≤ 1000 - 1)%nat ∧ length [x01; x02] = 2%nat ∧
  hali2c_read_with_retry
    (mk_bus [RdErr 6; RdErr 121; RdErr 110; RdData [x01; x02]; RdData [x03]] [] [])
    [xff; xff; xff; xff] 1 2 1000 =
  (0, [xff; x01; x02; xff], mk_bus [RdData [x03]] [] []).
Proof.
  assert (Forall (λ e, nack_errno e = true) [6; 121; 110]%positive) as H1
    by (repeat constructor).
  assert (length [6; 121; 110]%positive ≤ 1000 - 1)%nat as H2 by (simpl; lia).
  assert (length [x01; x02] = 2%nat) as H3 by reflexivity.
  exact (conj H1 (conj H2 (conj H3
    (read_with_retry_rides_out_nacks [6; 121; 110]%positive [x01; x02] [RdData [x03]] [] []
       [xff; xff; xff; xff] 1 2 1000 H1 H2 H3)))).
Defined.

Lemma hali2c_read_loop_timeout more es rs ws lg buf off len :
  Forall (λ e, nack_errno e = true) es → length es = S more →
  hali2c_read_loop more (mk_bus (map RdErr es ++ rs) ws lg) buf off len =
  (- ETIMEDOUT, buf, mk_bus rs ws lg).
Proof.
  revert es. induction more as [|more IH]; intros es Hes Hlen.
  - destruct es as [|e [|]]; [done| |done]. apply Forall_cons in Hes as [He _].
    cbn [map app]. by rewrite hali2c_read_loop_nack.
  - destruct es as [|e es]; [done|]. apply Forall_cons in Hes as [He Hes].
    cbn [map app]. rewrite hali2c_read_loop_nack by done. apply IH; [done|].
    simpl in Hlen. lia.
Qed.

(** X19. [hali2c_read_with_retry] gives up after [max_attempts] raw
    reads that the slave answers with a NACK: it returns -ETIMEDOUT,
    has made exactly that many attempts and has not touched the buffer.
    With [max_attempts = 0] it still makes one attempt (the loop is a
    do-while). *)
Theorem read_with_retry_times_out es rs ws lg buf off len max_attempts :
  Forall (λ e, nack_errno e = true) es →
  length es = (1 `max` max_attempts)%nat →
  hali2c_read_with_retry (mk_bus (map RdErr es ++ rs) ws lg) buf off len max_attempts =
  (- ETIMEDOUT, buf, mk_bus rs ws lg).
Proof.
  intros Hes Hn. unfold hali2c_read_with_retry.
  apply hali2c_read_loop_timeout; [done | lia].
Qed.

Lemma read_with_retry_times_out_witness :
  Forall (λ e, nack_errno e = true) [6]%positive ∧
  length [6]%positive = (1 `max` 0)%nat ∧
  hali2c_read_with_retry (mk_bus [RdErr 6; RdData [x01; x02]] [] []) [xff; xff] 0 2 0 =
  (- ETIMEDOUT, [xff; xff], mk_bus [RdData [x01; x02]] [] []).
Proof.
  assert (Forall (λ e, nack_errno e = true) [6]%positive) as H1 by (repeat constructor).
  assert (length [6]%positive = (1 `max` 0)%nat) as H2 by reflexivity.
  exact (conj H1 (conj H2
    (read_with_retry_times_out [6]%positive [RdData [x01; x02]] [] [] [xff; xff] 0 2 0 H1 H2))).
Defined.

(** X20. [hali2c_read_with_retry] retries on a NACK only.  An error of
    the raw read that is not a NACK is returned at once, and so is a
    short read: the call then returns the number of bytes read, which is
    0, the value for success, when the raw read delivered nothing. *)
Theorem read_with_retry_no_retry rs ws lg buf off len max_attempts :
  (∀ e, nack_errno e = false →
     hali2c_read_with_retry (mk_bus (RdErr e :: rs) ws lg) buf off len max_attempts =
     (- Z.pos e, buf, mk_bus rs ws lg)) ∧
  (∀ bs, (length bs < len)%nat →
     hali2c_read_with_retry (mk_bus (RdData bs :: rs) ws lg) buf off len max_attempts =
     (Z.of_nat (length bs), list_inserts off bs buf, mk_bus rs ws lg)).
Proof.
  unfold hali2c_read_with_retry. split.
  - intros e He. unfold nack_errno in He.
    destruct (max_attempts - 1)%nat;
      cbn [hali2c_read_loop hali2c_kernel_read rd_script wr_script wire];
      (destruct (Z.eqb_spec (- Z.pos e) (Z.of_nat len)); [lia|]);
      rewrite He; reflexivity.
  - intros bs Hbs.
    assert (is_nack (Z.of_nat (length bs)) = false) as Hn.
    { by apply is_nack_nonneg, Nat2Z.is_nonneg. }
    destruct (max_attempts - 1)%nat;
      cbn [hali2c_read_loop hali2c_kernel_read rd_script wr_script wire];
      rewrite take_ge by lia;
      (destruct (Z.eqb_spec (Z.of_nat (length bs)) (Z.of_nat len)); [lia|]);
      rewrite Hn; reflexivity.
Qed.

(** An EIO error (errno 5) and a raw read that delivers no byte. *)
Lemma read_with_retry_no_retry_witness :
  nack_errno 5 = false ∧
  hali2c_read_with_retry (mk_bus [RdErr 5; RdData [x01; x02]] [] []) [xff; xff] 0 2 1000 =
    (-5, [xff; xff], mk_bus [RdData [x01; x02]] [] []) ∧
  (length (@nil byte) < 2)%nat ∧
  hali2c_read_with_retry (mk_bus [RdData []; RdData [x01; x02]] [] []) [xff; xff] 0 2 1000 =
    (0, [xff; xff], mk_bus [RdData [x01; x02]] [] []).
Proof.
  assert (nack_errno 5 = false) as H1 by reflexivity.
  assert (length (@nil byte) < 2)%nat as H2 by (simpl; lia).
  refine (conj H1 (conj _ (conj H2 _))).
  - exact (proj1 (read_with_retry_no_retry [RdData [x01; x02]] [] [] [xff; xff] 0 2 1000)
             5%positive H1).
  - exact (proj2 (read_with_retry_no_retry [RdData [x01; x02]] [] [] [xff; xff] 0 2 1000)
             [] H2).
Defined.

Lemma hali2c_write_loop_nack more e rs ws lg buf len :
  nack_errno e = true →
  hali2c_write_loop more (mk_bus rs (WrErr e :: ws) lg) buf len =
  match more with
  | O => (- ETIMEDOUT, mk_bus rs ws lg)
  | S more' => hali2c_write_loop more' (mk_bus rs ws lg) buf len
  end.
Proof.
  intros He. unfold nack_errno in He.
  destruct more; cbn [hali2c_write_loop hali2c_kernel_write rd_script wr_script wire];
    (destruct (Z.eqb_spec (- Z.pos e) (Z.of_nat len)); [lia|]);
    rewrite He; reflexivity.
Qed.

Lemma hali2c_write_loop_nacks es more rs ws lg buf len :
  Forall (λ e, nack_errno e = true) es →
  hali2c_write_loop (length es + more) (mk_bus rs (map WrErr es ++ ws) lg) buf len =
  hali2c_write_loop more (mk_bus rs ws lg) buf len.
Proof.
  induction 1 as [|e es He _ IH]; [done|].
  cbn [map app length Nat.add]. by rewrite hali2c_write_loop_nack.
Qed.

Lemma hali2c_write_loop_timeout more es rs ws lg buf len :
  Forall (λ e, nack_errno e = true) es → length es = S more →
  hali2c_write_loop more (mk_bus rs (map WrErr es ++ ws) lg) buf len =
  (- ETIMEDOUT, mk_bus rs ws lg).
Proof.
  revert es. induction more as [|more IH]; intros es Hes Hlen.
  - destruct es as [|e [|]]; [done| |done]. apply Forall_cons in Hes as [He _].
    cbn [map app]. by rewrite hali2c_write_loop_nack.
  - destruct es as [|e es]; [done|]. apply Forall_cons in Hes as [He Hes].
    cbn [map app]. rewrite hali2c_write_loop_nack by done. apply IH; [done|].
    simpl in Hlen. lia.
Qed.

(** X21. [hali2c_write_with_retry] repeats a write the slave answers
    with a NACK.  When the slave accepts the write after up to
    [max_attempts - 1] NACKs, the call returns 0 and the [len] bytes are
    on the bus once; after [max_attempts] NACKs (one, if [max_attempts]
    is 0) it returns -ETIMEDOUT and nothing is on the bus.  A write of
    which the slave takes only [n < len] bytes is not repeated: the call
    returns [n]. *)
Theorem write_with_retry_nacks es rs ws lg buf len max_attempts :
  Forall (λ e, nack_errno e = true) es →
  ((length es ≤ max_attempts - 1)%nat →
   hali2c_write_with_retry (mk_bus rs (map WrErr es ++ WrAck :: ws) lg) buf len max_attempts =
   (0, mk_bus rs ws (lg ++ [take len buf]))) ∧
  (length es = (1 `max` max_attempts)%nat →
   hali2c_write_with_retry (mk_bus rs (map WrErr es ++ ws) lg) buf len max_attempts =
   (- ETIMEDOUT, mk_bus rs ws lg)) ∧
  (∀ n, (n < len)%nat → (length es ≤ max_attempts - 1)%nat →
   hali2c_write_with_retry (mk_bus rs (map WrErr es ++ WrShort n :: ws) lg) buf len
     max_attempts =
   (Z.of_nat n, mk_bus rs ws (lg ++ [take n buf]))).
Proof.
  intros Hes. unfold hali2c_write_with_retry. split_and!.
  - intros Hn.
    replace (max_attempts - 1)%nat
      with (length es + (max_attempts - 1 - length es))%nat by lia.
    rewrite hali2c_write_loop_nacks by done.
    destruct (max_attempts - 1 - length es)%nat;
      cbn [hali2c_write_loop hali2c_kernel_write rd_script wr_script wire];
      rewrite Z.eqb_refl; reflexivity.
  - intros Hn. apply hali2c_write_loop_timeout; [done | lia].
  - intros n Hlt Hn.
    replace (max_attempts - 1)%nat
      with (length es + (max_attempts - 1 - length es))%nat by lia.
    rewrite hali2c_write_loop_nacks by done.
    destruct (max_attempts - 1 - length es)%nat;
      cbn [hali2c_write_loop hali2c_kernel_write rd_script wr_script wire];
      rewrite Nat.min_l by lia;
      (destruct (Z.eqb_spec (Z.of_nat n) (Z.of_nat len)); [lia|]);
      rewrite is_nack_nonneg by lia; reflexivity.
Qed.

Lemma write_with_retry_nacks_witness :
  Forall (λ e, nack_errno e = true) [6; 110]%positive ∧
  (length [6; 110]%positive ≤ 1000 - 1)%nat ∧
  hali2c_write_with_retry (mk_bus [] [WrErr 6; WrErr 110; WrAck; WrAck] [])
    [x5a; x00; x00; x12; x34] 3 1000 =
    (0, mk_bus [] [WrAck] [[x5a; x00; x00]]) ∧
  length [6; 110]%positive = (1 `max` 2)%nat ∧
  hali2c_write_with_retry (mk_bus [] [WrErr 6; WrErr 110; WrAck] [])
    [x5a; x00; x00; x12; x34] 3 2 =
    (- ETIMEDOUT, mk_bus [] [WrAck] []).
Proof.
  assert (Forall (λ e, nack_errno e = true) [6; 110]%positive) as H1
    by (repeat constructor).
  assert (length [6; 110]%positive ≤ 1000 - 1)%nat as H2 by (simpl; lia).
  assert (length [6; 110]%positive = (1 `max` 2)%nat) as H3 by reflexivity.
  refine (conj H1 (conj H2 (conj _ (conj H3 _)))).
  - exact (proj1 (write_with_retry_nacks [6; 110]%positive [] [WrAck] []
                    [x5a; x00; x00; x12; x34] 3 1000 H1) H2).
  - exact (proj1 (proj2 (write_with_retry_nacks [6; 110]%positive [] [WrAck] []
                    [x5a; x00; x00; x12; x34] 3 2 H1)) H3).
Defined.

Lemma hali2c_kernel_read_step bus buf off len :
  ∃ j, (j ≤ 1)%nat ∧
    rd_script (hali2c_kernel_read bus buf off len).2 = drop j (rd_script bus) ∧
    wr_script (hali2c_kernel_read bus buf off len).2 = wr_script bus ∧
    wire (hali2c_kernel_read bus buf off len).2 = wire bus.
Proof.
  unfold hali2c_kernel_read. destruct bus as [[|[bs|e] rs] ws lg]; cbn;
    [exists 0%nat | exists 1%nat | exists 1%nat]; split_and!; done || lia.
Qed.

Lemma hali2c_read_loop_attempts more bus buf off len :
  ∃ k, (k ≤ S more)%nat ∧
    rd_script (hali2c_read_loop more bus buf off len).2 = drop k (rd_script bus) ∧
    wr_script (hali2c_read_loop more bus buf off len).2 = wr_script bus ∧
    wire (hali2c_read_loop more bus buf off len).2 = wire bus.
Proof.
  revert bus buf. induction more as [|more IH]; intros bus buf;
    cbn [hali2c_read_loop];
    destruct (hali2c_kernel_read_step bus buf off len) as (j & Hj & H1 & H2 & H3);
    destruct (hali2c_kernel_read bus buf off len) as [[ret buf'] bus'];
    cbn [snd] in H1, H2, H3;
    destruct (ret =? Z.of_nat len);
    try (exists j; split_and!; [lia | done..]);
    destruct (is_nack ret);
    try (exists j; split_and!; [lia | done..]).
  destruct (IH bus' buf') as (k & Hk & K1 & K2 & K3).
  exists (j + k)%nat. split_and!; [lia | | congruence..].
  by rewrite K1, H1, drop_drop.
Qed.

Lemma hali2c_kernel_write_step bus buf len :
  ∃ j, (j ≤ 1)%nat ∧
    wr_script (hali2c_kernel_write bus buf len).2 = drop j (wr_script bus) ∧
    rd_script (hali2c_kernel_write bus buf len).2 = rd_script bus ∧
    (length (wire (hali2c_kernel_write bus buf len).2) ≤ j + length (wire bus))%nat.
Proof.
  unfold hali2c_kernel_write. destruct bus as [rs [|[|n|e] ws] lg]; cbn;
    rewrite ?length_app; cbn;
    [exists 0%nat | exists 1%nat | exists 1%nat | exists 1%nat]; split_and!; done || lia.
Qed.

Lemma hali2c_write_loop_attempts more bus buf len :
  ∃ k, (k ≤ S more)%nat ∧
    wr_script (hali2c_write_loop more bus buf len).2 = drop k (wr_script bus) ∧
    rd_script (hali2c_write_loop more bus buf len).2 = rd_script bus ∧
    (length (wire (hali2c_write_loop more bus buf len).2) ≤ k + length (wire bus))%nat.
Proof.
  revert bus. induction more as [|more IH]; intros bus;
    cbn [hali2c_write_loop];
    destruct (hali2c_kernel_write_step bus buf len) as (j & Hj & H1 & H2 & H3);
    destruct (hali2c_kernel_write bus buf len) as [ret bus'];
    cbn [snd] in H1, H2, H3;
    destruct (ret =? Z.of_nat len);
    try (exists j; split_and!; [lia | done..]);
    destruct (is_nack ret);
    try (exists j; split_and!; [lia | done..]).
  destruct (IH bus') as (k & Hk & K1 & K2 & K3).
  exists (j + k)%nat. split_and!; [lia | | congruence | lia].
  by rewrite K1, H1, drop_drop.
Qed.

(** X22. The retry loops are bounded: whatever the slave does,
    [hali2c_read_with_retry] makes at most [max_attempts] raw reads and
    [hali2c_write_with_retry] at most [max_attempts] raw writes (one, if
    [max_attempts] is 0); a read never writes and a write never reads. *)
Theorem retry_attempts_bounded bus buf off len max_attempts :
  (∃ k, (k ≤ 1 `max` max_attempts)%nat ∧
     let bus' := (hali2c_read_with_retry bus buf off len max_attempts).2 in
     rd_script bus' = drop k (rd_script bus) ∧
     wr_script bus' = wr_script bus ∧ wire bus' = wire bus) ∧
  (∃ k, (k ≤ 1 `max` max_attempts)%nat ∧
     let bus' := (hali2c_write_with_retry bus buf len max_attempts).2 in
     wr_script bus' = drop k (wr_script bus) ∧
     rd_script bus' = rd_script bus ∧
     (length (wire bus') ≤ k + length (wire bus))%nat).
Proof.
  unfold hali2c_read_with_retry, hali2c_write_with_retry. split.
  - destruct (hali2c_read_loop_attempts (max_attempts - 1) bus buf off len)
      as (k & Hk & H). exists k. split; [lia | exact H].
  - destruct (hali2c_write_loop_attempts (max_attempts - 1) bus buf len)
      as (k & Hk & H). exists k. split; [lia | exact H].
Qed.

(** ** The GPIO provider of the kernel *)

(** X23. [halgpio_kernel_open] never keeps the line: whenever it
    returns 0, it has closed the line handle the kernel gave it and
    [gpio_fd] is -1, because the path of success runs into the label
    [err].  With the device in that state
    [halgpio_kernel_enable] and [halgpio_kernel_disable] return 0
    without any call to the kernel, and [halse_se05x_power_up] with
    this provider returns 0 having neither driven the line nor used the
    bus. *)
Theorem kernel_gpio_line_is_never_driven dev os sdev bus :
  let '(ret, dev', os') := halgpio_kernel_open dev os in
  ret = 0 →
  gpio_fd dev' = -1 ∧
  (∃ fd handle calls,
     os_calls os' = os_calls os ++ calls ++ [sys_close handle; sys_close fd] ∧
     handle ≠ -1) ∧
  halgpio_kernel_enable (dev', os') = (0, (dev', os')) ∧
  halgpio_kernel_disable (dev', os') = (0, (dev', os')) ∧
  halse_se05x_power_up (Some halgpio_kernel) sdev bus (dev', os') =
    (0, halse_se05x_clear_state sdev, bus, (dev', os')).
Proof.
  unfold halgpio_kernel_open, sys_do, sys_do_close.
  destruct os as [[|[fd x] script] calls]; cbn [os_script os_calls];
    [cbn; by intros|].
  destruct (Z.eqb_spec fd (-1)); [by intros|].
  destruct script as [|[ret req_fd] script]; cbn [os_script os_calls];
    [cbn; by intros|].
  destruct (Z.eqb_spec ret 0) as [->|]; cbn [negb]; [|by intros].
  cbn [gpio_fd set_gpio_fd].
  destruct (Z.eqb_spec req_fd (-1)); [by intros|].
  intros _. cbn [gpio_fd set_gpio_fd os_calls os_script]. split_and!; [done| |done..].
  exists fd, req_fd,
    [sys_open_gpiochip (gpiochip dev);
     sys_get_linehandle fd (gpioline dev) (negb (gpio_active_low dev =? 0))].
  split; [|done]. by rewrite <- !app_assoc.
Qed.

(** The chip file opens as descriptor 3 and the kernel hands out the
    line handle 4: the handle is closed at once. *)
Lemma kernel_gpio_line_is_never_driven_witness :
  halgpio_kernel_open (mk_halgpio_kernel_dev 0 16 0 0) (mk_os [(3, 0); (0, 4)] []) =
    (0, mk_halgpio_kernel_dev 0 16 0 (-1),
     mk_os [] [sys_open_gpiochip 0; sys_get_linehandle 3 16 false;
               sys_close 4; sys_close 3]) ∧
  halgpio_kernel_enable
    (mk_halgpio_kernel_dev 0 16 0 (-1),
     mk_os [] [sys_open_gpiochip 0; sys_get_linehandle 3 16 false;
               sys_close 4; sys_close 3]) =
    (0, (mk_halgpio_kernel_dev 0 16 0 (-1),
         mk_os [] [sys_open_gpiochip 0; sys_get_linehandle 3 16 false;
                   sys_close 4; sys_close 3])) ∧
  halse_se05x_power_up (Some halgpio_kernel) (set_n_s 1 session0) bus_dead
    (mk_halgpio_kernel_dev 0 16 0 (-1),
     mk_os [] [sys_open_gpiochip 0; sys_get_linehandle 3 16 false;
               sys_close 4; sys_close 3]) =
    (0, session0, bus_dead,
     (mk_halgpio_kernel_dev 0 16 0 (-1),
      mk_os [] [sys_open_gpiochip 0; sys_get_linehandle 3 16 false;
                sys_close 4; sys_close 3])).
Proof.
  pose proof (kernel_gpio_line_is_never_driven
                (mk_halgpio_kernel_dev 0 16 0 0) (mk_os [(3, 0); (0, 4)] [])
                (set_n_s 1 session0) bus_dead eq_refl) as (_ & _ & He & _ & Hp).
  exact (conj eq_refl (conj He Hp)).
Defined.

(** ** C strings *)

Lemma starts_with_cons a pre b str :
  starts_with (String.String a pre) (String.String b str) =
  Ascii.eqb a b && starts_with pre str.
Proof.
  unfold starts_with. cbn [String.length].
  change (S (String.length str) <? S (String.length pre))%nat
    with (String.length str <? String.length pre)%nat.
  destruct (_ <? _)%nat; [by rewrite andb_false_r|]. reflexivity.
Qed.

Lemma starts_with_prefix pre str :
  starts_with pre str = true ↔ ∃ rest, str = String.append pre rest.
Proof.
  revert str. induction pre as [|a pre IH]; intros str.
  - split; [intros _; by exists str|intros _]. by destruct str.
  - destruct str as [|b str].
    + split; [done | by intros [rest ?]].
    + rewrite starts_with_cons, andb_true_iff, IH, Ascii.eqb_eq. split.
      * intros [-> [rest ->]]. by exists rest.
      * intros [rest [= -> ->]]. split; [done | by exists rest].
Qed.

(** X24. [starts_with pre str] holds exactly when [str] begins with
    [pre]: the empty prefix matches every string, and a prefix longer
    than the string matches none. *)
Theorem starts_with_is_prefix pre str :
  (starts_with pre str = true ↔ ∃ rest, str = String.append pre rest) ∧
  starts_with String.EmptyString str = true ∧
  ((String.length str < String.length pre)%nat → starts_with pre str = false).
Proof.
  split_and!.
  - apply starts_with_prefix.
  - by destruct str.
  - intros H. unfold starts_with. by destruct (Nat.ltb_spec (String.length str) (String.length pre)); [|lia].
Qed.

(** ** The table of secure elements *)

Lemma strchr_skip (a : String.string) (c : Ascii.ascii) (b : String.string) :
  strchr a c = None → strchr (String.append a b) c = strchr b c.
Proof.
  induction a as [|x a IH]; cbn [strchr String.append]; [done|].
  destruct (Ascii.eqb x c); [done | exact IH].
Qed.

Lemma halse_parse_se {E}
    (halse_open_kerkey : option String.string → E → option (halse_dev E) * E)
    (p : String.string) (e : E) :
  halse_parse halse_open_kerkey (String.append "se:"%string p) e =
  if starts_with "kerkey"%string p
  then halse_open_kerkey (option_map str_next (strchr p "@"%char)) e
  else (None, e).
Proof.
  unfold halse_parse.
  assert (starts_with "se:"%string (String.append "se:"%string p) = true) as ->
    by (apply starts_with_prefix; by eexists).
  reflexivity.
Qed.

(** X25. [halse_parse] takes a configuration of the form
    [se:kerkey...@args]: a string that does not begin with [se:] gives
    NULL without the provider being called; one that goes on with
    anything but [kerkey] also does; otherwise the provider is called,
    with the text after the first ['@'] of the configuration, or with
    NULL when there is no ['@'].  The provider name is matched as a
    prefix, so text between [kerkey] and the ['@'] is ignored. *)
Theorem halse_parse_config {E}
    (halse_open_kerkey : option String.string → E → option (halse_dev E) * E)
    (config : String.string) (e : E) :
  (starts_with "se:"%string config = false →
   halse_parse halse_open_kerkey config e = (None, e)) ∧
  (∀ p, config = String.append "se:"%string p → starts_with "kerkey"%string p = false →
   halse_parse halse_open_kerkey config e = (None, e)) ∧
  (∀ name args, config = String.append "se:kerkey"%string (String.append name (String.String "@"%char args)) →
   strchr name "@"%char = None →
   halse_parse halse_open_kerkey config e = halse_open_kerkey (Some args) e) ∧
  (∀ name, config = String.append "se:kerkey"%string name → strchr name "@"%char = None →
   halse_parse halse_open_kerkey config e = halse_open_kerkey None e).
Proof.
  split_and!.
  - unfold halse_parse. by intros ->.
  - intros p -> Hp. by rewrite halse_parse_se, Hp.
  - intros name args -> Hname.
    change (String.append "se:kerkey"%string (String.append name (String.String "@"%char args)))
      with (String.append "se:"%string
              (String.append "kerkey"%string
                 (String.append name (String.String "@"%char args)))).
    rewrite halse_parse_se.
    assert (starts_with "kerkey"%string
              (String.append "kerkey"%string
                 (String.append name (String.String "@"%char args))) = true) as ->
      by (apply starts_with_prefix; by eexists).
    change (strchr (String.append "kerkey"%string
                      (String.append name (String.String "@"%char args))) "@"%char)
      with (strchr (String.append name (String.String "@"%char args)) "@"%char).
    rewrite (strchr_skip name "@"%char (String.String "@"%char args) Hname).
    reflexivity.
  - intros name -> Hname.
    change (String.append "se:kerkey"%string name)
      with (String.append "se:"%string (String.append "kerkey"%string name)).
    rewrite halse_parse_se.
    assert (starts_with "kerkey"%string (String.append "kerkey"%string name) = true) as ->
      by (apply starts_with_prefix; by eexists).
    change (strchr (String.append "kerkey"%string name) "@"%char)
      with (strchr name "@"%char).
    by rewrite Hname.
Qed.

Lemma halse_parse_config_witness :
  halse_parse (E := unit) (λ args e, (None, e))
    "se:kerkey@i2c:kernel:/dev/i2c-0:0x20@gpio:kernel:0:n16"%string tt
  = (λ (args : option String.string) (e : unit), (@None (halse_dev unit), e))
      (Some "i2c:kernel:/dev/i2c-0:0x20@gpio:kernel:0:n16"%string) tt.
Proof.
  exact (proj1 (proj2 (proj2 (halse_parse_config (E := unit) (λ args e, (None, e))
           "se:kerkey@i2c:kernel:/dev/i2c-0:0x20@gpio:kernel:0:n16"%string tt)))
           String.EmptyString "i2c:kernel:/dev/i2c-0:0x20@gpio:kernel:0:n16"%string
           eq_refl eq_refl).
Defined.

Lemma halse_exists_get_None {E} (tbl : list (lun_se E)) lun :
  halse_exists tbl lun = false → halse_get tbl lun = None.
Proof.
  induction tbl as [|ls tbl IH]; cbn [halse_exists halse_get]; [done|].
  by destruct (_ && _).
Qed.

Lemma halse_exists_Forall {E} (tbl : list (lun_se E)) lun :
  halse_exists tbl lun = false ↔
  Forall (λ ls, ls_in_use ls = true → ls_lun ls ≠ lun) tbl.
Proof.
  induction tbl as [|ls tbl IH]; cbn [halse_exists]; [by split|].
  rewrite Forall_cons, <- IH.
  destruct (ls_in_use ls), (Z.eqb_spec (ls_lun ls) lun); cbn [andb]; split; try done;
    try (by intros [? ?]); try (by intros [H ?]; exfalso; by apply H).
  all: intros [_ ?]; done.
Qed.

Lemma free_slots_cons {E} (ls : lun_se E) tbl :
  free_slots (ls :: tbl) = ((if ls_in_use ls then 0 else 1) + free_slots tbl)%nat.
Proof.
  unfold free_slots. rewrite filter_cons.
  destruct (ls_in_use ls) eqn:Hu; case_decide; done.
Qed.

(** What [halse_open_slot] does to a table with a free slot. *)
Lemma halse_open_slot_free {E}
    (ok : option String.string → E → option (halse_dev E) * E)
    (tbl : list (lun_se E)) lun config e :
  (0 < free_slots tbl)%nat →
  ∃ tbl',
    halse_open_slot ok tbl lun config e =
      ((halse_parse ok config e).1, tbl', (halse_parse ok config e).2) ∧
    length tbl' = length tbl ∧
    S (free_slots tbl') = free_slots tbl ∧
    halse_exists tbl' lun = true ∧
    (halse_exists tbl lun = false → halse_get tbl' lun = (halse_parse ok config e).1) ∧
    (∀ l, l ≠ lun →
       halse_exists tbl' l = halse_exists tbl l ∧ halse_get tbl' l = halse_get tbl l) ∧
    (halse_exists tbl lun = false → tbl_wf tbl → tbl_wf tbl').
Proof.
  induction tbl as [|ls tbl IH]; [by intros ?%Nat.lt_irrefl|].
  rewrite free_slots_cons. cbn [halse_open_slot].
  destruct (ls_in_use ls) eqn:Hu; cbn [negb].
  - intros Hfree. destruct (IH Hfree) as (tbl' & -> & Hl & Hf & Hex & Hget & Hoth & Hwf).
    exists (ls :: tbl'). rewrite !free_slots_cons, Hu. cbn [halse_exists halse_get length].
    rewrite Hu. cbn [andb].
    split_and!; [done | by rewrite Hl | by rewrite <- Hf | | | |].
    + by destruct (_ =? _); [|exact Hex].
    + destruct (Z.eqb_spec (ls_lun ls) lun); [done | exact Hget].
    + intros l Hl'. destruct (Z.eqb_spec (ls_lun ls) l); [done | by apply Hoth].
    + destruct (Z.eqb_spec (ls_lun ls) lun) as [|Hne]; [done|].
      intros Hnex [Hhd Htl]. split; [|by apply Hwf].
      (* the slots after [ls]: the new one has number [lun], the others are as before *)
      clear IH Hwf Hget Hex Hf Hl.
      apply Forall_forall. intros ls' Hin Huse.
      destruct (Z.eq_dec (ls_lun ls') lun) as [->|Hl']; [done|].
      assert (halse_exists tbl' (ls_lun ls') = true) as Hex'.
      { clear -Hin Huse. induction tbl' as [|x t IHt]; [by apply elem_of_nil in Hin|].
        cbn [halse_exists]. apply elem_of_cons in Hin as [<-|Hin].
        - by rewrite Huse, Z.eqb_refl.
        - destruct (_ && _); [done | by apply IHt]. }
      rewrite (proj1 (Hoth _ Hl')) in Hex'.
      intros Heq. rewrite Heq in Hex'.
      apply Bool.not_false_iff_true in Hex'. apply Hex'.
      apply halse_exists_Forall. exact Hhd.
  - intros _. destruct (halse_parse ok config e) as [d e'] eqn:Hp. cbn [fst snd].
    exists (mk_lun_se true lun d :: tbl).
    rewrite !free_slots_cons. cbn [halse_exists halse_get length ls_in_use ls_lun ls_dev].
    rewrite Hu, Z.eqb_refl. cbn [andb].
    split_and!; [done | done | done | done | done | |].
    + intros l Hl'. by destruct (Z.eqb_spec lun l).
    + intros Hnex [Hhd Htl]. split; [|done]. by apply halse_exists_Forall.
Qed.

Lemma halse_open_slot_full {E}
    (ok : option String.string → E → option (halse_dev E) * E)
    (tbl : list (lun_se E)) lun config e :
  free_slots tbl = 0%nat → halse_open_slot ok tbl lun config e = (None, tbl, e).
Proof.
  induction tbl as [|ls tbl IH]; [done|].
  rewrite free_slots_cons. cbn [halse_open_slot].
  destruct (ls_in_use ls); cbn [negb]; [|done].
  intros Hfree. by rewrite IH.
Qed.

Lemma free_slots_array0 {E} : free_slots (@lun_se_array0 E) = MAX_SE_DEVICES.
Proof. reflexivity. Qed.

(** X26. [halse_open] enters the device into the first free slot: with
    a free slot in the table and the number not yet in it, the call
    returns what [halse_parse] returns, and afterwards [halse_exists]
    holds for the number and [halse_get] gives the device; the entries
    of every other number are as before, and one slot less is free. *)
Theorem halse_open_registers {E}
    (halse_open_kerkey : option String.string → E → option (halse_dev E) * E)
    (tbl : list (lun_se E)) lun config e :
  (0 < free_slots tbl)%nat → halse_exists tbl lun = false →
  ∃ tbl',
    halse_open halse_open_kerkey tbl lun (Some config) e =
      ((halse_parse halse_open_kerkey config e).1, tbl',
       (halse_parse halse_open_kerkey config e).2) ∧
    halse_exists tbl' lun = true ∧
    halse_get tbl' lun = (halse_parse halse_open_kerkey config e).1 ∧
    (∀ l, l ≠ lun →
       halse_exists tbl' l = halse_exists tbl l ∧ halse_get tbl' l = halse_get tbl l) ∧
    length tbl' = length tbl ∧ S (free_slots tbl') = free_slots tbl.
Proof.
  intros Hfree Hnex.
  destruct (halse_open_slot_free halse_open_kerkey tbl lun config e Hfree)
    as (tbl' & Ho & Hl & Hf & Hex & Hget & Hoth & _).
  exists tbl'. split_and!; auto.
Qed.

(** X27. The table holds MAX_SE_DEVICES = 16 devices: all slots of the
    zeroed table are free, and when no slot is free [halse_open]
    returns NULL, leaves the table as it is and does not call
    [halse_parse]; a NULL configuration is refused in the same way. *)
Theorem halse_open_full_table {E}
    (halse_open_kerkey : option String.string → E → option (halse_dev E) * E)
    (tbl : list (lun_se E)) lun e :
  free_slots (@lun_se_array0 E) = 16%nat ∧
  (∀ config, free_slots tbl = 0%nat →
     halse_open halse_open_kerkey tbl lun config e = (None, tbl, e)) ∧
  halse_open halse_open_kerkey tbl lun None e = (None, tbl, e).
Proof.
  split_and!; [done| |done].
  intros [config|] Hfull; [|done]. by apply halse_open_slot_full.
Qed.

Lemma halse_free_other {E} (tbl : list (lun_se E)) lun l :
  l ≠ lun →
  halse_exists (halse_free tbl lun) l = halse_exists tbl l ∧
  halse_get (halse_free tbl lun) l = halse_get tbl l.
Proof.
  intros Hl. induction tbl as [|ls tbl [IH1 IH2]]; [done|].
  cbn [halse_free]. destruct (Z.eqb_spec (ls_lun ls) lun) as [Heq|Hne];
    cbn [halse_exists halse_get ls_in_use ls_lun ls_dev].
  - destruct (Z.eqb_spec (ls_lun ls) l); [congruence|].
    by rewrite !andb_false_r.
  - by rewrite IH1, IH2.
Qed.

Lemma halse_free_exists {E} (tbl : list (lun_se E)) lun :
  tbl_wf tbl → halse_exists (halse_free tbl lun) lun = false.
Proof.
  induction tbl as [|ls tbl IH]; [done|]. intros [Hhd Htl].
  cbn [halse_free]. destruct (Z.eqb_spec (ls_lun ls) lun) as [Heq|Hne];
    cbn [halse_exists ls_in_use ls_lun].
  - cbn [andb]. apply halse_exists_Forall. by rewrite <- Heq.
  - destruct (Z.eqb_spec (ls_lun ls) lun); [done|]. rewrite andb_false_r. by apply IH.
Qed.

Lemma halse_free_wf {E} (tbl : list (lun_se E)) lun :
  tbl_wf tbl → tbl_wf (halse_free tbl lun).
Proof.
  induction tbl as [|ls tbl IH]; [done|]. intros [Hhd Htl].
  cbn [halse_free]. destruct (Z.eqb_spec (ls_lun ls) lun) as [Heq|Hne]; [done|].
  split; [|by apply IH]. cbn [tbl_wf].
  clear IH Htl. induction tbl as [|x t IHt]; [done|].
  apply Forall_cons in Hhd as [Hx Ht]. cbn [halse_free].
  destruct (Z.eqb_spec (ls_lun x) lun).
  - apply Forall_cons. split; [done | exact Ht].
  - apply Forall_cons. split; [exact Hx | by apply IHt].
Qed.

Lemma halse_free_length {E} (tbl : list (lun_se E)) lun :
  length (halse_free tbl lun) = length tbl.
Proof.
  induction tbl as [|ls tbl IH]; [done|]. cbn [halse_free].
  destruct (_ =? _); cbn [length]; by rewrite ?IH.
Qed.

Lemma halse_free_slots {E} (tbl : list (lun_se E)) lun :
  tbl_wf tbl → halse_exists tbl lun = true →
  free_slots (halse_free tbl lun) = S (free_slots tbl).
Proof.
  induction tbl as [|ls tbl IH]; [done|]. intros [Hhd Htl].
  cbn [halse_free halse_exists]. rewrite free_slots_cons.
  destruct (Z.eqb_spec (ls_lun ls) lun) as [Heq|Hne].
  - rewrite free_slots_cons. cbn [ls_in_use].
    destruct (ls_in_use ls); cbn [andb]; [done|].
    intros Hex. exfalso. apply Bool.not_false_iff_true in Hex. apply Hex.
    apply halse_exists_Forall. by rewrite <- Heq.
  - rewrite andb_false_r, free_slots_cons. intros Hex. rewrite IH by done. lia.
Qed.

Lemma halse_get_exists {E} (tbl : list (lun_se E)) lun dev :
  halse_get tbl lun = Some dev → halse_exists tbl lun = true.
Proof.
  intros Hget. destruct (halse_exists tbl lun) eqn:Hex; [done|].
  by rewrite (halse_exists_get_None _ _ Hex) in Hget.
Qed.

Lemma tbl_wf_unused {E} (tbl : list (lun_se E)) :
  Forall (λ ls, ls_in_use ls = false) tbl → tbl_wf tbl.
Proof.
  induction 1 as [|ls tbl Hu Hall IH]; [done|]. split; [|done].
  eapply Forall_impl; [exact Hall|]. intros x Hx. by rewrite Hx.
Qed.

Lemma tbl_wf_array0 {E} : tbl_wf (@lun_se_array0 E).
Proof. apply tbl_wf_unused. by apply Forall_replicate. Qed.

Lemma halse_open_registers_witness :
  (0 < free_slots (@lun_se_array0 unit))%nat ∧
  halse_exists (@lun_se_array0 unit) 7 = false ∧
  ∃ tbl',
    halse_open open_idle lun_se_array0 7 (Some "se:kerkey@i2c:kernel:/dev/i2c-0:0x20"%string) tt
      = (Some se_idle, tbl', tt) ∧
    halse_exists tbl' 7 = true ∧ halse_get tbl' 7 = Some se_idle ∧
    halse_exists tbl' 8 = false ∧ free_slots tbl' = 15%nat.
Proof.
  assert (0 < free_slots (@lun_se_array0 unit))%nat as H1 by (vm_compute; lia).
  assert (halse_exists (@lun_se_array0 unit) 7 = false) as H2 by reflexivity.
  refine (conj H1 (conj H2 _)).
  destruct (halse_open_registers open_idle lun_se_array0 7
              "se:kerkey@i2c:kernel:/dev/i2c-0:0x20"%string tt H1 H2)
    as (tbl' & Ho & Hex & Hget & Hoth & _ & Hf).
  exists tbl'. split_and!; [exact Ho | exact Hex | exact Hget | |].
  - by rewrite (proj1 (Hoth 8 ltac:(lia))).
  - change (free_slots (@lun_se_array0 unit)) with 16%nat in Hf. lia.
Defined.

(** X28. A failed [halse_open] keeps its slot: when [halse_parse]
    returns NULL (a bad configuration, a device that does not answer),
    [IFDHCreateChannelByName] returns IFD_NO_SUCH_DEVICE, but the slot
    it took stays in use with a NULL device.  From then on the number
    counts as open and cannot be opened again, and it cannot be closed
    either, so the slot is never freed. *)
Theorem failed_open_keeps_slot {E}
    (halse_open_kerkey : option String.string → E → option (halse_dev E) * E)
    (tbl : list (lun_se E)) Lun config e :
  (0 < free_slots tbl)%nat → halse_exists tbl Lun = false →
  (halse_parse halse_open_kerkey config e).1 = None →
  ∃ tbl',
    IFDHCreateChannelByName halse_open_kerkey tbl Lun (Some config) e =
      (IFD_NO_SUCH_DEVICE, tbl', (halse_parse halse_open_kerkey config e).2) ∧
    S (free_slots tbl') = free_slots tbl ∧
    halse_exists tbl' Lun = true ∧ halse_get tbl' Lun = None ∧
    (∀ name e2, IFDHCreateChannelByName halse_open_kerkey tbl' Lun name e2 =
                (IFD_NO_SUCH_DEVICE, tbl', e2)) ∧
    (∀ e2, IFDHCloseChannel tbl' Lun e2 = (IFD_NO_SUCH_DEVICE, tbl', e2)).
Proof.
  intros Hfree Hnex Hfail.
  destruct (halse_open_slot_free halse_open_kerkey tbl Lun config e Hfree)
    as (tbl' & Ho & Hl & Hf & Hex & Hget & Hoth & _).
  exists tbl'. unfold IFDHCreateChannelByName, IFDHCloseChannel, halse_open.
  rewrite Hnex, Ho, Hfail, Hex, (Hget Hnex), Hfail. by split_and!.
Qed.

(** The first of sixteen slots is lost to a configuration without the
    [se:] prefix. *)
Lemma failed_open_keeps_slot_witness :
  (0 < free_slots (@lun_se_array0 unit))%nat ∧
  halse_exists (@lun_se_array0 unit) 7 = false ∧
  (halse_parse open_idle "kerkey@i2c:kernel:/dev/i2c-0:0x20"%string tt).1 = None ∧
  ∃ tbl',
    IFDHCreateChannelByName open_idle lun_se_array0 7
      (Some "kerkey@i2c:kernel:/dev/i2c-0:0x20"%string) tt = (IFD_NO_SUCH_DEVICE, tbl', tt) ∧
    free_slots tbl' = 15%nat ∧
    IFDHCreateChannelByName open_idle tbl' 7
      (Some "se:kerkey@i2c:kernel:/dev/i2c-0:0x20"%string) tt = (IFD_NO_SUCH_DEVICE, tbl', tt) ∧
    IFDHCloseChannel tbl' 7 tt = (IFD_NO_SUCH_DEVICE, tbl', tt).
Proof.
  assert (0 < free_slots (@lun_se_array0 unit))%nat as H1 by (vm_compute; lia).
  assert (halse_exists (@lun_se_array0 unit) 7 = false) as H2 by reflexivity.
  assert ((halse_parse open_idle "kerkey@i2c:kernel:/dev/i2c-0:0x20"%string tt).1 = None)
    as H3 by reflexivity.
  refine (conj H1 (conj H2 (conj H3 _))).
  destruct (failed_open_keeps_slot open_idle lun_se_array0 7
              "kerkey@i2c:kernel:/dev/i2c-0:0x20"%string tt H1 H2 H3)
    as (tbl' & Hc & Hf & _ & _ & Hagain & Hclose).
  exists tbl'. split_and!; [exact Hc | | apply Hagain | apply Hclose].
  change (free_slots (@lun_se_array0 unit)) with 16%nat in Hf. lia.
Defined.

(** X29. The life of a channel.  The entry points keep the table well
    formed ([tbl_wf]: no slot in use has the number of a slot before
    it), from the zeroed table on.  In such a table, closing a channel
    that is open calls the [close] of its device, returns IFD_SUCCESS
    and frees its slot: the number is not in the table any more, one
    more slot is free, and the other channels are as before. *)
Theorem channel_life_cycle {E}
    (halse_open_kerkey : option String.string → E → option (halse_dev E) * E)
    (tbl : list (lun_se E)) Lun e :
  tbl_wf (@lun_se_array0 E) ∧
  (∀ name, tbl_wf tbl →
     tbl_wf (IFDHCreateChannelByName halse_open_kerkey tbl Lun name e).1.2) ∧
  (tbl_wf tbl → tbl_wf (IFDHCloseChannel tbl Lun e).1.2) ∧
  (∀ dev, tbl_wf tbl → halse_get tbl Lun = Some dev →
     ∃ tbl',
       IFDHCloseChannel tbl Lun e = (IFD_SUCCESS, tbl', se_close dev e) ∧
       halse_exists tbl' Lun = false ∧
       free_slots tbl' = S (free_slots tbl) ∧ length tbl' = length tbl ∧
       ∀ l, l ≠ Lun →
         halse_exists tbl' l = halse_exists tbl l ∧ halse_get tbl' l = halse_get tbl l).
Proof.
  split_and!.
  - apply tbl_wf_array0.
  - intros name Hwf. unfold IFDHCreateChannelByName, halse_open.
    destruct (halse_exists tbl Lun) eqn:Hex; [done|].
    destruct name as [config|]; [|done].
    destruct (Nat.eq_dec (free_slots tbl) 0%nat) as [Hfull|Hfree].
    + by rewrite halse_open_slot_full.
    + destruct (halse_open_slot_free halse_open_kerkey tbl Lun config e ltac:(lia))
        as (tbl' & -> & _ & _ & _ & _ & _ & Hwf').
      destruct (halse_parse _ _ _).1; by apply Hwf'.
  - intros Hwf. unfold IFDHCloseChannel.
    destruct (halse_get tbl Lun); [by apply halse_free_wf | done].
  - intros dev Hwf Hget. unfold IFDHCloseChannel. rewrite Hget.
    eexists. split_and!; [reflexivity | by apply halse_free_exists | |
                          apply halse_free_length | intros; by apply halse_free_other].
    apply halse_free_slots; [done | by eapply halse_get_exists].
Qed.

(** X30. For a number that is not in the table every entry point that
    takes one returns IFD_NO_SUCH_DEVICE, calls no device and leaves
    the table, the buffers and the lengths of the caller as they are. *)
Theorem unknown_lun_is_refused {E} (tbl : list (lun_se E)) Lun e :
  halse_exists tbl Lun = false →
  IFDHCloseChannel tbl Lun e = (IFD_NO_SUCH_DEVICE, tbl, e) ∧
  (∀ Tag Length Value,
     IFDHGetCapabilities tbl Lun Tag Length Value e = (IFD_NO_SUCH_DEVICE, Length, Value, e)) ∧
  (∀ Action Atr AtrLength,
     IFDHPowerICC tbl Lun Action Atr AtrLength e = (IFD_NO_SUCH_DEVICE, Atr, AtrLength, e)) ∧
  (∀ SendPci Tx TxLength Rx RxLength RecvPci,
     IFDHTransmitToICC tbl Lun SendPci Tx TxLength Rx RxLength RecvPci e =
     (IFD_NO_SUCH_DEVICE, Rx, RxLength, RecvPci, e)) ∧
  IFDHICCPresence tbl Lun = IFD_NO_SUCH_DEVICE.
Proof.
  intros Hex. apply halse_exists_get_None in Hex.
  unfold IFDHCloseChannel, IFDHGetCapabilities, IFDHPowerICC, IFDHTransmitToICC,
    IFDHICCPresence.
  rewrite Hex. by split_and!.
Qed.

Lemma unknown_lun_is_refused_witness :
  halse_exists (@lun_se_array0 unit) 0 = false ∧
  IFDHTransmitToICC (@lun_se_array0 unit) 0 (1, 8) (Some apdu_select) 4
    (Some [xff; xff]) (Some 2%nat) (0, 0) tt =
  (IFD_NO_SUCH_DEVICE, Some [xff; xff], Some 2%nat, (0, 0), tt).
Proof.
  assert (halse_exists (@lun_se_array0 unit) 0 = false) as H by reflexivity.
  exact (conj H (proj1 (proj2 (proj2 (proj2
    (unknown_lun_is_refused (@lun_se_array0 unit) 0 tt H))))
    (1, 8) (Some apdu_select) 4%nat (Some [xff; xff]) (Some 2%nat) (0, 0))).
Defined.

(** A channel is opened in the zeroed table and closed again. *)
Lemma channel_life_cycle_witness :
  tbl_wf (<[0%nat := mk_lun_se true 7 (Some se_idle)]> (@lun_se_array0 unit)) ∧
  halse_get (<[0%nat := mk_lun_se true 7 (Some se_idle)]> (@lun_se_array0 unit)) 7
    = Some se_idle ∧
  IFDHCreateChannelByName open_idle lun_se_array0 7
    (Some "se:kerkey@i2c:kernel:/dev/i2c-0:0x20"%string) tt =
    (IFD_SUCCESS, <[0%nat := mk_lun_se true 7 (Some se_idle)]> lun_se_array0, tt) ∧
  ∃ tbl',
    IFDHCloseChannel (<[0%nat := mk_lun_se true 7 (Some se_idle)]> lun_se_array0) 7 tt =
      (IFD_SUCCESS, tbl', tt) ∧
    halse_exists tbl' 7 = false ∧ free_slots tbl' = 16%nat.
Proof.
  set (tbl := <[0%nat := mk_lun_se true 7 (Some se_idle)]> (@lun_se_array0 unit)).
  assert (tbl_wf tbl) as H1.
  { change tbl with
      (IFDHCreateChannelByName open_idle lun_se_array0 7
         (Some "se:kerkey@i2c:kernel:/dev/i2c-0:0x20"%string) tt).1.2.
    exact (proj1 (proj2 (channel_life_cycle open_idle lun_se_array0 7 tt)) _
             (proj1 (channel_life_cycle open_idle lun_se_array0 7 tt))). }
  assert (halse_get tbl 7 = Some se_idle) as H2 by reflexivity.
  refine (conj H1 (conj H2 (conj eq_refl _))).
  destruct (proj2 (proj2 (proj2 (channel_life_cycle open_idle tbl 7 tt))) se_idle H1 H2)
    as (tbl' & Hc & Hex & Hf & _).
  exists tbl'. split_and!; [exact Hc | exact Hex | exact Hf].
Defined.
